(** * rateyourbike-server: the review service and its HTTP handlers

    A shallow embedding of [src/index.js] (the local-disk variant; the
    remote variant and the commented variant share every handler that is
    modelled here, except for how image references are produced).

    The server is glue between Express, Multer, Mongoose/MongoDB and
    Socket.IO.  The handlers are translated line by line; the library calls
    they make are modelled by their documented behaviour, each in a module
    of its own, so that the handlers below read like the JavaScript.

    Conventions of the model:
    - a JavaScript string is a [string] of 8-bit code units; white space and
      letter case are those of that range;
    - a form field that is absent is [None], one that is present is the text
      that was sent.  This is what the code reads under a name that is sent
      plainly: at most once, and never with a bracket behind it
      ([Multer.sent_plainly]).  A name that is sent twice or with a bracket
      reaches the code as an array or an object, which is not modelled;
      the statements that say how every submission is answered name the
      condition ([regular]);
    - a JavaScript number is NaN, an infinity, or the rational value of a
      binary64: a numeric text is rounded to the nearest binary64, a tie
      going to the even significand, as [Number] does in V8; the sign of
      zero is not kept;
    - the clock, the random source, the identifier generator, the image
      decoder and the reachability of the database are inputs of a request. *)

From Stdlib Require Import String Ascii List Bool Arith ZArith NArith QArith Lia.
From Stdlib Require Import Sorting.Sorted.
From Stdlib Require Import DecimalString DecimalZ.
Import ListNotations.

Local Open Scope string_scope.
Local Open Scope Z_scope.

(* ================================================================== *)
(** ** JavaScript values used by the handlers                          *)
(* ================================================================== *)

Module JS.

(** [req.body.x], [req.query.x]: [undefined] or a string. *)
Definition value := option string.

(** ToBoolean: [undefined] and the empty string are falsy. *)
Definition truthy (v : value) : bool :=
  match v with
  | None => false
  | Some s => negb (s =? "")%string
  end.

(** The code units matched by [\s] and trimmed by ToNumber: TAB, LF, VT,
    FF, CR, SP and NBSP. *)
Definition is_space (c : ascii) : bool :=
  let n := nat_of_ascii c in
  ((9 <=? n) && (n <=? 13) || (n =? 32) || (n =? 160))%nat.

(** [s.replace(/\s+/g, '')]: the scan copies code units until a white
    space starts a match; the match extends over the whole run ([+] is
    greedy), is replaced by the empty string, and the scan resumes behind
    it. *)
Fixpoint replace_spaces (s : string) : string :=
  match s with
  | EmptyString => EmptyString
  | String c s' =>
      if is_space c then
        (fix in_run (t : string) : string :=
           match t with
           | EmptyString => EmptyString
           | String d t' =>
               if is_space d then in_run t'
               else String d (replace_spaces t')
           end) s'
      else String c (replace_spaces s')
  end.

(** *** Numbers *)

Inductive number :=
| NaN
| Inf (negative : bool)
| Fin (q : Q).

(** [x < y] and [x > y] on numbers; every comparison with NaN is false. *)
Definition ltb (x y : number) : bool :=
  match x, y with
  | NaN, _ | _, NaN => false
  | Inf true, Inf true => false
  | Inf true, _ => true
  | _, Inf true => false
  | Inf false, _ => false
  | _, Inf false => true
  | Fin a, Fin b => negb (Qle_bool b a)
  end.

Definition gtb (x y : number) : bool := ltb y x.

(** [x <= y]: false with NaN, otherwise the negation of [y < x]. *)
Definition leb (x y : number) : bool :=
  match x, y with
  | NaN, _ | _, NaN => false
  | _, _ => negb (ltb y x)
  end.

Definition isNaN (x : number) : bool :=
  match x with NaN => true | _ => false end.

Definition of_Z (z : Z) : number := Fin (inject_Z z).

(** *** The Number value of a real

    The binary64 nearest to a rational, a tie going to the even
    significand: 53 bits of precision, the last bit weighing at least
    [2^-1074], and an infinity from [2^1024] on. *)

(** The integer nearest to [n / d], for [0 <= n] and [0 < d]. *)
Definition nearest_even (n d : Z) : Z :=
  let q := n / d in
  match 2 * (n mod d) ?= d with
  | Lt => q
  | Gt => q + 1
  | Eq => if Z.even q then q else q + 1
  end.

(** [2 ^ k], and 1 for a negative [k]. *)
Definition pow2 (k : Z) : Z := 2 ^ Z.max 0 k.

(** The binary64 nearest to [n / d] for positive [n] and [d]; [None] for
    an overflow.  [e] is the exponent of the leading bit of [n / d], [u]
    the weight of the last bit of the significand, [m] the significand. *)
Definition round_pos (n d : Z) : option Q :=
  let e0 := Z.log2 n - Z.log2 d in
  let e := if n * pow2 (- e0) <? d * pow2 e0 then e0 - 1 else e0 in
  let u := Z.max (e - 52) (-1074) in
  let m := nearest_even (n * pow2 (- u)) (d * pow2 u) in
  if 2 ^ 1024 <=? m * pow2 u then None
  else Some (Qred (m * pow2 u # Z.to_pos (pow2 (- u)))).

Definition binary64 (q : Q) : number :=
  let r := Qred q in
  match Qnum r with
  | 0 => Fin 0
  | Zpos n =>
      match round_pos (Zpos n) (Zpos (Qden r)) with
      | Some v => Fin v
      | None => Inf false
      end
  | Zneg n =>
      match round_pos (Zpos n) (Zpos (Qden r)) with
      | Some v => Fin (- v)
      | None => Inf true
      end
  end.

(** *** StringToNumber *)

Definition digit_of (base : Z) (c : ascii) : option Z :=
  let n := Z.of_nat (nat_of_ascii c) in
  let d :=
    if (48 <=? n) && (n <=? 57) then Some (n - 48)
    else if (97 <=? n) && (n <=? 102) then Some (n - 87)
    else if (65 <=? n) && (n <=? 70) then Some (n - 55)
    else None in
  match d with
  | Some v => if v <? base then Some v else None
  | None => None
  end.

(** Reads the longest run of digits of [base]: its value on top of [acc],
    how many digits were read, and the rest of the text. *)
Fixpoint digits (base : Z) (acc : Z) (n : nat) (s : string)
  : Z * nat * string :=
  match s with
  | EmptyString => (acc, n, s)
  | String c s' =>
      match digit_of base c with
      | Some d => digits base (base * acc + d) (S n) s'
      | None => (acc, n, s)
      end
  end.

Fixpoint trim_start (s : string) : string :=
  match s with
  | EmptyString => EmptyString
  | String c s' => if is_space c then trim_start s' else s
  end.

Fixpoint trim_end (s : string) : string :=
  match s with
  | EmptyString => EmptyString
  | String c s' =>
      match trim_end s' with
      | EmptyString => if is_space c then EmptyString else String c EmptyString
      | t => String c t
      end
  end.

Definition trim (s : string) : string := trim_end (trim_start s).

(** NonDecimalIntegerLiteral: [0x], [0o], [0b] followed by at least one
    digit of the base and nothing else. *)
Definition radix_literal (base : Z) (s : string) : number :=
  match digits base 0 0%nat s with
  | (v, S _, EmptyString) => binary64 (inject_Z v)
  | _ => NaN
  end.

(** An optional sign in front of digits. *)
Definition sign (s : string) : bool * string :=
  match s with
  | String c t =>
      if (c =? "-")%char then (true, t)
      else if (c =? "+")%char then (false, t)
      else (false, s)
  | EmptyString => (false, s)
  end.

(** An optional exponent part: [e] or [E], an optional sign, digits. *)
Definition exponent (s : string) : option (Z * string) :=
  match s with
  | String c s' =>
      if (c =? "e")%char || (c =? "E")%char then
        let '(neg, s'') := sign s' in
        match digits 10 0 0%nat s'' with
        | (v, S _, rest) => Some (if neg then - v else v, rest)
        | _ => None
        end
      else Some (0, s)
  | EmptyString => Some (0, s)
  end.

(** An optional fraction part: a dot and digits (possibly none). *)
Definition fraction (s : string) : Z * nat * string :=
  match s with
  | String c t => if (c =? ".")%char then digits 10 0 0%nat t else (0, 0%nat, s)
  | EmptyString => (0, 0%nat, s)
  end.

(** StrUnsignedDecimalLiteral, after the sign: the mathematical value of
    the literal, rounded. *)
Definition unsigned_decimal (neg : bool) (s : string) : number :=
  if (s =? "Infinity")%string then Inf neg
  else
    let '(ip, ni, r1) := digits 10 0 0%nat s in
    let '(fp, nf, r2) := fraction r1 in
    match (ni + nf)%nat with
    | O => NaN
    | S _ =>
        match exponent r2 with
        | Some (e, EmptyString) =>
            let mant := ip * 10 ^ Z.of_nat nf + fp in
            let m := if neg then - mant else mant in
            binary64 (inject_Z m * Qpower (10 # 1) (e - Z.of_nat nf))
        | _ => NaN
        end
    end.

(** The prefix of a NonDecimalIntegerLiteral: its base and the rest. *)
Definition radix_prefix (s : string) : option (Z * string) :=
  match s with
  | String c (String d t) =>
      if (c =? "0")%char then
        if (d =? "x")%char || (d =? "X")%char then Some (16, t)
        else if (d =? "o")%char || (d =? "O")%char then Some (8, t)
        else if (d =? "b")%char || (d =? "B")%char then Some (2, t)
        else None
      else None
  | _ => None
  end.

(** ToNumber on a string: white space is trimmed; the empty text is 0;
    what is not a numeric literal is NaN. *)
Definition ToNumber (s : string) : number :=
  let t := trim s in
  if (t =? "")%string then of_Z 0
  else
    match radix_prefix t with
    | Some (base, rest) => radix_literal base rest
    | None => let '(neg, rest) := sign t in unsigned_decimal neg rest
    end.

(** [Number(v)]: [Number(undefined)] is NaN. *)
Definition Number (v : value) : number :=
  match v with
  | None => NaN
  | Some s => ToNumber s
  end.

(** [v < k] and [v > k] for a body field and a numeric literal: the field
    is converted with ToNumber ([undefined] gives NaN). *)
Definition lt_lit (v : value) (k : Z) : bool := ltb (Number v) (of_Z k).
Definition gt_lit (v : value) (k : Z) : bool := gtb (Number v) (of_Z k).

(** Number::toString of an integer below 10^21: decimal digits, with a
    minus sign when negative. *)
Definition string_of_integer (z : Z) : string :=
  NilZero.string_of_int (Z.to_int z).

End JS.

(* ================================================================== *)
(** ** Node's [path.extname] (POSIX)                                   *)
(* ================================================================== *)

Module Path.

Fixpoint drop_slashes (l : list ascii) : list ascii :=
  match l with
  | c :: l' => if (c =? "/")%char then drop_slashes l' else l
  | [] => []
  end.

Fixpoint until_slash (l : list ascii) : list ascii :=
  match l with
  | c :: l' => if (c =? "/")%char then [] else c :: until_slash l'
  | [] => []
  end.

(** Splits a reversed name at its first dot: the reversed text behind the
    last dot of the name, and the reversed text in front of it. *)
Fixpoint split_dot (l : list ascii) : option (list ascii * list ascii) :=
  match l with
  | [] => None
  | c :: l' =>
      if (c =? ".")%char then Some ([], l')
      else match split_dot l' with
           | Some (suffix, front) => Some (c :: suffix, front)
           | None => None
           end
  end.

(** [path.extname(p)]: the scan runs from the end of [p]; it skips
    trailing separators, stops at the separator in front of the last
    portion, and remembers the last dot of that portion.  The result is
    empty when there is no dot, when nothing stands in front of the dot,
    and when the portion is [..]; otherwise it runs from the last dot to
    the end of the portion. *)
Definition extname (p : string) : string :=
  let portion := until_slash (drop_slashes (rev (list_ascii_of_string p))) in
  match split_dot portion with
  | None => ""
  | Some (suffix, front) =>
      match front, suffix with
      | [], _ => ""
      | ["."%char], [] => ""
      | _, _ => string_of_list_ascii ("."%char :: rev suffix)
      end
  end.

End Path.

(* ================================================================== *)
(** ** The database's regular expressions ([$regex] with [$options: 'i'])

    MongoDB compiles the pattern with PCRE.  The fragment modelled here is:
    literal characters, [\] in front of a character that is neither a
    letter nor a digit, [.], alternation, groups, and the quantifiers
    [*], [+] and [?].  A pattern that uses anything else is [Beyond] the
    model, and nothing is said about it.                               *)
(* ================================================================== *)

Module Pcre.

Inductive regex :=
| Void                      (* matches nothing *)
| Eps                       (* the empty string *)
| Chr (c : ascii)           (* a literal, compared without case *)
| Any                       (* [.]: any character but a line feed *)
| Cat (r s : regex)
| Alt (r s : regex)
| Star (r : regex).

Definition Plus (r : regex) : regex := Cat r (Star r).
Definition Opt (r : regex) : regex := Alt r Eps.

(** Case folding of the letters A to Z. *)
Definition fold (c : ascii) : ascii :=
  let n := nat_of_ascii c in
  if ((65 <=? n) && (n <=? 90))%nat then ascii_of_nat (n + 32) else c.

Definition same_letter (c d : ascii) : bool := (fold c =? fold d)%char.

Definition is_newline (c : ascii) : bool := (nat_of_ascii c =? 10)%nat.

Fixpoint nullable (r : regex) : bool :=
  match r with
  | Void | Chr _ | Any => false
  | Eps | Star _ => true
  | Cat r s => nullable r && nullable s
  | Alt r s => nullable r || nullable s
  end.

(** The residual of [r] after reading [c]. *)
Fixpoint deriv (c : ascii) (r : regex) : regex :=
  match r with
  | Void | Eps => Void
  | Chr d => if same_letter d c then Eps else Void
  | Any => if is_newline c then Void else Eps
  | Cat r s =>
      if nullable r then Alt (Cat (deriv c r) s) (deriv c s)
      else Cat (deriv c r) s
  | Alt r s => Alt (deriv c r) (deriv c s)
  | Star r => Cat (deriv c r) (Star r)
  end.

(** Does some prefix of [s] match [r]? *)
Fixpoint matches_at (r : regex) (s : string) : bool :=
  nullable r ||
  match s with
  | EmptyString => false
  | String c s' => matches_at (deriv c r) s'
  end.

(** Does [r] match somewhere in [s]?  (A [$regex] is not anchored.) *)
Fixpoint found_in (r : regex) (s : string) : bool :=
  matches_at r s ||
  match s with
  | EmptyString => false
  | String _ s' => found_in r s'
  end.

(** *** Compiling a pattern *)

Inductive compiled :=
| Pattern (r : regex)
| Invalid                   (* the database rejects the pattern *)
| Beyond.                   (* outside the modelled fragment *)

(** One nesting level while parsing: the alternatives that are complete
    and the atoms of the current one, both latest first. *)
Record frame := { alts : list regex; atoms : list regex }.

Definition empty_frame : frame := {| alts := []; atoms := [] |}.

Definition sequence (atoms_rev : list regex) : regex :=
  fold_left (fun acc a => Cat a acc) atoms_rev Eps.

Definition close (f : frame) : regex :=
  fold_left (fun acc a => Alt a acc) (alts f) (sequence (atoms f)).

Definition push (f : frame) (a : regex) : frame :=
  {| alts := alts f; atoms := a :: atoms f |}.

Definition next_alternative (f : frame) : frame :=
  {| alts := sequence (atoms f) :: alts f; atoms := [] |}.

Definition quantify (q : regex -> regex) (f : frame) : frame :=
  match atoms f with
  | a :: rest => {| alts := alts f; atoms := q a :: rest |}
  | [] => f
  end.

(** What stood in front of the current position. *)
Inductive previous := Start | Opened | Atom | Quantified.

Definition is_alnum (c : ascii) : bool :=
  let n := nat_of_ascii c in
  ((48 <=? n) && (n <=? 57) || (65 <=? n) && (n <=? 90)
   || (97 <=? n) && (n <=? 122))%nat.

(** Characters the model does not interpret: the start of a class or of
    a counted repetition, the anchors, NUL and everything above ASCII. *)
Definition unmodelled (c : ascii) : bool :=
  let n := nat_of_ascii c in
  (c =? "[")%char || (c =? "{")%char || (c =? "^")%char || (c =? "$")%char
  || (n =? 0)%nat || (128 <=? n)%nat.

Definition quantifier (c : ascii) : option (regex -> regex) :=
  if (c =? "*")%char then Some Star
  else if (c =? "+")%char then Some Plus
  else if (c =? "?")%char then Some Opt
  else None.

Fixpoint parse (s : string) (cur : frame) (stack : list frame)
    (prev : previous) : compiled :=
  match s with
  | EmptyString =>
      match stack with
      | [] => Pattern (close cur)
      | _ :: _ => Invalid                     (* missing [)] *)
      end
  | String c s' =>
      if (c =? "(")%char then parse s' empty_frame (cur :: stack) Opened
      else if (c =? ")")%char then
        match stack with
        | [] => Invalid                        (* unmatched [)] *)
        | f :: stack' => parse s' (push f (close cur)) stack' Atom
        end
      else if (c =? "|")%char then parse s' (next_alternative cur) stack Start
      else
        match quantifier c with
        | Some q =>
            match prev with
            | Atom => parse s' (quantify q cur) stack Quantified
            | Quantified => Beyond             (* lazy or possessive *)
            | Opened => if (c =? "+")%char then Invalid else Beyond
            | Start => Invalid                 (* nothing to repeat *)
            end
        | None =>
            if (c =? "\")%char then
              match s' with
              | EmptyString => Invalid         (* [\] at the end *)
              | String d s'' =>
                  if is_alnum d || unmodelled d then Beyond
                  else parse s'' (push cur (Chr d)) stack Atom
              end
            else if (c =? ".")%char then parse s' (push cur Any) stack Atom
            else if unmodelled c then Beyond
            else parse s' (push cur (Chr c)) stack Atom
        end
  end.

Definition compile (pattern : string) : compiled :=
  parse pattern empty_frame [] Start.

End Pcre.

(* ================================================================== *)
(** ** Multer: parsing a multipart request                             *)
(* ================================================================== *)

Module Multer.

(** Errors handed to Express with [next(err)].  Neither kind carries a
    [status] or [statusCode] property. *)
Inductive error :=
| MulterError (code field : string)
| Error (message : string).

(** A file part as it arrives, with what the environment answers while
    the part is handled: the clock and the random number read by the
    [filename] callback, and whether the image library can decode the
    bytes. *)
Record upload := {
  fieldname : string;
  originalname : string;
  mimetype : string;
  size : Z;                     (* bytes *)
  clock : Z;                    (* Date.now() *)
  random : Z;                   (* Math.round(Math.random() * 1E9) *)
  decodes : bool
}.

Inductive part :=
| Field (name value : string)
| File (f : upload).

(** [req.body], in the order the fields were parsed. *)
Definition body := list (string * string).

(** [req.body[name]] for a name that is sent plainly (see below):
    [undefined], or the text that was sent under the name. *)
Fixpoint lookup (name : string) (b : body) : JS.value :=
  match b with
  | [] => None
  | (k, v) :: b' => if (k =? name)%string then Some v else lookup name b'
  end.

(** Multer builds [req.body] with append-field, which folds the values of
    a name that is sent more than once into an array, and reads a name
    with a bracket behind it ([a[]], [a[0]], [a[b]]) as a path into an
    array or an object under [a].  A name is sent plainly when neither
    happens: at most one field bears the name, and no field name starts
    with the name and a bracket.  [req.body[name]] is then [undefined] or
    the string that [lookup] returns; otherwise it is an array or an
    object, which [lookup] does not describe. *)
Definition sent_plainly (name : string) (b : body) : bool :=
  (length (filter (fun kv => (fst kv =? name)%string) b) <=? 1)%nat
  && negb (existsb (fun kv => String.prefix (name ++ "[") (fst kv)) b).

(** Two refusals of Multer that [accept] below leaves out.  A part whose
    disposition has no name, or an empty one, reaches Multer without a
    field name, and current versions refuse it with MISSING_FIELD_NAME.
    The parser cuts a field value at [fieldSize] bytes, 1 MiB as long as
    the application sets no other limit, and Multer refuses a value that
    was cut with LIMIT_FIELD_VALUE.  A part is regular when neither can
    happen: it has a name, and a value takes fewer than 1 MiB bytes when
    it is sent as UTF-8, where a code unit from 128 on takes two. *)
Fixpoint utf8_size (s : string) : Z :=
  match s with
  | EmptyString => 0
  | String c s' =>
      (if (nat_of_ascii c <? 128)%nat then 1 else 2) + utf8_size s'
  end.

Definition regular_part (p : part) : bool :=
  match p with
  | Field k v => negb (k =? "")%string && (utf8_size v <? 1024 * 1024)
  | File f => negb (fieldname f =? "")%string
  end.

(** An entry of [req.files]. *)
Record file := {
  source : upload;
  destination : string;         (* folder below the uploads directory *)
  filename : string
}.

(** What the application configures: the storage callbacks, the size
    limit and the file filter.  The callbacks see the body as parsed so
    far. *)
Record options := {
  opt_destination : body -> upload -> error + string;
  opt_filename : body -> upload -> error + string;
  opt_fileSize : Z;
  opt_fileFilter : body -> upload -> error + bool
}.

(** [multer(opts).array(name, maxCount)]: the parts are handled in the
    order of the stream.  A field is appended to the body, which is kept
    as the list of the fields that were sent.  A file part
    without a file name is skipped.  Any other file part must belong to
    the expected field and must not exceed the count; it is then offered
    to the filter, placed and named by the storage, and written unless it
    reaches the limit: the parser ends a file stream with [limit] as soon
    as the bytes read are as many as [fileSize], so a file of exactly the
    limit is refused as well.  The first error ends the request. *)
Fixpoint accept (o : options) (name : string) (left : nat)
    (parts : list part) (b : body) (files : list file)
  : error + (body * list file) :=
  match parts with
  | [] => inr (b, rev files)
  | Field k v :: rest => accept o name left rest (b ++ [(k, v)])%list files
  | File f :: rest =>
      if (originalname f =? "")%string then accept o name left rest b files
      else if negb (fieldname f =? name)%string then
        inl (MulterError "LIMIT_UNEXPECTED_FILE" (fieldname f))
      else
        match left with
        | O => inl (MulterError "LIMIT_UNEXPECTED_FILE" (fieldname f))
        | S left' =>
            match opt_fileFilter o b f with
            | inl e => inl e
            | inr false => accept o name left' rest b files
            | inr true =>
                match opt_destination o b f with
                | inl e => inl e
                | inr dir =>
                    match opt_filename o b f with
                    | inl e => inl e
                    | inr fname =>
                        if opt_fileSize o <=? size f then
                          inl (MulterError "LIMIT_FILE_SIZE" (fieldname f))
                        else
                          accept o name left' rest b
                            ({| source := f; destination := dir;
                                filename := fname |} :: files)
                    end
                end
            end
        end
  end.

Definition array (o : options) (name : string) (maxCount : nat)
    (parts : list part) : error + (body * list file) :=
  accept o name maxCount parts [] [].

End Multer.

(* ================================================================== *)
(** ** Mongoose and the [bikes] collection                             *)
(* ================================================================== *)

Module Mongoose.

(** *** ObjectId: 12 bytes, written as 24 hexadecimal digits *)

Definition ObjectId := N.

Definition hex_char (d : N) : ascii :=
  ascii_of_N (if (d <? 10)%N then 48 + d else 87 + d)%N.

Fixpoint hex (digits : nat) (n : N) : string :=
  match digits with
  | O => EmptyString
  | S k => hex k (n / 16)%N ++ String (hex_char (n mod 16)%N) EmptyString
  end.

Definition toHexString (id : ObjectId) : string := hex 24 id.

Fixpoint unhex (acc : N) (s : string) : option N :=
  match s with
  | EmptyString => Some acc
  | String c s' =>
      match JS.digit_of 16 c with
      | Some d => unhex (16 * acc + Z.to_N d)%N s'
      | None => None
      end
  end.

(** Casting the text of a request to an ObjectId: 24 hexadecimal digits
    in either case; any other text is a CastError.  (Older drivers also
    take a text of 12 characters as the 12 bytes; that reading is not
    modelled.) *)
Definition castObjectId (s : string) : option ObjectId :=
  if (String.length s =? 24)%nat then unhex 0%N s else None.

(** The generator draws 12 bytes. *)
Definition newObjectId (drawn : N) : ObjectId := (drawn mod 2 ^ 96)%N.

(** *** The schema *)

Inductive worth := Yes | DefinitelyYes | No.

Record Bike := {
  _id : ObjectId;
  riderName : string;
  bikeName : string;
  modelName : string;
  purchaseYear : JS.number;
  totalKM : JS.number;
  bikeCost : JS.number;
  costPerService : JS.number;
  review : string;
  rating : JS.number;
  worthTheCost : worth;
  images : list string;
  createdAt : Z
}.

(** The object given to [new Bike({...})]. *)
Record fields := {
  f_riderName : JS.value;
  f_bikeName : JS.value;
  f_modelName : JS.value;
  f_purchaseYear : JS.number;
  f_totalKM : JS.number;
  f_bikeCost : JS.number;
  f_costPerService : JS.number;
  f_review : JS.value;
  f_rating : JS.number;
  f_worthTheCost : JS.value;
  f_images : list string
}.

(** [{ type: String, required: true }] *)
Definition required_string (v : JS.value) : option string :=
  match v with
  | Some s => if (s =? "")%string then None else Some s
  | None => None
  end.

(** [{ type: Number }] for a value that is a number already: NaN does not
    cast.  A number is never [undefined], so [required] holds and a
    [default] is not used. *)
Definition cast_number (n : JS.number) : option JS.number :=
  if JS.isNaN n then None else Some n.

(** [{ min: 1, max: 5 }] *)
Definition in_range (lo hi : Z) (n : JS.number) : bool :=
  JS.leb (JS.of_Z lo) n && JS.leb n (JS.of_Z hi).

(** [{ type: String, enum: [...], default: 'Yes' }] *)
Definition cast_worth (v : JS.value) : option worth :=
  match v with
  | None => Some Yes
  | Some s =>
      if (s =? "Yes")%string then Some Yes
      else if (s =? "Definitely Yes")%string then Some DefinitelyYes
      else if (s =? "No")%string then Some No
      else None
  end.

(** [new Bike(fields)] followed by the validation that [save] runs first:
    the document, or nothing when a path fails to cast or to validate.
    [_id] and [createdAt] are set when the document is constructed. *)
Definition validate (id : ObjectId) (now : Z) (f : fields) : option Bike :=
  match required_string (f_riderName f), required_string (f_bikeName f),
        required_string (f_modelName f), required_string (f_review f),
        cast_number (f_purchaseYear f), cast_number (f_totalKM f),
        cast_number (f_bikeCost f), cast_number (f_costPerService f),
        cast_number (f_rating f), cast_worth (f_worthTheCost f) with
  | Some rider, Some bike, Some model, Some rev,
    Some year, Some km, Some cost, Some service, Some rate, Some worth =>
      if in_range 1 5 rate then
        Some {| _id := id; riderName := rider; bikeName := bike;
                modelName := model; purchaseYear := year; totalKM := km;
                bikeCost := cost; costPerService := service; review := rev;
                rating := rate; worthTheCost := worth;
                images := f_images f; createdAt := now |}
      else None
  | _, _, _, _, _, _, _, _, _, _ => None
  end.

(** *** The collection: documents in the order of insertion *)

Definition collection := list Bike.

Fixpoint find_id (id : ObjectId) (c : collection) : option Bike :=
  match c with
  | [] => None
  | b :: c' => if (_id b =? id)%N then Some b else find_id id c'
  end.

(** [insertOne]: [_id] is unique in a collection. *)
Definition insert (b : Bike) (c : collection) : option collection :=
  match find_id (_id b) c with
  | Some _ => None
  | None => Some (c ++ [b])%list
  end.

(** [.sort({ createdAt: -1 })]; documents created at the same instant
    keep the order of insertion. *)
Fixpoint insert_desc (b : Bike) (l : list Bike) : list Bike :=
  match l with
  | [] => [b]
  | x :: l' =>
      if createdAt x <=? createdAt b then b :: l
      else x :: insert_desc b l'
  end.

Definition sort_desc (l : list Bike) : list Bike :=
  fold_right insert_desc [] l.

(** [{ $or: [{ bikeName: { $regex, $options: 'i' } },
             { modelName: { $regex, $options: 'i' } }] }] *)
Definition either_name (r : Pcre.regex) (b : Bike) : bool :=
  Pcre.found_in r (bikeName b) || Pcre.found_in r (modelName b).

End Mongoose.

(* ================================================================== *)
(** ** Express: responses, and errors that no handler takes            *)
(* ================================================================== *)

Module Express.

Inductive content :=
| Message (text : string)                 (* [{ message: text }] *)
| Document (b : Mongoose.Bike)
| Documents (l : list Mongoose.Bike)
| ErrorPage.                              (* written by Express itself *)

Record response := { status : Z; payload : content }.

(** [err.status] or [err.statusCode]; the errors of Multer and plain
    [Error] objects have neither. *)
Definition error_status (e : Multer.error) : option Z := None.

(** The application installs no error-handling middleware, so an error
    given to [next] reaches the default handler: the status of the error
    when it is a 4xx or 5xx code, and 500 otherwise. *)
Definition default_error_handler (e : Multer.error) : response :=
  let st :=
    match error_status e with
    | Some s => if (400 <=? s) && (s <? 600) then s else 500
    | None => 500
    end in
  {| status := st; payload := ErrorPage |}.

End Express.

(* ================================================================== *)
(** ** The application                                                 *)
(* ================================================================== *)

Module App.

Import Mongoose Express.

(** What a request can change: the collection, and what was sent on the
    notification channel.  [log] records both in the order they happen. *)
Inductive effect :=
| Inserted (b : Bike)
| Emitted (event : string) (b : Bike).

Record world := { bikes : collection; log : list effect }.

(** What the environment answers during one request. *)
Record env := {
  db_up : bool;                 (* the database can be reached *)
  now : Z;                      (* Date.now() *)
  drawn : N                     (* the bytes of the next ObjectId *)
}.

(** *** The body of an [async (req, res) => { try { ... } catch ... }]

    A step yields a value, or ends the block: a response was sent and the
    handler returned, an exception was thrown (or an awaited promise was
    rejected), or the request left the modelled fragment. *)
Inductive exit :=
| Sent (r : response)
| Thrown
| Unmodelled.

Definition T (A : Type) : Type := world -> (A + exit) * world.

Definition ret {A} (a : A) : T A := fun w => (inl a, w).

Definition bind {A B} (m : T A) (k : A -> T B) : T B :=
  fun w =>
    match m w with
    | (inl a, w') => k a w'
    | (inr x, w') => (inr x, w')
    end.

Notation "x <- m ;; k" := (bind m (fun x => k))
  (at level 61, m at next level, right associativity).
Notation "m ;; k" := (bind m (fun _ => k))
  (at level 61, right associativity).

(** [return res.status(st).json(p)] *)
Definition send {A} (st : Z) (p : content) : T A :=
  fun w => (inr (Sent {| status := st; payload := p |}), w).

Definition throw {A} : T A := fun w => (inr Thrown, w).

Definition unmodelled {A} : T A := fun w => (inr Unmodelled, w).

(** [if (c) { return ... }] *)
Definition when (c : bool) (m : T unit) : T unit :=
  if c then m else ret tt.

(** [Promise.all(list.map(async (x) => ...))]: the results in the order
    of the list, or the rejection of the first promise that fails. *)
Fixpoint Promise_all {A B} (f : A -> T B) (l : list A) : T (list B) :=
  match l with
  | [] => ret []
  | x :: l' =>
      y <- f x ;;
      ys <- Promise_all f l' ;;
      ret (y :: ys)
  end.

(** [try { block } catch (err) { res.status(500).json(...) }]; [None]
    when the request left the modelled fragment. *)
Definition try_catch (block : T Empty_set) (caught : response)
  : world -> option response * world :=
  fun w =>
    match block w with
    | (inl v, _) => match v with end
    | (inr (Sent r), w') => (Some r, w')
    | (inr Thrown, w') => (Some caught, w')
    | (inr Unmodelled, w') => (None, w')
    end.

Definition server_error : response :=
  {| status := 500; payload := Message "Server error" |}.

(** *** Library calls of the handlers *)

(** [await Bike.find().sort({ createdAt: -1 })] *)
Definition find_all (e : env) : T (list Bike) :=
  fun w => if db_up e then (inl (sort_desc (bikes w)), w) else (inr Thrown, w).

(** [await Bike.find({ $or: ... $regex ... }).sort({ createdAt: -1 }).limit(n)] *)
Definition find_regex (e : env) (pattern : string) (n : nat) : T (list Bike) :=
  fun w =>
    if db_up e then
      match Pcre.compile pattern with
      | Pcre.Pattern r =>
          (inl (firstn n (sort_desc (filter (either_name r) (bikes w)))), w)
      | Pcre.Invalid => (inr Thrown, w)
      | Pcre.Beyond => (inr Unmodelled, w)
      end
    else (inr Thrown, w).

(** [await Bike.findById(id)] *)
Definition findById (e : env) (id : string) : T (option Bike) :=
  fun w =>
    match castObjectId id with
    | None => (inr Thrown, w)
    | Some oid =>
        if db_up e then (inl (find_id oid (bikes w)), w) else (inr Thrown, w)
    end.

(** [const doc = new Bike(fields); await doc.save()] *)
Definition save (e : env) (f : fields) : T Bike :=
  fun w =>
    match validate (newObjectId (drawn e)) (now e) f with
    | None => (inr Thrown, w)
    | Some doc =>
        if db_up e then
          match insert doc (bikes w) with
          | Some c =>
              (inl doc, {| bikes := c; log := (log w ++ [Inserted doc])%list |})
          | None => (inr Thrown, w)
          end
        else (inr Thrown, w)
    end.

(** [io.emit(event, doc)] *)
Definition emit (event : string) (doc : Bike) : T unit :=
  fun w => (inl tt, {| bikes := bikes w;
                       log := (log w ++ [Emitted event doc])%list |}).

(** [await sharp(file.path).resize(...).jpeg(...).toFile(outputPath)] and
    [fs.unlinkSync(file.path)] *)
Definition sharp_toFile (file : Multer.file) : T unit :=
  if Multer.decodes (Multer.source file) then ret tt else throw.

(** *** The upload middleware, lines 44 to 80 *)

(** [`${bikeName.replace(/\s+/g, '')}-${modelName.replace(/\s+/g, '')}`] *)
Definition folderName (bikeName modelName : string) : string :=
  JS.replace_spaces bikeName ++ "-" ++ JS.replace_spaces modelName.

(** [destination]: the folder of the upload, named after the bike and the
    model in the fields parsed so far.  The callback also creates the
    folder when it is missing; the file system is not part of the model,
    and the folder stands for its path below the uploads directory. *)
Definition destination (b : Multer.body) (f : Multer.upload)
  : Multer.error + string :=
  let bikeName := Multer.lookup "bikeName" b in
  let modelName := Multer.lookup "modelName" b in
  if negb (JS.truthy bikeName) || negb (JS.truthy modelName) then
    inl (Multer.Error "Bike name and model are required")
  else
    match bikeName, modelName with
    | Some bn, Some mn => inr (folderName bn mn)
    | _, _ => inl (Multer.Error "TypeError")   (* a truthy field is a string *)
    end.

(** [filename]: the clock, a hyphen, a random integer, and the extension
    of the original name. *)
Definition filename (b : Multer.body) (f : Multer.upload)
  : Multer.error + string :=
  let uniqueSuffix :=
    JS.string_of_integer (Multer.clock f) ++ "-"
    ++ JS.string_of_integer (Multer.random f) in
  let ext := Path.extname (Multer.originalname f) in
  inr (uniqueSuffix ++ ext).

Definition allowedTypes : list string :=
  ["image/jpeg"; "image/png"; "image/gif"].

Definition includes (l : list string) (s : string) : bool :=
  existsb (String.eqb s) l.

(** [fileFilter]: the declared type must be one of [allowedTypes]. *)
Definition fileFilter (b : Multer.body) (f : Multer.upload)
  : Multer.error + bool :=
  if includes allowedTypes (Multer.mimetype f) then inr true
  else inl (Multer.Error
              "Invalid file type. Only JPEG, PNG, and GIF are allowed.").

(** [multer({ storage, limits: { fileSize: 5 * 1024 * 1024 }, fileFilter })] *)
Definition upload : Multer.options :=
  {| Multer.opt_destination := destination;
     Multer.opt_filename := filename;
     Multer.opt_fileSize := 5 * 1024 * 1024;
     Multer.opt_fileFilter := fileFilter |}.

(** *** GET /api/bikes *)

Definition list_bikes (e : env) : world -> option response * world :=
  try_catch
    (bikes <- find_all e ;;
     send 200 (Documents bikes))
    server_error.

(** *** GET /api/bikes/search *)

Definition search (e : env) (query : JS.value)
  : world -> option response * world :=
  try_catch
    (when (negb (JS.truthy query))
       (send 400 (Message "Search query is required")) ;;
     bikes <- match query with
              | Some q => find_regex e q 10
              | None => throw
              end ;;
     send 200 (Documents bikes))
    server_error.

(** *** GET /api/bikes/:id *)

Definition getById (e : env) (id : string)
  : world -> option response * world :=
  try_catch
    (bike <- findById e id ;;
     match bike with
     | None => send 404 (Message "Bike review not found")
     | Some b => send 200 (Document b)
     end)
    server_error.

(** *** POST /api/bikes/add, the handler behind the upload middleware *)

Definition add_handler (e : env) (body : Multer.body)
    (files : list Multer.file) : world -> option response * world :=
  let riderName := Multer.lookup "riderName" body in
  let bikeName := Multer.lookup "bikeName" body in
  let modelName := Multer.lookup "modelName" body in
  let purchaseYear := Multer.lookup "purchaseYear" body in
  let totalKM := Multer.lookup "totalKM" body in
  let bikeCost := Multer.lookup "bikeCost" body in
  let costPerService := Multer.lookup "costPerService" body in
  let review := Multer.lookup "review" body in
  let rating := Multer.lookup "rating" body in
  let worthTheCost := Multer.lookup "worthTheCost" body in
  try_catch
    (when (negb (JS.truthy riderName) || negb (JS.truthy bikeName)
           || negb (JS.truthy modelName) || negb (JS.truthy review)
           || negb (JS.truthy rating)
           || JS.lt_lit rating 1 || JS.gt_lit rating 5)
       (send 400 (Message "All required fields must be provided")) ;;
     when (length files <? 3)%nat
       (send 400 (Message "At least 3 images are required")) ;;
     folder <- match bikeName, modelName with
               | Some bn, Some mn => ret (folderName bn mn)
               | _, _ => throw
               end ;;
     processedImagePaths <-
       Promise_all
         (fun file =>
            let outputFilename := "compressed-" ++ Multer.filename file in
            sharp_toFile file ;;
            ret ("/uploads/" ++ folder ++ "/" ++ outputFilename))
         files ;;
     newBike <-
       save e
         {| f_riderName := riderName;
            f_bikeName := bikeName;
            f_modelName := modelName;
            f_purchaseYear := JS.Number purchaseYear;
            f_totalKM := JS.Number totalKM;
            f_bikeCost := JS.Number bikeCost;
            f_costPerService := JS.Number costPerService;
            f_review := review;
            f_rating := JS.Number rating;
            f_worthTheCost := worthTheCost;
            f_images := processedImagePaths |} ;;
     emit "newReview" newBike ;;
     send 201 (Document newBike))
    server_error.

(** The route: [upload.array('bikeImages', 5)], then the handler; an
    error of the middleware goes to Express. *)
Definition submit (e : env) (parts : list Multer.part)
  : world -> option response * world :=
  fun w =>
    match Multer.array upload "bikeImages" 5 parts with
    | inl err => (Some (default_error_handler err), w)
    | inr (body, files) => add_handler e body files w
    end.

End App.

(* ================================================================== *)
(** ** Vocabulary of the statements                                    *)
(* ================================================================== *)

Module Spec.

Import Mongoose Express App.

(** The file parts of a request that carry a file name, in the order of
    the stream: the images of a submission. *)
Fixpoint uploads (parts : list Multer.part) : list Multer.upload :=
  match parts with
  | [] => []
  | Multer.Field _ _ :: rest => uploads rest
  | Multer.File f :: rest =>
      if (Multer.originalname f =? "")%string then uploads rest
      else f :: uploads rest
  end.

(** The text fields of a request, in the order of the stream. *)
Fixpoint form (parts : list Multer.part) : Multer.body :=
  match parts with
  | [] => []
  | Multer.Field k v :: rest => (k, v) :: form rest
  | Multer.File _ :: rest => form rest
  end.

(** An image passes the file filter and the size limit: its declared
    type is allowed, and it is smaller than 5 MiB. *)
Definition allowed_type (u : Multer.upload) : bool :=
  includes allowedTypes (Multer.mimetype u).

Definition within_limit (u : Multer.upload) : bool :=
  Multer.size u <? 5 * 1024 * 1024.

Definition expected_field (u : Multer.upload) : bool :=
  (Multer.fieldname u =? "bikeImages")%string.

(** The storage can place every image: when an image arrives, the fields
    parsed so far ([b], then the fields in front of the image) hold a
    bike name and a model name. *)
Fixpoint placeable (b : Multer.body) (parts : list Multer.part) : bool :=
  match parts with
  | [] => true
  | Multer.Field k v :: rest => placeable (b ++ [(k, v)])%list rest
  | Multer.File f :: rest =>
      if (Multer.originalname f =? "")%string then placeable b rest
      else JS.truthy (Multer.lookup "bikeName" b)
           && JS.truthy (Multer.lookup "modelName" b)
           && placeable b rest
  end.

(** The per-file filters of the upload middleware. *)
Definition passes_filters (parts : list Multer.part) : bool :=
  forallb (fun u => expected_field u && allowed_type u && within_limit u)
    (uploads parts)
  && placeable [] parts.

(** The names that the storage and the handler read from the body. *)
Definition read_names : list string :=
  ["riderName"; "bikeName"; "modelName"; "purchaseYear"; "totalKM";
   "bikeCost"; "costPerService"; "review"; "rating"; "worthTheCost"].

(** A request within the reach of the model of Multer: its parts are
    regular, and every name that the code reads is sent plainly, so that
    the code reads from the body what [Multer.lookup] reads. *)
Definition regular (parts : list Multer.part) : bool :=
  forallb Multer.regular_part parts
  && forallb (fun name => Multer.sent_plainly name (form parts)) read_names.

(** The name the storage gives to an upload. *)
Definition unique_name (u : Multer.upload) : string :=
  (JS.string_of_integer (Multer.clock u) ++ "-"
   ++ JS.string_of_integer (Multer.random u))
  ++ Path.extname (Multer.originalname u).

(** How the storage names and places an accepted file, given the fields of
    the request. *)
Definition stored_as (body : Multer.body) (f : Multer.file) : Prop :=
  Multer.filename f = unique_name (Multer.source f) /\
  exists bn mn,
    Multer.lookup "bikeName" body = Some bn /\
    Multer.lookup "modelName" body = Some mn /\
    Multer.destination f = folderName bn mn.

(** A text with every white-space character removed. *)
Definition without_spaces (s : string) : string :=
  string_of_list_ascii
    (filter (fun c => negb (JS.is_space c)) (list_ascii_of_string s)).

(** The grouping key of the specification. *)
Definition grouping_key (bikeName modelName : string) : string :=
  without_spaces bikeName ++ "-" ++ without_spaces modelName.

(** The number [n] is the integer [z]. *)
Definition is_integer (n : JS.number) (z : Z) : Prop :=
  match n with
  | JS.Fin q => q == inject_Z z
  | _ => False
  end.

(** A text of decimal digits only. *)
Fixpoint all_digits (s : string) : bool :=
  match s with
  | EmptyString => true
  | String c s' =>
      let n := nat_of_ascii c in
      ((48 <=? n) && (n <=? 57))%nat && all_digits s'
  end.

(** The first test of the handler, split into the part about the
    required texts and the part about the rating. *)
Definition required_missing (body : Multer.body) : bool :=
  negb (JS.truthy (Multer.lookup "riderName" body))
  || negb (JS.truthy (Multer.lookup "bikeName" body))
  || negb (JS.truthy (Multer.lookup "modelName" body))
  || negb (JS.truthy (Multer.lookup "review" body)).

Definition rating_rejected (rating : JS.value) : bool :=
  negb (JS.truthy rating) || JS.lt_lit rating 1 || JS.gt_lit rating 5.

(** The fields of a submission that the schema accepts: the numeric
    fields are numbers and [worthTheCost] is absent or in the enum. *)
Definition storable (body : Multer.body) : bool :=
  negb (JS.isNaN (JS.Number (Multer.lookup "rating" body)))
  && negb (JS.isNaN (JS.Number (Multer.lookup "purchaseYear" body)))
  && negb (JS.isNaN (JS.Number (Multer.lookup "totalKM" body)))
  && negb (JS.isNaN (JS.Number (Multer.lookup "bikeCost" body)))
  && negb (JS.isNaN (JS.Number (Multer.lookup "costPerService" body)))
  && match cast_worth (Multer.lookup "worthTheCost" body) with
     | Some _ => true
     | None => false
     end.

(** The reference the handler returns for a stored file. *)
Definition reference (folder : string) (file : Multer.file) : string :=
  "/uploads/" ++ folder ++ "/" ++ ("compressed-" ++ Multer.filename file).

(** The object the handler gives to [new Bike]. *)
Definition new_fields (body : Multer.body) (paths : list string) : fields :=
  {| f_riderName := Multer.lookup "riderName" body;
     f_bikeName := Multer.lookup "bikeName" body;
     f_modelName := Multer.lookup "modelName" body;
     f_purchaseYear := JS.Number (Multer.lookup "purchaseYear" body);
     f_totalKM := JS.Number (Multer.lookup "totalKM" body);
     f_bikeCost := JS.Number (Multer.lookup "bikeCost" body);
     f_costPerService := JS.Number (Multer.lookup "costPerService" body);
     f_review := Multer.lookup "review" body;
     f_rating := JS.Number (Multer.lookup "rating" body);
     f_worthTheCost := Multer.lookup "worthTheCost" body;
     f_images := paths |}.

Definition created (doc : Bike) : response :=
  {| status := 201; payload := Document doc |}.

Definition bad_request (text : string) : response :=
  {| status := 400; payload := Message text |}.

(** The world after a document was inserted and announced. *)
Definition announced (w : world) (doc : Bike) : world :=
  {| bikes := (bikes w ++ [doc])%list;
     log := ((log w ++ [Inserted doc]) ++ [Emitted "newReview" doc])%list |}.

(** The handler of POST /api/bikes/add without its control flow: which
    test decides, and what is answered. *)
Definition add_result (e : env) (body : Multer.body)
    (files : list Multer.file) (w : world) : option response * world :=
  if required_missing body || rating_rejected (Multer.lookup "rating" body)
  then (Some (bad_request "All required fields must be provided"), w)
  else if (length files <? 3)%nat
  then (Some (bad_request "At least 3 images are required"), w)
  else
    match Multer.lookup "bikeName" body, Multer.lookup "modelName" body with
    | Some bn, Some mn =>
        if forallb (fun f => Multer.decodes (Multer.source f)) files then
          match validate (newObjectId (drawn e)) (now e)
                  (new_fields body (map (reference (folderName bn mn)) files))
          with
          | Some doc =>
              if db_up e then
                match find_id (_id doc) (bikes w) with
                | None => (Some (created doc), announced w doc)
                | Some _ => (Some server_error, w)
                end
              else (Some server_error, w)
          | None => (Some server_error, w)
          end
        else (Some server_error, w)
    | _, _ => (Some server_error, w)
    end.

(** A submission whose fields pass the tests of the handler and of the
    schema. *)
Definition valid_fields (body : Multer.body) : bool :=
  negb (required_missing body)
  && negb (rating_rejected (Multer.lookup "rating" body))
  && storable body.

(** The image library decodes every image of the request. *)
Definition images_decode (parts : list Multer.part) : bool :=
  forallb Multer.decodes (uploads parts).

(** The database is reachable and the new identifier is not in use. *)
Definition can_insert (e : env) (w : world) : bool :=
  db_up e &&
  match find_id (newObjectId (drawn e)) (bikes w) with
  | None => true
  | Some _ => false
  end.

(** The identifiers of a collection are pairwise different and fit in 12
    bytes. *)
Definition well_formed (w : world) : Prop :=
  NoDup (map _id (bikes w)) /\
  Forall (fun b => (_id b < 2 ^ 96)%N) (bikes w).

(** A text contains a pattern, letters compared without case. *)
Fixpoint starts_with (q s : string) : bool :=
  match q, s with
  | EmptyString, _ => true
  | String _ _, EmptyString => false
  | String c q', String d s' => Pcre.same_letter c d && starts_with q' s'
  end.

Fixpoint contains (q s : string) : bool :=
  starts_with q s ||
  match s with
  | EmptyString => false
  | String _ s' => contains q s'
  end.

Definition names_contain (q : string) (b : Bike) : bool :=
  contains q (bikeName b) || contains q (modelName b).

(** A query without a character that is special in a pattern. *)
Definition special (c : ascii) : bool :=
  existsb (Ascii.eqb c)
    ["\"; "^"; "$"; "."; "["; "|"; "("; ")"; "?"; "*"; "+"; "{"]%char
  || (nat_of_ascii c =? 0)%nat || (128 <=? nat_of_ascii c)%nat.

Fixpoint plain (q : string) : bool :=
  match q with
  | EmptyString => true
  | String c q' => negb (special c) && plain q'
  end.




(** The pattern of a plain query: its characters, one after the other. *)
Fixpoint atoms_of (q : string) : list Pcre.regex :=
  match q with
  | EmptyString => []
  | String c q' => Pcre.Chr c :: atoms_of q'
  end.

Definition newest_first (l : list Bike) : Prop :=
  StronglySorted (fun a b => createdAt b <= createdAt a) l.

End Spec.

(* ================================================================== *)
(** ** Requests used as examples                                       *)
(* ================================================================== *)

Module Scenario.

Import Mongoose Express App.

Definition picture (n : Z) (mime : string) (bytes : Z) : Multer.upload :=
  {| Multer.fieldname := "bikeImages";
     Multer.originalname := "photo.jpg";
     Multer.mimetype := mime;
     Multer.size := bytes;
     Multer.clock := 1730000000000 + n;
     Multer.random := 42 + n;
     Multer.decodes := true |}.

Definition image (n : Z) (mime : string) (bytes : Z) : Multer.part :=
  Multer.File (picture n mime bytes).

Definition jpeg (n : Z) : Multer.part := image n "image/jpeg" 204800.

Definition webp_picture : Multer.upload := picture 2 "image/webp" 204800.

Definition large_picture : Multer.upload :=
  picture 3 "image/jpeg" (6 * 1024 * 1024).

Definition texts : list Multer.part :=
  [Multer.Field "riderName" "Asha";
   Multer.Field "bikeName" "Royal Enfield";
   Multer.Field "modelName" "Himalayan";
   Multer.Field "purchaseYear" "2020";
   Multer.Field "totalKM" "15000";
   Multer.Field "bikeCost" "250000";
   Multer.Field "costPerService" "3000";
   Multer.Field "review" "Reliable tourer";
   Multer.Field "rating" "5";
   Multer.Field "worthTheCost" "Definitely Yes"].

Definition without (name : string) (parts : list Multer.part)
  : list Multer.part :=
  filter (fun p => match p with
                   | Multer.Field k _ => negb (k =? name)%string
                   | Multer.File _ => true
                   end) parts.

Definition with_rating (r : string) : list Multer.part :=
  (without "rating" texts ++ [Multer.Field "rating" r])%list.

(** The scenario with another rating. *)
Definition rated (r : string) : list Multer.part :=
  (with_rating r ++ [jpeg 1; jpeg 2; jpeg 3])%list.

(** The rating 7 with six images, and with an image of another type. *)
Definition seven_six_images : list Multer.part :=
  (with_rating "7"
   ++ [jpeg 1; jpeg 2; jpeg 3; jpeg 4; jpeg 5; jpeg 6])%list.

Definition seven_with_webp : list Multer.part :=
  (with_rating "7" ++ [jpeg 1; Multer.File webp_picture; jpeg 3])%list.

Definition two_images : list Multer.part := (texts ++ [jpeg 1; jpeg 2])%list.

Definition three_images : list Multer.part :=
  (texts ++ [jpeg 1; jpeg 2; jpeg 3])%list.

Definition six_images : list Multer.part :=
  (texts ++ [jpeg 1; jpeg 2; jpeg 3; jpeg 4; jpeg 5; jpeg 6])%list.

Definition with_webp : list Multer.part :=
  (texts ++ [jpeg 1; Multer.File webp_picture; jpeg 3])%list.

Definition two_with_webp : list Multer.part :=
  (texts ++ [jpeg 1; Multer.File webp_picture])%list.

Definition with_large : list Multer.part :=
  (texts ++ [jpeg 1; jpeg 2; Multer.File large_picture])%list.

(** An image of exactly 5 MiB. *)
Definition limit_picture : Multer.upload :=
  picture 3 "image/jpeg" (5 * 1024 * 1024).

Definition with_limit : list Multer.part :=
  (texts ++ [jpeg 1; jpeg 2; Multer.File limit_picture])%list.

Definition no_totalKM : list Multer.part :=
  (without "totalKM" texts ++ [jpeg 1; jpeg 2; jpeg 3])%list.

Definition empty : world := {| bikes := []; log := [] |}.

Definition today : env :=
  {| db_up := true; now := 1730000000999; drawn := 1234567%N |}.

Definition later : env :=
  {| db_up := true; now := 1730000500000; drawn := 7654321%N |}.

(** A stored review, for the read-only routes. *)
Definition review_of (id : N) (bike model : string) (at_ : Z) : Bike :=
  {| _id := id; riderName := "Asha"; bikeName := bike; modelName := model;
     purchaseYear := JS.of_Z 2020; totalKM := JS.of_Z 15000;
     bikeCost := JS.of_Z 250000; costPerService := JS.of_Z 3000;
     review := "Reliable tourer"; rating := JS.of_Z 5;
     worthTheCost := Yes;
     images := ["/uploads/a/compressed-1.jpg"; "/uploads/a/compressed-2.jpg";
                "/uploads/a/compressed-3.jpg"];
     createdAt := at_ |}.

Definition garage : world :=
  {| bikes := [review_of 1 "Royal Enfield" "Himalayan" 100;
               review_of 2 "Bob" "X" 200;
               review_of 3 "Yamaha (old)" "R15" 300];
     log := [] |}.

End Scenario.

(* ================================================================== *)
(** ** The routes together                                             *)
(* ================================================================== *)

From Stdlib Require Import Permutation.

Module Server.

Import Mongoose Express App.

(** The four routes of the application: [app.get('/api/bikes')],
    [app.get('/api/bikes/search')], [app.get('/api/bikes/:id')] and
    [app.post('/api/bikes/add')], each with what the handler reads from the
    request. *)
Inductive request :=
| GetBikes
| GetSearch (query : JS.value)
| GetBike (id : string)
| PostAdd (parts : list Multer.part).

Definition handle (e : env) (r : request)
  : world -> option response * world :=
  match r with
  | GetBikes => list_bikes e
  | GetSearch query => search e query
  | GetBike id => getById e id
  | PostAdd parts => submit e parts
  end.

(** The worlds that the server reaches from the empty collection, whatever
    is requested and whatever the environment answers. *)
Inductive reachable : world -> Prop :=
| reach_start : reachable {| bikes := []; log := [] |}
| reach_step e r w : reachable w -> reachable (snd (handle e r w)).

(** The worlds that follow a world. *)
Inductive evolves (w : world) : world -> Prop :=
| evolves_refl : evolves w w
| evolves_step e r w' : evolves w w' -> evolves w (snd (handle e r w')).

End Server.

(* ================================================================== *)
(** ** The variant with a remote image store                           *)
(* ================================================================== *)

Module Remote.

Import Mongoose Express App.

(** What [params] asks of the object store. *)
Record target := {
  folder : string;
  format : string;
  public_id : string
}.

(** [params]: the folder of the upload below [bike-reviews], the format,
    and a public identifier made of the clock and a random integer. *)
Definition params (b : Multer.body) (f : Multer.upload)
  : Multer.error + target :=
  let bikeName := Multer.lookup "bikeName" b in
  let modelName := Multer.lookup "modelName" b in
  if negb (JS.truthy bikeName) || negb (JS.truthy modelName) then
    inl (Multer.Error "Bike name and model are required")
  else
    match bikeName, modelName with
    | Some bn, Some mn =>
        inr {| folder := "bike-reviews/" ++ folderName bn mn;
               format := "jpeg";
               public_id := JS.string_of_integer (Multer.clock f) ++ "-"
                            ++ JS.string_of_integer (Multer.random f) |}
    | _, _ => inl (Multer.Error "TypeError")   (* a truthy field is a string *)
    end.

(** The object store: the locator of an upload that was stored, or nothing
    when the upload fails. *)
Definition store := target -> Multer.upload -> option string.

(** An entry of [req.files]: [path] is the locator that the store
    returned. *)
Record file := {
  source : Multer.upload;
  sent_to : target;
  path : string
}.

(** [multer({ storage, limits, fileFilter }).array(name, maxCount)] with
    the storage engine of the object store: as with the disk storage, but
    an accepted file is sent to the store under the target that [params]
    computes from the body parsed so far. *)
Fixpoint accept (s : store) (name : string) (left : nat)
    (parts : list Multer.part) (b : Multer.body) (files : list file)
  : Multer.error + (Multer.body * list file) :=
  match parts with
  | [] => inr (b, rev files)
  | Multer.Field k v :: rest =>
      accept s name left rest (b ++ [(k, v)])%list files
  | Multer.File f :: rest =>
      if (Multer.originalname f =? "")%string
      then accept s name left rest b files
      else if negb (Multer.fieldname f =? name)%string then
        inl (Multer.MulterError "LIMIT_UNEXPECTED_FILE" (Multer.fieldname f))
      else
        match left with
        | O => inl (Multer.MulterError "LIMIT_UNEXPECTED_FILE"
                      (Multer.fieldname f))
        | S left' =>
            match fileFilter b f with
            | inl e => inl e
            | inr false => accept s name left' rest b files
            | inr true =>
                match params b f with
                | inl e => inl e
                | inr t =>
                    if 5 * 1024 * 1024 <=? Multer.size f then
                      inl (Multer.MulterError "LIMIT_FILE_SIZE"
                             (Multer.fieldname f))
                    else
                      match s t f with
                      | None => inl (Multer.Error "upload failed")
                      | Some url =>
                          accept s name left' rest b
                            ({| source := f; sent_to := t; path := url |}
                               :: files)
                      end
                end
            end
        end
  end.

(** The handler of POST /api/bikes/add in this variant: the same tests,
    and [files.map(file => file.path)] for the images. *)
Definition add_handler (e : env) (body : Multer.body) (files : list file)
  : world -> option response * world :=
  let riderName := Multer.lookup "riderName" body in
  let bikeName := Multer.lookup "bikeName" body in
  let modelName := Multer.lookup "modelName" body in
  let purchaseYear := Multer.lookup "purchaseYear" body in
  let totalKM := Multer.lookup "totalKM" body in
  let bikeCost := Multer.lookup "bikeCost" body in
  let costPerService := Multer.lookup "costPerService" body in
  let review := Multer.lookup "review" body in
  let rating := Multer.lookup "rating" body in
  let worthTheCost := Multer.lookup "worthTheCost" body in
  try_catch
    (when (negb (JS.truthy riderName) || negb (JS.truthy bikeName)
           || negb (JS.truthy modelName) || negb (JS.truthy review)
           || negb (JS.truthy rating)
           || JS.lt_lit rating 1 || JS.gt_lit rating 5)
       (send 400 (Message "All required fields must be provided")) ;;
     when (length files <? 3)%nat
       (send 400 (Message "At least 3 images are required")) ;;
     let imageUrls := map path files in
     newBike <-
       save e
         {| f_riderName := riderName;
            f_bikeName := bikeName;
            f_modelName := modelName;
            f_purchaseYear := JS.Number purchaseYear;
            f_totalKM := JS.Number totalKM;
            f_bikeCost := JS.Number bikeCost;
            f_costPerService := JS.Number costPerService;
            f_review := review;
            f_rating := JS.Number rating;
            f_worthTheCost := worthTheCost;
            f_images := imageUrls |} ;;
     emit "newReview" newBike ;;
     send 201 (Document newBike))
    server_error.

Definition submit (s : store) (e : env) (parts : list Multer.part)
  : world -> option response * world :=
  fun w =>
    match accept s "bikeImages" 5 parts [] [] with
    | inl err => (Some (default_error_handler err), w)
    | inr (body, files) => add_handler e body files w
    end.

End Remote.

(* ================================================================== *)
(** ** Further vocabulary                                              *)
(* ================================================================== *)

Module Terms.

Import Mongoose Express App Spec.

(** The upload middleware passes the request on. *)
Definition accepted (parts : list Multer.part) : bool :=
  passes_filters parts && (length (uploads parts) <=? 5)%nat.

(** The five ways in which a submission ends. *)
Inductive verdict :=
| Refused            (* by the upload middleware *)
| FieldsRejected     (* by the first test of the handler *)
| TooFewImages       (* by the second test *)
| Failed             (* an image, the schema or the database *)
| Created.

Definition verdict_of (e : env) (parts : list Multer.part) (w : world)
  : verdict :=
  if negb (accepted parts) then Refused
  else if required_missing (form parts)
          || rating_rejected (Multer.lookup "rating" (form parts))
  then FieldsRejected
  else if (length (uploads parts) <? 3)%nat then TooFewImages
  else if images_decode parts && storable (form parts) && can_insert e w
  then Created
  else Failed.

(** What the schema and the handler guarantee of a stored record. *)
Definition well_kept (b : Bike) : Prop :=
  (3 <= length (images b) <= 5)%nat /\
  in_range 1 5 (rating b) = true /\
  riderName b <> "" /\ bikeName b <> "" /\ modelName b <> "" /\
  review b <> "" /\
  JS.isNaN (purchaseYear b) = false /\ JS.isNaN (totalKM b) = false /\
  JS.isNaN (bikeCost b) = false /\ JS.isNaN (costPerService b) = false.

(** What the channel has carried when every record of a collection was
    inserted and then announced, one after the other. *)
Definition announcements (c : collection) : list effect :=
  flat_map (fun b => [Inserted b; Emitted "newReview" b]) c.

(** The records were created at instants that grow with the order of
    insertion. *)
Definition clock_grows (c : collection) : Prop :=
  StronglySorted (fun a b => createdAt a < createdAt b) c.

(** Two texts are the same up to the case of their letters. *)
Fixpoint same_text (q q' : string) : bool :=
  match q, q' with
  | EmptyString, EmptyString => true
  | String c r, String c' r' => Pcre.same_letter c c' && same_text r r'
  | _, _ => false
  end.

(** A character that is neither a dot nor a slash. *)
Definition clean (c : ascii) : Prop := c <> "."%char /\ c <> "/"%char.


(** The target of an upload in the remote variant, for a record. *)
Definition target_of (doc : Bike) (u : Multer.upload) : Remote.target :=
  {| Remote.folder :=
       "bike-reviews/" ++ grouping_key (bikeName doc) (modelName doc);
     Remote.format := "jpeg";
     Remote.public_id := JS.string_of_integer (Multer.clock u) ++ "-"
                         ++ JS.string_of_integer (Multer.random u) |}.

(** The numeric fields of the form, each with the field of the record
    that holds it. *)
Definition numeric_fields : list (string * (Bike -> JS.number)) :=
  [("purchaseYear", purchaseYear); ("totalKM", totalKM);
   ("bikeCost", bikeCost); ("costPerService", costPerService);
   ("rating", rating)].

(** The text fields of the form, each with the field of the record that
    holds it. *)
Definition text_fields : list (string * (Bike -> string)) :=
  [("riderName", riderName); ("bikeName", bikeName);
   ("modelName", modelName); ("review", review)].

(** The values of [worthTheCost] in the form, and what is stored. *)
Definition worth_of (v : JS.value) (stored : worth) : Prop :=
  match v with
  | None => stored = Yes
  | Some s =>
      (s = "Yes" /\ stored = Yes) \/
      (s = "Definitely Yes" /\ stored = DefinitelyYes) \/
      (s = "No" /\ stored = No)
  end.

(** A record with other image references. *)
Definition with_images (doc : Bike) (refs : list string) : Bike :=
  {| _id := _id doc; riderName := riderName doc; bikeName := bikeName doc;
     modelName := modelName doc; purchaseYear := purchaseYear doc;
     totalKM := totalKM doc; bikeCost := bikeCost doc;
     costPerService := costPerService doc; review := review doc;
     rating := rating doc; worthTheCost := worthTheCost doc;
     images := refs; createdAt := createdAt doc |}.

(** The status of an answer, when there is one. *)
Definition status_of (r : option response * world) : option Z :=
  option_map status (fst r).

(** An object store that stores every upload under a locator made of the
    folder and the public identifier. *)
Definition plain_store : Remote.store :=
  fun t _ =>
    Some ("https://store.example/" ++ Remote.folder t ++ "/"
          ++ Remote.public_id t ++ "." ++ Remote.format t).

(** How the remote storage sends an accepted file, given the fields of
    the request, and what it notes of the answer. *)
Definition sent (s : Remote.store) (body : Multer.body) (f : Remote.file)
  : Prop :=
  exists bn mn,
    Multer.lookup "bikeName" body = Some bn /\
    Multer.lookup "modelName" body = Some mn /\
    Remote.sent_to f
    = {| Remote.folder := "bike-reviews/" ++ folderName bn mn;
         Remote.format := "jpeg";
         Remote.public_id :=
           JS.string_of_integer (Multer.clock (Remote.source f)) ++ "-"
           ++ JS.string_of_integer (Multer.random (Remote.source f)) |} /\
    s (Remote.sent_to f) (Remote.source f) = Some (Remote.path f).

(** An object store that never fails. *)
Definition always_stores (s : Remote.store) : Prop :=
  forall t u, s t u <> None.

(** The handler of the remote variant without its control flow. *)
Definition remote_result (e : env) (body : Multer.body)
    (files : list Remote.file) (w : world) : option response * world :=
  if required_missing body || rating_rejected (Multer.lookup "rating" body)
  then (Some (bad_request "All required fields must be provided"), w)
  else if (length files <? 3)%nat
  then (Some (bad_request "At least 3 images are required"), w)
  else
    match validate (newObjectId (drawn e)) (now e)
            (new_fields body (map Remote.path files))
    with
    | Some doc =>
        if db_up e then
          match find_id (_id doc) (bikes w) with
          | None => (Some (created doc), announced w doc)
          | Some _ => (Some server_error, w)
          end
        else (Some server_error, w)
    | None => (Some server_error, w)
    end.

(** Images under several names. *)
Definition named (n : Z) (name : string) : Multer.part :=
  Multer.File
    {| Multer.fieldname := "bikeImages";
       Multer.originalname := name;
       Multer.mimetype := "image/png";
       Multer.size := 204800;
       Multer.clock := 1730000000000 + n;
       Multer.random := 42 + n;
       Multer.decodes := true |}.

Definition mixed_names : list Multer.part :=
  (Scenario.texts
   ++ [named 1 "front.PNG"; named 2 "side"; named 3 "rear.tar.gz"])%list.

(** The world after the scenario of the specification, and after a second
    submission of the same form with other images. *)
Definition after_one : world :=
  snd (Server.handle Scenario.today (Server.PostAdd Scenario.three_images)
         Scenario.empty).

Definition after_two : world :=
  snd (Server.handle Scenario.later (Server.PostAdd Scenario.three_images)
         after_one).

End Terms.

(* ================================================================== *)
(** ** Properties of the libraries' models                             *)
(* ================================================================== *)

Import Mongoose Express App Spec.

Section Monad_laws.

Lemma Promise_all_decodes (g : Multer.file -> string) files w :
  forallb (fun f => Multer.decodes (Multer.source f)) files = true ->
  Promise_all (fun file => bind (sharp_toFile file) (fun _ => ret (g file)))
    files w = (inl (map g files), w).
Proof.
  induction files as [|f files IH]; intros H; [reflexivity|].
  simpl in H. apply andb_prop in H as [Hf Hrest]. specialize (IH Hrest).
  cbn [Promise_all map]. unfold bind, sharp_toFile, ret in *.
  rewrite Hf, IH. reflexivity.
Qed.

Lemma Promise_all_fails (g : Multer.file -> string) files w :
  forallb (fun f => Multer.decodes (Multer.source f)) files = false ->
  Promise_all (fun file => bind (sharp_toFile file) (fun _ => ret (g file)))
    files w = (inr Thrown, w).
Proof.
  induction files as [|f files IH]; intros H; [discriminate|].
  simpl in H. cbn [Promise_all]. unfold bind, sharp_toFile, ret, throw in *.
  destruct (Multer.decodes (Multer.source f)); simpl in H.
  - rewrite (IH H). reflexivity.
  - reflexivity.
Qed.

(** The handler, branch by branch. *)
Lemma add_handler_result e body files w :
  add_handler e body files w = add_result e body files w.
Proof.
  unfold add_handler, add_result, required_missing, rating_rejected,
    new_fields.
  rewrite !orb_assoc.
  unfold try_catch. unfold bind at 1. unfold when at 1.
  destruct (_ || _ || _ || _ || _ || _ || _); [reflexivity|].
  unfold ret at 1. unfold bind at 1. unfold when at 1.
  destruct (length files <? 3)%nat; [reflexivity|].
  unfold ret at 1. unfold bind at 1.
  destruct (Multer.lookup "bikeName" body) as [bn|]; [|reflexivity].
  destruct (Multer.lookup "modelName" body) as [mn|]; [|reflexivity].
  unfold ret at 1. unfold bind at 1.
  destruct (forallb (fun f => Multer.decodes (Multer.source f)) files) eqn:D.
  - rewrite (Promise_all_decodes
               (fun file => "/uploads/" ++ folderName bn mn ++ "/"
                            ++ ("compressed-" ++ Multer.filename file)) _ _ D).
    unfold bind at 1. unfold save.
    change (map _ files) with (map (reference (folderName bn mn)) files).
    destruct (validate _ _ _) as [doc|]; [|reflexivity].
    destruct (db_up e); [|reflexivity].
    unfold insert. destruct (find_id (_id doc) (bikes w)); reflexivity.
  - rewrite (Promise_all_fails
               (fun file => "/uploads/" ++ folderName bn mn ++ "/"
                            ++ ("compressed-" ++ Multer.filename file)) _ _ D).
    reflexivity.
Qed.

End Monad_laws.

Section Upload_middleware.

Lemma lookup_app name b c v :
  Multer.lookup name b = Some v ->
  Multer.lookup name (b ++ c)%list = Some v.
Proof.
  induction b as [|[k x] b IH]; simpl; [discriminate|].
  destruct (k =? name)%string; auto.
Qed.

Lemma truthy_some v : JS.truthy v = true -> exists s, v = Some s /\ s <> "".
Proof.
  destruct v as [s|]; simpl; [|discriminate].
  intros H. exists s. split; [reflexivity|].
  intros ->. discriminate.
Qed.

Lemma destination_inr b f d :
  destination b f = inr d ->
  exists bn mn,
    Multer.lookup "bikeName" b = Some bn /\
    Multer.lookup "modelName" b = Some mn /\
    bn <> "" /\ mn <> "" /\ d = folderName bn mn.
Proof.
  unfold destination.
  destruct (JS.truthy (Multer.lookup "bikeName" b)) eqn:Hb; [|discriminate].
  destruct (JS.truthy (Multer.lookup "modelName" b)) eqn:Hm; [|discriminate].
  apply truthy_some in Hb as (bn & Hb & Hbn).
  apply truthy_some in Hm as (mn & Hm & Hmn).
  rewrite Hb, Hm. simpl. intros [= <-]. exists bn, mn. auto.
Qed.

Lemma destination_truthy b f :
  JS.truthy (Multer.lookup "bikeName" b) = true ->
  JS.truthy (Multer.lookup "modelName" b) = true ->
  exists d, destination b f = inr d.
Proof.
  intros Hb Hm. unfold destination. rewrite Hb, Hm.
  apply truthy_some in Hb as (bn & -> & _).
  apply truthy_some in Hm as (mn & -> & _).
  simpl. eauto.
Qed.

Lemma accept_inr parts : forall left b files body fs,
  Multer.accept upload "bikeImages" left parts b files = inr (body, fs) ->
  body = (b ++ form parts)%list /\
  exists new,
    fs = (rev files ++ new)%list /\
    map Multer.source new = uploads parts /\
    (length (uploads parts) <= left)%nat /\
    forallb (fun u => expected_field u && allowed_type u && within_limit u)
      (uploads parts) = true /\
    placeable b parts = true /\
    Forall (stored_as body) new.
Proof.
  induction parts as [|p parts IH]; intros left b files body fs H.
  - simpl in H. injection H as <- <-. rewrite !app_nil_r.
    split; [reflexivity|]. exists []. rewrite app_nil_r.
    repeat split; simpl; auto with arith.
  - destruct p as [k v|f]; simpl in H.
    + apply IH in H as (-> & new & -> & Hsrc & Hlen & Hall & Hpl & Hst).
      rewrite <- app_assoc. simpl. split; [reflexivity|].
      exists new. repeat split; auto.
      rewrite <- app_assoc in Hst. exact Hst.
    + simpl. destruct (Multer.originalname f =? "")%string eqn:Hname.
      { apply IH in H. exact H. }
      destruct (Multer.fieldname f =? "bikeImages")%string eqn:Hfield;
        simpl in H; [|discriminate].
      destruct left as [|left]; [discriminate|].
      unfold fileFilter in H.
      destruct (includes allowedTypes (Multer.mimetype f)) eqn:Htype;
        [|discriminate].
      destruct (destination b f) as [?|dir] eqn:Hdir; [discriminate|].
      destruct (_ <=? Multer.size f) eqn:Hsize; [discriminate|].
      apply IH in H as (-> & new & -> & Hsrc & Hlen & Hall & Hpl & Hst).
      split; [reflexivity|].
      eexists (_ :: new). simpl. rewrite <- app_assoc. simpl.
      split; [reflexivity|].
      split; [rewrite Hsrc; reflexivity|].
      split; [lia|].
      apply destination_inr in Hdir as (bn & mn & Hb & Hm & Hbn & Hmn & ->).
      split.
      { rewrite Hall, andb_true_r.
        unfold expected_field, allowed_type, within_limit.
        rewrite Hfield, Htype. simpl.
        apply Z.leb_gt in Hsize. apply Z.ltb_lt in Hsize.
        exact Hsize. }
      split.
      { rewrite Hb, Hm, Hpl. simpl.
        destruct bn; [contradiction|]. destruct mn; [contradiction|].
        reflexivity. }
      constructor; [|exact Hst].
      split; [reflexivity|]. exists bn, mn. simpl.
      repeat split; auto using lookup_app.
Qed.

(** A request is accepted exactly when it passes the per-file filters
    with five images at most. *)
Lemma accept_passes parts : forall left b files,
  forallb (fun u => expected_field u && allowed_type u && within_limit u)
    (uploads parts) = true ->
  placeable b parts = true ->
  (length (uploads parts) <= left)%nat ->
  exists fs,
    Multer.accept upload "bikeImages" left parts b files
    = inr ((b ++ form parts)%list, fs).
Proof.
  induction parts as [|p parts IH]; intros left b files Hall Hpl Hlen.
  - simpl. rewrite app_nil_r. eauto.
  - destruct p as [k v|f]; simpl in *.
    + destruct (IH left (b ++ [(k, v)])%list files Hall Hpl Hlen) as [fs Hfs].
      rewrite <- app_assoc in Hfs. simpl in Hfs. eauto.
    + destruct (Multer.originalname f =? "")%string; [auto|].
      simpl in Hall, Hlen.
      apply andb_prop in Hall as [Hf Hall].
      apply andb_prop in Hf as [Hf Hsize].
      apply andb_prop in Hf as [Hfield Htype].
      apply andb_prop in Hpl as [Hb Hpl].
      apply andb_prop in Hb as [Hb Hm].
      unfold expected_field in Hfield. rewrite Hfield. simpl.
      destruct left as [|left]; [lia|].
      unfold fileFilter. unfold allowed_type in Htype. rewrite Htype.
      destruct (destination_truthy b f Hb Hm) as [d ->].
      unfold within_limit in Hsize. apply Z.ltb_lt in Hsize.
      apply Z.leb_gt in Hsize.
      change ((5242880 <=? Multer.size f) = false) in Hsize. rewrite Hsize.
      apply IH; auto. lia.
Qed.

Lemma array_inr parts body fs :
  Multer.array upload "bikeImages" 5 parts = inr (body, fs) ->
  body = form parts /\
  map Multer.source fs = uploads parts /\
  (length (uploads parts) <= 5)%nat /\
  passes_filters parts = true /\
  Forall (stored_as body) fs.
Proof.
  unfold Multer.array. intros H.
  apply accept_inr in H as (-> & new & -> & Hsrc & Hlen & Hall & Hpl & Hst).
  unfold passes_filters. rewrite Hall, Hpl. simpl. auto.
Qed.

Lemma array_accepts parts :
  passes_filters parts = true ->
  (length (uploads parts) <= 5)%nat ->
  exists fs, Multer.array upload "bikeImages" 5 parts = inr (form parts, fs).
Proof.
  unfold passes_filters, Multer.array. intros H Hlen.
  apply andb_prop in H as [Hall Hpl].
  destruct (accept_passes parts 5 [] [] Hall Hpl Hlen) as [fs Hfs].
  exists fs. exact Hfs.
Qed.

Lemma array_rejects parts :
  passes_filters parts = false \/ (5 < length (uploads parts))%nat ->
  exists err, Multer.array upload "bikeImages" 5 parts = inl err.
Proof.
  intros H.
  destruct (Multer.array upload "bikeImages" 5 parts) as [err|[body fs]] eqn:A;
    [eauto|].
  apply array_inr in A as (_ & _ & Hlen & Hpass & _).
  destruct H as [H|H]; [congruence|lia].
Qed.

Lemma length_files parts body fs :
  Multer.array upload "bikeImages" 5 parts = inr (body, fs) ->
  length fs = length (uploads parts).
Proof.
  intros H. apply array_inr in H as (_ & Hsrc & _).
  rewrite <- Hsrc, length_map. reflexivity.
Qed.

Lemma submit_accepted e parts w body fs :
  Multer.array upload "bikeImages" 5 parts = inr (body, fs) ->
  submit e parts w = add_result e body fs w.
Proof.
  intros H. unfold submit. rewrite H. apply add_handler_result.
Qed.

Lemma submit_rejected e parts w err :
  Multer.array upload "bikeImages" 5 parts = inl err ->
  submit e parts w = (Some (default_error_handler err), w).
Proof. intros H. unfold submit. rewrite H. reflexivity. Qed.

End Upload_middleware.

Section Validation.

Lemma in_range_checked n :
  JS.isNaN n = false ->
  JS.ltb n (JS.of_Z 1) = false ->
  JS.gtb n (JS.of_Z 5) = false ->
  in_range 1 5 n = true.
Proof.
  unfold in_range, JS.leb, JS.gtb, JS.of_Z.
  destruct n as [|[|]|q]; simpl; intros HN H1 H5;
    try discriminate; rewrite ?H1, ?H5; reflexivity.
Qed.

Lemma required_present v :
  JS.truthy v = true -> exists s, v = Some s /\ required_string v = Some s.
Proof.
  destruct v as [s|]; simpl; [|discriminate].
  intros H. exists s. split; [reflexivity|].
  destruct (s =? "")%string; [discriminate|reflexivity].
Qed.

Lemma cast_number_ok n : JS.isNaN n = false -> cast_number n = Some n.
Proof. unfold cast_number. intros ->. reflexivity. Qed.

Lemma negb_false b : negb b = false -> b = true.
Proof. destruct b; [reflexivity|discriminate]. Qed.

(** A submission with valid fields passes the schema. *)
Lemma validate_accepts id now_ body paths :
  valid_fields body = true ->
  exists doc, validate id now_ (new_fields body paths) = Some doc.
Proof.
  unfold valid_fields, required_missing, rating_rejected, storable.
  intros H.
  repeat match goal with
         | [ H : (_ && _) = true |- _ ] => apply andb_prop in H as [? ?]
         | [ H : negb _ = true |- _ ] => apply negb_true_iff in H
         | [ H : (_ || _) = false |- _ ] => apply orb_false_elim in H as [? ?]
         | [ H : negb _ = false |- _ ] => apply negb_false in H
         end.
  unfold validate, new_fields; simpl.
  repeat match goal with
         | [ H : JS.truthy (Multer.lookup ?k body) = true |- _ ] =>
             let s := fresh "s" in
             let E := fresh "E" in
             let R := fresh "R" in
             apply required_present in H as (s & E & R);
             try rewrite R
         end.
  repeat match goal with
         | [ H : JS.isNaN ?n = false |- _ ] =>
             rewrite (cast_number_ok n H)
         end.
  destruct (cast_worth (Multer.lookup "worthTheCost" body));
    [|discriminate].
  rewrite in_range_checked; eauto.
Qed.

(** What a validated document holds. *)
Lemma validate_some id now_ f doc :
  validate id now_ f = Some doc ->
  _id doc = id /\ createdAt doc = now_ /\ images doc = f_images f /\
  f_bikeName f = Some (bikeName doc) /\
  f_modelName f = Some (modelName doc) /\
  JS.isNaN (f_totalKM f) = false /\
  JS.isNaN (f_costPerService f) = false /\
  totalKM doc = f_totalKM f /\ costPerService doc = f_costPerService f /\
  rating doc = f_rating f /\ in_range 1 5 (rating doc) = true.
Proof.
  unfold validate, required_string, cast_number.
  destruct (f_riderName f) as [rider|]; [|discriminate].
  destruct (rider =? "")%string; [discriminate|].
  destruct (f_bikeName f) as [bike|]; [|discriminate].
  destruct (bike =? "")%string; [discriminate|].
  destruct (f_modelName f) as [model|]; [|discriminate].
  destruct (model =? "")%string; [discriminate|].
  destruct (f_review f) as [rev|]; [|discriminate].
  destruct (rev =? "")%string; [discriminate|].
  destruct (JS.isNaN (f_purchaseYear f)); [discriminate|].
  destruct (JS.isNaN (f_totalKM f)); [discriminate|].
  destruct (JS.isNaN (f_bikeCost f)); [discriminate|].
  destruct (JS.isNaN (f_costPerService f)); [discriminate|].
  destruct (JS.isNaN (f_rating f)); [discriminate|].
  destruct (cast_worth (f_worthTheCost f)); [|discriminate].
  destruct (in_range 1 5 (f_rating f)) eqn:R; [|discriminate].
  intros [= <-]. simpl. repeat split; auto.
Qed.

End Validation.

Section Text.

(** Replacing every run of white space by nothing removes exactly the
    white-space characters. *)
Lemma replace_spaces_cons c s :
  JS.replace_spaces (String c s)
  = if JS.is_space c then JS.replace_spaces s
    else String c (JS.replace_spaces s).
Proof.
  simpl. destruct (JS.is_space c); [|reflexivity].
  destruct s; reflexivity.
Qed.

Lemma replace_spaces_without s : JS.replace_spaces s = without_spaces s.
Proof.
  unfold without_spaces.
  induction s as [|c s IH]; [reflexivity|].
  rewrite replace_spaces_cons. cbn [list_ascii_of_string filter].
  destruct (JS.is_space c); simpl; rewrite IH; reflexivity.
Qed.

Lemma folderName_key bn mn : folderName bn mn = grouping_key bn mn.
Proof.
  unfold folderName, grouping_key.
  rewrite !replace_spaces_without. reflexivity.
Qed.

(** No white-space character is left, and the other characters keep
    their order. *)
Lemma without_spaces_clean s :
  forallb (fun c => negb (JS.is_space c))
    (list_ascii_of_string (without_spaces s)) = true.
Proof.
  unfold without_spaces. rewrite list_ascii_of_string_of_list_ascii.
  apply forallb_forall. intros c Hc. apply filter_In in Hc. tauto.
Qed.

End Text.

Section Submissions.

Lemma add_result_inv e body fs w r w' :
  add_result e body fs w = (r, w') ->
  (w' = w /\ exists text, r = Some (bad_request text)) \/
  (w' = w /\ r = Some server_error) \/
  (exists bn mn doc,
      required_missing body = false /\
      rating_rejected (Multer.lookup "rating" body) = false /\
      (3 <= length fs)%nat /\
      Multer.lookup "bikeName" body = Some bn /\
      Multer.lookup "modelName" body = Some mn /\
      forallb (fun f => Multer.decodes (Multer.source f)) fs = true /\
      validate (newObjectId (drawn e)) (now e)
        (new_fields body (map (reference (folderName bn mn)) fs)) = Some doc /\
      db_up e = true /\
      find_id (_id doc) (bikes w) = None /\
      r = Some (created doc) /\ w' = announced w doc).
Proof.
  unfold add_result.
  destruct (required_missing body) eqn:M; simpl.
  { intros [= <- <-]. left. eauto. }
  destruct (rating_rejected _) eqn:R.
  { intros [= <- <-]. left. eauto. }
  destruct (length fs <? 3)%nat eqn:L.
  { intros [= <- <-]. left. eauto. }
  apply Nat.ltb_ge in L.
  destruct (Multer.lookup "bikeName" body) as [bn|];
    [|intros [= <- <-]; right; left; auto].
  destruct (Multer.lookup "modelName" body) as [mn|];
    [|intros [= <- <-]; right; left; auto].
  destruct (forallb _ fs) eqn:D; [|intros [= <- <-]; right; left; auto].
  destruct (validate _ _ _) as [doc|] eqn:V;
    [|intros [= <- <-]; right; left; auto].
  destruct (db_up e) eqn:U; [|intros [= <- <-]; right; left; auto].
  destruct (find_id _ _) eqn:F; intros [= <- <-]; [right; left; auto|].
  right; right. exists bn, mn, doc. repeat split; auto.
Qed.

Lemma map_through_source (g : Multer.file -> string)
    (h : Multer.upload -> string) fs :
  Forall (fun f => g f = h (Multer.source f)) fs ->
  map g fs = map h (map Multer.source fs).
Proof.
  induction 1 as [|f fs Hf _ IH]; simpl; [reflexivity|].
  rewrite Hf, IH. reflexivity.
Qed.

Lemma decodes_through_source fs :
  forallb (fun f => Multer.decodes (Multer.source f)) fs
  = forallb Multer.decodes (map Multer.source fs).
Proof.
  induction fs as [|f fs IH]; simpl; [reflexivity|]. rewrite IH. reflexivity.
Qed.

(** A response of the default error handler is a 500. *)
Lemma default_is_500 err : status (default_error_handler err) = 500.
Proof. reflexivity. Qed.

(** The outcomes of a submission. *)
Lemma submit_inv e parts w r w' :
  submit e parts w = (r, w') ->
  (w' = w /\ exists resp, r = Some resp /\ (status resp = 400 \/ status resp = 500)) \/
  (exists body fs bn mn doc,
      Multer.array upload "bikeImages" 5 parts = inr (body, fs) /\
      required_missing body = false /\
      rating_rejected (Multer.lookup "rating" body) = false /\
      (3 <= length fs)%nat /\
      Multer.lookup "bikeName" body = Some bn /\
      Multer.lookup "modelName" body = Some mn /\
      forallb (fun f => Multer.decodes (Multer.source f)) fs = true /\
      validate (newObjectId (drawn e)) (now e)
        (new_fields body (map (reference (folderName bn mn)) fs)) = Some doc /\
      db_up e = true /\
      find_id (_id doc) (bikes w) = None /\
      r = Some (created doc) /\ w' = announced w doc).
Proof.
  destruct (Multer.array upload "bikeImages" 5 parts) as [err|[body fs]] eqn:A.
  - rewrite (submit_rejected _ _ _ _ A). intros [= <- <-].
    left. split; [reflexivity|]. eexists. split; [reflexivity|]. right.
    apply default_is_500.
  - rewrite (submit_accepted _ _ _ _ _ A). intros H.
    apply add_result_inv in H
      as [(-> & text & ->)|[(-> & ->)|(bn & mn & doc & H)]].
    + left. split; [reflexivity|]. eexists. split; [reflexivity|]. left.
      reflexivity.
    + left. split; [reflexivity|]. eexists. split; [reflexivity|]. right.
      reflexivity.
    + right. exists body, fs, bn, mn, doc. tauto.
Qed.

End Submissions.

(* ================================================================== *)
(** ** POST /api/bikes/add                                             *)
(* ================================================================== *)

(** C6.  A submission that is not answered with 201 (a validation failure
    among them, such as one with two images only) leaves the collection and
    the notification channel as they were: no record, no broadcast.  A
    submission answered with 201 adds one record, the one in the response,
    and then emits one [newReview] event that carries this record; the
    insertion comes first. *)
Theorem C6_record_and_broadcast :
  forall e parts w r w',
    submit e parts w = (r, w') ->
    exists resp,
      r = Some resp /\
      (status resp <> 201 -> w' = w) /\
      (status resp = 201 ->
       exists doc,
         payload resp = Document doc /\
         bikes w' = (bikes w ++ [doc])%list /\
         log w' = (log w ++ [Inserted doc; Emitted "newReview" doc])%list).
Proof.
  intros e parts w r w' H.
  apply submit_inv in H as [(-> & resp & -> & Hst)|H].
  - exists resp. split; [reflexivity|]. split; [reflexivity|].
    intros H201. destruct Hst as [Hst|Hst]; rewrite Hst in H201; discriminate.
  - destruct H as (body & fs & bn & mn & doc & _ & _ & _ & _ & _ & _ & _ & _
                   & _ & _ & -> & ->).
    exists (created doc). split; [reflexivity|]. split.
    + intros Hst. exfalso. apply Hst. reflexivity.
    + intros _. exists doc. simpl. rewrite <- app_assoc. auto.
Qed.

(** The scenario of the specification with two images only. *)
Lemma C6_witness :
  submit Scenario.today Scenario.two_images Scenario.empty
  = (Some (bad_request "At least 3 images are required"), Scenario.empty) /\
  exists resp,
    Some (bad_request "At least 3 images are required") = Some resp /\
    (status resp <> 201 -> Scenario.empty = Scenario.empty) /\
    (status resp = 201 ->
     exists doc,
       payload resp = Document doc /\
       bikes Scenario.empty = (bikes Scenario.empty ++ [doc])%list /\
       log Scenario.empty
       = (log Scenario.empty ++ [Inserted doc; Emitted "newReview" doc])%list).
Proof.
  split; [vm_compute; reflexivity|].
  apply (C6_record_and_broadcast Scenario.today Scenario.two_images
           Scenario.empty).
  vm_compute. reflexivity.
Defined.

(** C5 as stated fails: an image of a type that is not allowed, and an
    image above the size limit, are answered with 500, not with 400. *)
Lemma C5_counterexample :
  (In Scenario.webp_picture (uploads Scenario.with_webp) /\
   allowed_type Scenario.webp_picture = false /\
   exists r,
     fst (submit Scenario.today Scenario.with_webp Scenario.empty) = Some r
     /\ status r = 500 /\ status r <> 400) /\
  (In Scenario.large_picture (uploads Scenario.with_large) /\
   within_limit Scenario.large_picture = false /\
   exists r,
     fst (submit Scenario.today Scenario.with_large Scenario.empty) = Some r
     /\ status r = 500 /\ status r <> 400).
Proof.
  split.
  - split; [vm_compute; auto|]. split; [vm_compute; reflexivity|].
    eexists. split; [vm_compute; reflexivity|].
    split; [reflexivity|discriminate].
  - split; [vm_compute; auto|]. split; [vm_compute; reflexivity|].
    eexists. split; [vm_compute; reflexivity|].
    split; [reflexivity|discriminate].
Qed.

(** C5, amended.  A request with an image whose declared type is not one of
    jpeg, png and gif, or with an image larger than 5 MiB, is refused by
    the upload middleware; the error goes to the default error handler of
    Express, so the answer is 500, the handler does not run, and nothing is
    stored or broadcast. *)
Theorem C5_rejected_upload :
  forall e parts w u,
    In u (uploads parts) ->
    allowed_type u = false \/ within_limit u = false ->
    exists err,
      Multer.array upload "bikeImages" 5 parts = inl err /\
      submit e parts w = (Some (default_error_handler err), w) /\
      status (default_error_handler err) = 500.
Proof.
  intros e parts w u Hin Hbad.
  assert (P : passes_filters parts = false).
  { unfold passes_filters.
    destruct (forallb _ (uploads parts)) eqn:F; [|reflexivity].
    exfalso. rewrite forallb_forall in F. specialize (F u Hin).
    destruct Hbad as [Hbad|Hbad]; rewrite Hbad in F;
      rewrite ?andb_false_r in F; discriminate. }
  destruct (array_rejects parts (or_introl P)) as [err A].
  exists err. split; [exact A|]. split; [|reflexivity].
  apply submit_rejected. exact A.
Qed.

(** The scenario with an image of 6 MiB. *)
Lemma C5_witness :
    In Scenario.large_picture (uploads Scenario.with_large) /\
    (allowed_type Scenario.large_picture = false
     \/ within_limit Scenario.large_picture = false) /\
    exists err,
      Multer.array upload "bikeImages" 5 Scenario.with_large = inl err /\
      submit Scenario.today Scenario.with_large Scenario.empty
      = (Some (default_error_handler err), Scenario.empty) /\
      status (default_error_handler err) = 500.
Proof.
  assert (Hin : In Scenario.large_picture (uploads Scenario.with_large)).
  { vm_compute. right. right. left. reflexivity. }
  assert (Hbad : allowed_type Scenario.large_picture = false
                 \/ within_limit Scenario.large_picture = false).
  { right. vm_compute. reflexivity. }
  split; [exact Hin|]. split; [exact Hbad|].
  exact (C5_rejected_upload Scenario.today Scenario.with_large Scenario.empty
           Scenario.large_picture Hin Hbad).
Defined.

(** The limit itself is refused: an image of exactly 5 MiB does not pass,
    and the submission is answered with 500 by the default error
    handler. *)
Lemma limit_is_refused :
  Multer.size Scenario.limit_picture = 5 * 1024 * 1024 /\
  within_limit Scenario.limit_picture = false /\
  submit Scenario.today Scenario.with_limit Scenario.empty
  = (Some (default_error_handler
             (Multer.MulterError "LIMIT_FILE_SIZE" "bikeImages")),
     Scenario.empty).
Proof. repeat split; vm_compute; reflexivity. Qed.

(** C1 as stated fails: six valid images with valid fields are answered
    with 500 by the default error handler, not with 400; so are two images
    of which one does not pass the file filter. *)
Lemma C1_counterexample :
  (length (uploads Scenario.six_images) = 6%nat /\
   passes_filters Scenario.six_images = true /\
   valid_fields (form Scenario.six_images) = true /\
   exists r,
     fst (submit Scenario.today Scenario.six_images Scenario.empty) = Some r
     /\ status r = 500 /\ status r <> 400) /\
  (length (uploads Scenario.two_with_webp) = 2%nat /\
   exists r,
     fst (submit Scenario.today Scenario.two_with_webp Scenario.empty) = Some r
     /\ status r = 500 /\ status r <> 400).
Proof.
  split.
  - repeat (split; [vm_compute; reflexivity|]).
    eexists. split; [vm_compute; reflexivity|].
    split; [reflexivity|discriminate].
  - split; [vm_compute; reflexivity|].
    eexists. split; [vm_compute; reflexivity|].
    split; [reflexivity|discriminate].
Qed.

(** C1, amended.  Let the request be regular: its parts have a name and
    values short of 1 MiB, and the names that the code reads are sent
    plainly (at most once, without brackets).  A submission with three,
    four or five images that pass the per-file checks of the upload
    middleware (the expected field, an allowed type, fewer than 5 MiB,
    the bike and the model name sent in front of the image), with valid
    fields, images that decode and a database that takes the record, is
    answered with 201 and the stored record has one image reference per
    image.  A submission with at most two images that pass the per-file
    checks is answered with 400.  A submission with six or more images is
    refused by the upload middleware and answered with 500 by the default
    error handler; nothing is stored. *)
Theorem C1_image_count :
  forall e parts w,
    regular parts = true ->
    (passes_filters parts = true ->
     (3 <= length (uploads parts) <= 5)%nat ->
     valid_fields (form parts) = true ->
     images_decode parts = true ->
     can_insert e w = true ->
     exists doc,
       submit e parts w = (Some (created doc), announced w doc) /\
       length (images doc) = length (uploads parts)) /\
    (passes_filters parts = true ->
     (length (uploads parts) <= 2)%nat ->
     exists text, submit e parts w = (Some (bad_request text), w)) /\
    ((6 <= length (uploads parts))%nat ->
     exists err,
       submit e parts w = (Some (default_error_handler err), w) /\
       status (default_error_handler err) = 500).
Proof.
  intros e parts w _. split; [|split].
  - intros Hpass [H3 H5] Hvalid Hdec Hins.
    destruct (array_accepts parts Hpass H5) as [fs A].
    pose proof (array_inr _ _ _ A) as (_ & Hsrc & _ & _ & _).
    rewrite (submit_accepted _ _ _ _ _ A). unfold add_result.
    pose proof Hvalid as Hv. unfold valid_fields in Hv.
    apply andb_prop in Hv as [Hv _]. apply andb_prop in Hv as [Hm Hr].
    apply negb_true_iff in Hm, Hr. rewrite Hm, Hr. simpl.
    assert (L : length fs = length (uploads parts))
      by (rewrite <- Hsrc, length_map; reflexivity).
    destruct (length fs <? 3)%nat eqn:Lt; [apply Nat.ltb_lt in Lt; lia|].
    unfold required_missing in Hm.
    repeat match goal with
           | [ H : (_ || _) = false |- _ ] => apply orb_false_elim in H as [? ?]
           | [ H : negb _ = false |- _ ] => apply negb_false in H
           end.
    destruct (truthy_some (Multer.lookup "bikeName" (form parts)))
      as (bn & -> & _); [assumption|].
    destruct (truthy_some (Multer.lookup "modelName" (form parts)))
      as (mn & -> & _); [assumption|].
    unfold images_decode in Hdec. rewrite <- Hsrc in Hdec.
    rewrite <- decodes_through_source in Hdec. rewrite Hdec.
    destruct (validate_accepts (newObjectId (drawn e)) (now e) (form parts)
                (map (reference (folderName bn mn)) fs) Hvalid) as [doc V].
    rewrite V.
    apply validate_some in V as (Hid & _ & Himg & _).
    unfold can_insert in Hins. apply andb_prop in Hins as [Hup Hfresh].
    rewrite Hup, Hid.
    destruct (find_id _ _); [discriminate|].
    exists doc. split; [reflexivity|].
    rewrite Himg. simpl. rewrite length_map. exact L.
  - intros Hpass H2.
    destruct (array_accepts parts Hpass) as [fs A]; [lia|].
    pose proof (length_files _ _ _ A) as L.
    rewrite (submit_accepted _ _ _ _ _ A). unfold add_result.
    destruct (_ || _); [eauto|].
    destruct (length fs <? 3)%nat eqn:Lt; [eauto|].
    apply Nat.ltb_ge in Lt. lia.
  - intros H6.
    destruct (array_rejects parts) as [err A]; [right; lia|].
    exists err. split; [|reflexivity]. apply submit_rejected. exact A.
Qed.

(** The scenario with three, with two and with six images. *)
Lemma C1_witness :
  (regular Scenario.three_images = true /\
   passes_filters Scenario.three_images = true /\
   (3 <= length (uploads Scenario.three_images) <= 5)%nat /\
   valid_fields (form Scenario.three_images) = true /\
   images_decode Scenario.three_images = true /\
   can_insert Scenario.today Scenario.empty = true /\
   exists doc,
     submit Scenario.today Scenario.three_images Scenario.empty
     = (Some (created doc), announced Scenario.empty doc) /\
     length (images doc) = length (uploads Scenario.three_images)) /\
  (regular Scenario.two_images = true /\
   passes_filters Scenario.two_images = true /\
   (length (uploads Scenario.two_images) <= 2)%nat /\
   exists text,
     submit Scenario.today Scenario.two_images Scenario.empty
     = (Some (bad_request text), Scenario.empty)) /\
  (regular Scenario.six_images = true /\
   (6 <= length (uploads Scenario.six_images))%nat /\
   exists err,
     submit Scenario.today Scenario.six_images Scenario.empty
     = (Some (default_error_handler err), Scenario.empty) /\
     status (default_error_handler err) = 500).
Proof.
  assert (S3 : regular Scenario.three_images = true)
    by (vm_compute; reflexivity).
  assert (S2 : regular Scenario.two_images = true)
    by (vm_compute; reflexivity).
  assert (S6 : regular Scenario.six_images = true)
    by (vm_compute; reflexivity).
  assert (P3 : passes_filters Scenario.three_images = true)
    by (vm_compute; reflexivity).
  assert (L3 : (3 <= length (uploads Scenario.three_images) <= 5)%nat)
    by (vm_compute; lia).
  assert (V3 : valid_fields (form Scenario.three_images) = true)
    by (vm_compute; reflexivity).
  assert (D3 : images_decode Scenario.three_images = true)
    by (vm_compute; reflexivity).
  assert (I3 : can_insert Scenario.today Scenario.empty = true)
    by (vm_compute; reflexivity).
  assert (P2 : passes_filters Scenario.two_images = true)
    by (vm_compute; reflexivity).
  assert (L2 : (length (uploads Scenario.two_images) <= 2)%nat)
    by (vm_compute; lia).
  assert (L6 : (6 <= length (uploads Scenario.six_images))%nat)
    by (vm_compute; lia).
  split; [|split].
  - repeat (split; [assumption|]).
    exact (proj1 (C1_image_count Scenario.today Scenario.three_images
                    Scenario.empty S3) P3 L3 V3 D3 I3).
  - repeat (split; [assumption|]).
    exact (proj1 (proj2 (C1_image_count Scenario.today Scenario.two_images
                           Scenario.empty S2)) P2 L2).
  - repeat (split; [assumption|]).
    exact (proj2 (proj2 (C1_image_count Scenario.today Scenario.six_images
                           Scenario.empty S6)) L6).
Defined.

(** C7 fails on the code.  When a submission that is valid otherwise omits
    [totalKM] or [costPerService], the handler stores [Number(undefined)],
    which is NaN; the schema cannot cast it, its default is not used,
    [save] is rejected, and the answer is 500 with nothing stored. *)
Theorem C7_omitted_number_fails :
  forall e parts w body files,
    Multer.array upload "bikeImages" 5 parts = inr (body, files) ->
    required_missing body = false ->
    rating_rejected (Multer.lookup "rating" body) = false ->
    (3 <= length files)%nat ->
    Multer.lookup "totalKM" body = None
    \/ Multer.lookup "costPerService" body = None ->
    submit e parts w = (Some server_error, w).
Proof.
  intros e parts w body files A Hm Hr H3 Homit.
  destruct (submit e parts w) as [r w'] eqn:S.
  rewrite (submit_accepted _ _ _ _ _ A) in S.
  pose proof S as S'. unfold add_result in S'. rewrite Hm, Hr in S'.
  simpl in S'.
  destruct (length files <? 3)%nat eqn:Lt; [apply Nat.ltb_lt in Lt; lia|].
  apply add_result_inv in S as [(_ & text & ->)|[(-> & ->)|H]].
  - destruct (Multer.lookup "bikeName" body); [|discriminate].
    destruct (Multer.lookup "modelName" body); [|discriminate].
    destruct (forallb _ files); [|discriminate].
    destruct (validate _ _ _); [|discriminate].
    destruct (db_up e); [|discriminate].
    destruct (find_id _ _); discriminate.
  - reflexivity.
  - destruct H as (bn & mn & doc & _ & _ & _ & _ & _ & _ & V & _).
    apply validate_some in V as (_ & _ & _ & _ & _ & Nkm & Ncps & _).
    simpl in Nkm, Ncps.
    destruct Homit as [O|O]; rewrite O in *; discriminate.
Qed.

(** The scenario without the field [totalKM]. *)
Lemma C7_witness :
  (exists body files,
      Multer.array upload "bikeImages" 5 Scenario.no_totalKM
      = inr (body, files) /\
      required_missing body = false /\
      rating_rejected (Multer.lookup "rating" body) = false /\
      (3 <= length files)%nat /\
      Multer.lookup "totalKM" body = None) /\
  submit Scenario.today Scenario.no_totalKM Scenario.empty
  = (Some server_error, Scenario.empty).
Proof.
  destruct (Multer.array upload "bikeImages" 5 Scenario.no_totalKM)
    as [err|[body files]] eqn:A; [vm_compute in A; discriminate|].
  assert (Hm : required_missing body = false)
    by (vm_compute in A; injection A as <- <-; vm_compute; reflexivity).
  assert (Hr : rating_rejected (Multer.lookup "rating" body) = false)
    by (vm_compute in A; injection A as <- <-; vm_compute; reflexivity).
  assert (H3 : (3 <= length files)%nat)
    by (vm_compute in A; injection A as <- <-; vm_compute; lia).
  assert (Ho : Multer.lookup "totalKM" body = None)
    by (vm_compute in A; injection A as <- <-; vm_compute; reflexivity).
  split.
  - exists body, files. auto.
  - exact (C7_omitted_number_fails Scenario.today Scenario.no_totalKM
             Scenario.empty body files A Hm Hr H3 (or_introl Ho)).
Defined.

(** C3.  After a successful submission the record holds the bike name and
    the model name of the form; the grouping key is the bike name without
    its white space, a hyphen, and the model name without its white space;
    the storage placed every file in the folder of that key; and the image
    references of the record are
    [/uploads/<key>/compressed-<unique name>], one per image, in the order
    of the images in the request. *)
Theorem C3_grouping_key :
  forall e parts w doc w',
    submit e parts w = (Some (created doc), w') ->
    Multer.lookup "bikeName" (form parts) = Some (bikeName doc) /\
    Multer.lookup "modelName" (form parts) = Some (modelName doc) /\
    (exists files,
        Multer.array upload "bikeImages" 5 parts = inr (form parts, files) /\
        map Multer.source files = uploads parts /\
        Forall (fun f => Multer.destination f
                         = grouping_key (bikeName doc) (modelName doc))
          files) /\
    images doc
    = map (fun u => "/uploads/"
                    ++ grouping_key (bikeName doc) (modelName doc)
                    ++ "/compressed-" ++ unique_name u)
        (uploads parts) /\
    grouping_key "Royal Enfield" "Himalayan" = "RoyalEnfield-Himalayan".
Proof.
  intros e parts w doc w' H.
  apply submit_inv in H as [(_ & resp & [= <-] & [Hst|Hst])|H];
    try discriminate.
  destruct H as (body & fs & bn & mn & doc' & A & _ & _ & _ & Hb & Hm & _ & V
                 & _ & _ & [= <-] & _).
  pose proof (array_inr _ _ _ A) as (-> & Hsrc & _ & _ & Hst).
  apply validate_some in V as (_ & _ & Himg & Hbn & Hmn & _).
  simpl in Himg, Hbn, Hmn.
  rewrite Hb in Hbn. rewrite Hm in Hmn.
  injection Hbn as ->. injection Hmn as ->.
  split; [exact Hb|]. split; [exact Hm|]. split; [|split].
  - exists fs. split; [exact A|]. split; [exact Hsrc|].
    eapply Forall_impl; [|exact Hst].
    intros f (_ & bn' & mn' & Hb' & Hm' & ->).
    rewrite Hb in Hb'. rewrite Hm in Hm'.
    injection Hb' as <-. injection Hm' as <-. apply folderName_key.
  - rewrite Himg, <- Hsrc, folderName_key.
    apply map_through_source.
    eapply Forall_impl; [|exact Hst].
    intros f (Hname & _). unfold reference. rewrite Hname. reflexivity.
  - reflexivity.
Qed.

(** The scenario of the specification: the key is
    [RoyalEnfield-Himalayan]. *)
Lemma C3_witness :
  exists doc w',
    submit Scenario.today Scenario.three_images Scenario.empty
    = (Some (created doc), w') /\
    bikeName doc = "Royal Enfield" /\
    modelName doc = "Himalayan" /\
    images doc
    = ["/uploads/RoyalEnfield-Himalayan/compressed-1730000000001-43.jpg";
       "/uploads/RoyalEnfield-Himalayan/compressed-1730000000002-44.jpg";
       "/uploads/RoyalEnfield-Himalayan/compressed-1730000000003-45.jpg"] /\
    images doc
    = map (fun u => "/uploads/"
                    ++ grouping_key (bikeName doc) (modelName doc)
                    ++ "/compressed-" ++ unique_name u)
        (uploads Scenario.three_images).
Proof.
  destruct (submit Scenario.today Scenario.three_images Scenario.empty)
    as [r w'] eqn:S.
  assert (R : exists doc, r = Some (created doc) /\
                          bikeName doc = "Royal Enfield" /\
                          modelName doc = "Himalayan" /\
                          images doc
    = ["/uploads/RoyalEnfield-Himalayan/compressed-1730000000001-43.jpg";
       "/uploads/RoyalEnfield-Himalayan/compressed-1730000000002-44.jpg";
       "/uploads/RoyalEnfield-Himalayan/compressed-1730000000003-45.jpg"]).
  { vm_compute in S. injection S as <- _. eexists. split; [reflexivity|].
    repeat split. }
  destruct R as (doc & -> & Hb & Hm & Hi).
  exists doc, w'. split; [reflexivity|]. repeat (split; [assumption|]).
  exact (proj1 (proj2 (proj2 (proj2
           (C3_grouping_key Scenario.today Scenario.three_images
              Scenario.empty doc w' S))))).
Defined.

Section Decimal.

Import Decimal.

Lemma uint_all_digits d : all_digits (NilEmpty.string_of_uint d) = true.
Proof. induction d; simpl; auto. Qed.

Lemma digits_acc d : forall acc n,
  JS.digits 10 (Zpos acc) n (NilEmpty.string_of_uint d)
  = (Zpos (Pos.of_uint_acc d acc), (n + nb_digits d)%nat, "").
Proof.
  induction d; intros acc n;
    cbn [NilEmpty.string_of_uint JS.digits Pos.of_uint_acc nb_digits].
  1: { rewrite Nat.add_0_r. reflexivity. }
  all: match goal with
       | |- context [JS.digit_of 10 ?c] =>
           let v := eval vm_compute in (JS.digit_of 10 c) in
           change (JS.digit_of 10 c) with v; cbv iota beta
       end.
  all: match goal with
       | |- JS.digits 10 ?x _ _ = (Zpos (Pos.of_uint_acc _ ?p), _, _) =>
           replace x with (Zpos p) by lia
       end.
  all: rewrite IHd, Nat.add_succ_r; reflexivity.
Qed.

Lemma digits_uint d : forall n,
  JS.digits 10 0 n (NilEmpty.string_of_uint d)
  = (Z.of_uint d, (n + nb_digits d)%nat, "").
Proof.
  unfold Z.of_uint.
  induction d; intros n;
    cbn [NilEmpty.string_of_uint JS.digits Pos.of_uint nb_digits].
  1: { rewrite Nat.add_0_r. reflexivity. }
  1: { change (JS.digit_of 10 "0") with (Some 0). cbv iota beta.
       change (10 * 0 + 0) with 0. rewrite IHd, Nat.add_succ_r.
       reflexivity. }
  all: match goal with
       | |- context [JS.digit_of 10 ?c] =>
           let v := eval vm_compute in (JS.digit_of 10 c) in
           change (JS.digit_of 10 c) with v; cbv iota beta
       end.
  all: match goal with
       | |- JS.digits 10 ?x _ _ = _ =>
           let v := eval vm_compute in x in change x with v
       end.
  all: rewrite digits_acc, Nat.add_succ_r; reflexivity.
Qed.

Lemma digit_not_space c :
  ((48 <=? nat_of_ascii c) && (nat_of_ascii c <=? 57))%nat = true ->
  JS.is_space c = false.
Proof.
  unfold JS.is_space. intros H. apply andb_prop in H as [H1 H2].
  apply Nat.leb_le in H1, H2.
  destruct (nat_of_ascii c <=? 13)%nat eqn:A; [apply Nat.leb_le in A; lia|].
  destruct (nat_of_ascii c =? 32)%nat eqn:B; [apply Nat.eqb_eq in B; lia|].
  destruct (nat_of_ascii c =? 160)%nat eqn:C; [apply Nat.eqb_eq in C; lia|].
  rewrite andb_false_r. reflexivity.
Qed.

Lemma digit_not_char c (d : ascii) :
  ((48 <=? nat_of_ascii c) && (nat_of_ascii c <=? 57))%nat = true ->
  ((48 <=? nat_of_ascii d) && (nat_of_ascii d <=? 57))%nat = false ->
  (c =? d)%char = false.
Proof.
  intros Hc Hd. apply Ascii.eqb_neq. intros ->. congruence.
Qed.

Lemma trim_end_digits s : all_digits s = true -> JS.trim_end s = s.
Proof.
  induction s as [|c s IH]; simpl; [reflexivity|].
  intros H. apply andb_prop in H as [Hc Hs].
  rewrite (IH Hs), (digit_not_space c Hc). destruct s; reflexivity.
Qed.

Lemma trim_digits s : all_digits s = true -> JS.trim s = s.
Proof.
  intros H. unfold JS.trim. destruct s as [|c s]; [reflexivity|].
  simpl in H. apply andb_prop in H as [Hc Hs].
  cbn [JS.trim_start]. rewrite (digit_not_space c Hc).
  apply trim_end_digits. simpl. rewrite Hc, Hs. reflexivity.
Qed.

Lemma radix_prefix_digits s : all_digits s = true -> JS.radix_prefix s = None.
Proof.
  destruct s as [|c [|d t]]; try reflexivity.
  simpl. intros H. apply andb_prop in H as [_ H].
  apply andb_prop in H as [Hd _].
  destruct (c =? "0")%char; [|reflexivity].
  rewrite !(digit_not_char d _ Hd) by reflexivity. reflexivity.
Qed.

Lemma sign_digits s : all_digits s = true -> JS.sign s = (false, s).
Proof.
  destruct s as [|c t]; [reflexivity|].
  simpl. intros H. apply andb_prop in H as [Hc _].
  rewrite !(digit_not_char c _ Hc) by reflexivity. reflexivity.
Qed.

(** Rounding sees the value of a rational, not how it is written. *)
Lemma binary64_Qeq p q : p == q -> JS.binary64 p = JS.binary64 q.
Proof.
  intros H. unfold JS.binary64. rewrite (Qred_complete p q H). reflexivity.
Qed.

Lemma Qred_integer z : Qred (inject_Z z) = inject_Z z.
Proof.
  unfold Qred, inject_Z.
  pose proof (Z.ggcd_gcd z 1) as G.
  pose proof (Z.ggcd_correct_divisors z 1) as D.
  destruct (Z.ggcd z 1) as [g [aa bb]]. simpl in G, D.
  rewrite Z.gcd_1_r in G. subst g. destruct D as [Da Db].
  rewrite Z.mul_1_l in Da, Db. subst aa bb. reflexivity.
Qed.

Lemma pow2_nonneg k : 0 <= k -> JS.pow2 k = 2 ^ k.
Proof. intros H. unfold JS.pow2. rewrite Z.max_r by exact H. reflexivity. Qed.

Lemma pow2_nonpos k : k <= 0 -> JS.pow2 k = 1.
Proof. intros H. unfold JS.pow2. rewrite Z.max_l by exact H. reflexivity. Qed.

Lemma round_pos_integer z :
  0 < z <= 2 ^ 53 -> JS.round_pos z 1 = Some (inject_Z z).
Proof.
  intros [Hpos Hle].
  pose proof (Z.log2_spec z Hpos) as [Hlo Hhi].
  pose proof (Z.log2_nonneg z) as L0.
  unfold JS.round_pos. change (Z.log2 1) with 0. rewrite Z.sub_0_r.
  set (L := Z.log2 z) in *. cbv zeta.
  assert (L53 : L <= 53).
  { apply Z.nlt_ge. intros C.
    assert (2 ^ 54 <= 2 ^ L) by (apply Z.pow_le_mono_r; lia). lia. }
  assert (E0 : (z * JS.pow2 (- L) <? 1 * JS.pow2 L) = false).
  { rewrite pow2_nonpos, pow2_nonneg by lia. apply Z.ltb_ge. lia. }
  rewrite E0, (Z.max_l (L - 52) (-1074)) by lia.
  destruct (Z.eq_dec L 53) as [E|NE].
  - assert (z = 2 ^ 53) by (rewrite E in Hlo; lia). subst z. rewrite E.
    vm_compute. reflexivity.
  - rewrite (pow2_nonpos (L - 52)), (pow2_nonneg (- (L - 52))) by lia.
    rewrite !Z.mul_1_r.
    set (k := - (L - 52)).
    assert (K : 0 < 2 ^ k) by (apply Z.pow_pos_nonneg; lia).
    unfold JS.nearest_even. rewrite Z.div_1_r, Z.mod_1_r.
    change (2 * 0 ?= 1) with Lt. cbv iota.
    assert (B : z * 2 ^ k < 2 ^ 53).
    { replace (2 ^ 53) with (2 ^ (L + 1) * 2 ^ k).
      - apply Z.mul_lt_mono_pos_r; assumption.
      - rewrite <- Z.pow_add_r by lia. f_equal. lia. }
    replace (2 ^ 1024 <=? z * 2 ^ k) with false.
    2: { symmetry. apply Z.leb_gt.
         apply Z.lt_trans with (2 ^ 53); [exact B|reflexivity]. }
    f_equal. rewrite <- (Qred_integer z). apply Qred_complete.
    unfold Qeq. simpl. rewrite Z2Pos.id by exact K. lia.
Qed.

(** The integers up to [2^53] are binary64 values: rounding keeps them. *)
Lemma binary64_integer z :
  Z.abs z <= 2 ^ 53 -> JS.binary64 (inject_Z z) = JS.Fin (inject_Z z).
Proof.
  intros H. unfold JS.binary64. rewrite Qred_integer.
  destruct z as [|p|p]; cbn [inject_Z Qnum Qden].
  - reflexivity.
  - rewrite round_pos_integer by (split; [reflexivity|exact H]). reflexivity.
  - rewrite round_pos_integer by (split; [reflexivity|exact H]). reflexivity.
Qed.

(** The decimal digits of [d] are read as the number [d], with the sign
    that stood in front of them, as long as [d] is a binary64. *)
Lemma unsigned_decimal_uint neg d :
  d <> Nil ->
  Z.of_uint d <= 2 ^ 53 ->
  is_integer (JS.unsigned_decimal neg (NilEmpty.string_of_uint d))
    (if neg then - Z.of_uint d else Z.of_uint d).
Proof.
  intros Hd Hle. unfold JS.unsigned_decimal.
  destruct (NilEmpty.string_of_uint d =? "Infinity")%string eqn:I.
  { apply String.eqb_eq in I. pose proof (uint_all_digits d) as A.
    rewrite I in A. discriminate. }
  rewrite digits_uint. cbn [JS.fraction JS.exponent].
  destruct (nb_digits d) eqn:N; [destruct d; try discriminate; contradiction|].
  cbn [Nat.add].
  change (Z.of_nat 0) with 0. rewrite Z.sub_diag.
  change (Qpower (10 # 1) 0) with 1%Q.
  rewrite Z.pow_0_r, Z.mul_1_r, Z.add_0_r.
  rewrite (binary64_Qeq _ _ (Qmult_1_r _)).
  assert (H0 : 0 <= Z.of_uint d) by (unfold Z.of_uint; lia).
  rewrite binary64_integer by (destruct neg; lia).
  unfold is_integer. reflexivity.
Qed.

(** What [Number] makes of some texts: a decimal fraction becomes the
    nearest binary64, an integer above [2^53] loses its last bit, a text
    just above 5 or just below 1 is 5 or 1, and a value beyond the range
    is an infinity or zero. *)
Lemma Number_rounds :
  JS.ToNumber "0.1" = JS.Fin (3602879701896397 # 36028797018963968) /\
  JS.ToNumber "9007199254740993" = JS.of_Z 9007199254740992 /\
  JS.ToNumber "5.0000000000000001" = JS.of_Z 5 /\
  JS.ToNumber "0.99999999999999999" = JS.of_Z 1 /\
  JS.ToNumber "1e400" = JS.Inf false /\
  JS.ToNumber "-1e400" = JS.Inf true /\
  JS.ToNumber "1e-400" = JS.of_Z 0 /\
  JS.ToNumber "1.7976931348623157e308"
  = JS.of_Z ((2 ^ 53 - 1) * 2 ^ 971) /\
  JS.ToNumber "1.7976931348623159e308" = JS.Inf false.
Proof. repeat split; vm_compute; reflexivity. Qed.

(** Number::toString and StringToNumber agree on the integers up to
    [2^53]; beyond, StringToNumber rounds. *)
Lemma ToNumber_decimal z :
  Z.abs z <= 2 ^ 53 ->
  is_integer (JS.ToNumber (JS.string_of_integer z)) z.
Proof.
  intros Hz. unfold JS.string_of_integer.
  destruct z as [|p|p]; [vm_compute; reflexivity| |].
  - cbn [Z.to_int NilZero.string_of_int].
    pose proof (DecimalPos.Unsigned.to_uint_nonnil p) as Hd.
    pose proof (DecimalPos.Unsigned.of_to p) as Hv.
    assert (E : NilZero.string_of_uint (Pos.to_uint p)
                = NilEmpty.string_of_uint (Pos.to_uint p)).
    { destruct (Pos.to_uint p); [contradiction|reflexivity..]. }
    rewrite E. pose proof (uint_all_digits (Pos.to_uint p)) as A.
    unfold JS.ToNumber. rewrite (trim_digits _ A).
    destruct (NilEmpty.string_of_uint (Pos.to_uint p) =? "")%string eqn:Z0.
    { apply String.eqb_eq in Z0. destruct (Pos.to_uint p);
        try contradiction; discriminate. }
    rewrite (radix_prefix_digits _ A), (sign_digits _ A).
    replace (Zpos p) with (Z.of_uint (Pos.to_uint p))
      by (unfold Z.of_uint; rewrite Hv; reflexivity).
    apply (unsigned_decimal_uint false); [exact Hd|].
    unfold Z.of_uint. rewrite Hv. exact Hz.
  - cbn [Z.to_int NilZero.string_of_int].
    pose proof (DecimalPos.Unsigned.to_uint_nonnil p) as Hd.
    pose proof (DecimalPos.Unsigned.of_to p) as Hv.
    assert (E : NilZero.string_of_uint (Pos.to_uint p)
                = NilEmpty.string_of_uint (Pos.to_uint p)).
    { destruct (Pos.to_uint p); [contradiction|reflexivity..]. }
    rewrite E. pose proof (uint_all_digits (Pos.to_uint p)) as A.
    unfold JS.ToNumber, JS.trim. cbn [JS.trim_start].
    change (JS.is_space "-") with false. cbv iota.
    cbn [JS.trim_end]. rewrite (trim_end_digits _ A).
    destruct (NilEmpty.string_of_uint (Pos.to_uint p)) as [|c t] eqn:S.
    { destruct (Pos.to_uint p); try contradiction; discriminate. }
    change (JS.is_space "-") with false.
    change (String "-" (String c t) =? "")%string with false.
    cbv iota. cbn [JS.radix_prefix].
    change ("-" =? "0")%char with false. cbv iota. cbn [JS.sign].
    change ("-" =? "-")%char with true. cbv iota beta.
    rewrite <- S.
    replace (Zneg p) with (- Z.of_uint (Pos.to_uint p))
      by (unfold Z.of_uint; rewrite Hv; reflexivity).
    apply (unsigned_decimal_uint true); [exact Hd|].
    unfold Z.of_uint. rewrite Hv. exact Hz.
Qed.

End Decimal.

Section Rating.

(** A number that is the integer [z], compared with a literal. *)
Lemma ltb_integer n z k :
  is_integer n z -> JS.ltb n (JS.of_Z k) = (z <? k).
Proof.
  destruct n as [| |q]; simpl; try contradiction. intros H.
  destruct (Qle_bool (inject_Z k) q) eqn:L; simpl; symmetry.
  - apply Qle_bool_iff in L. rewrite H in L. rewrite <- Zle_Qle in L.
    apply Z.ltb_ge. exact L.
  - apply Z.ltb_lt. apply Z.nle_gt. intros K.
    rewrite Zle_Qle, <- H in K. apply Qle_bool_iff in K. congruence.
Qed.

Lemma gtb_integer n z k :
  is_integer n z -> JS.gtb n (JS.of_Z k) = (k <? z).
Proof.
  destruct n as [| |q]; simpl; try contradiction. intros H.
  destruct (Qle_bool q (inject_Z k)) eqn:L; simpl; symmetry.
  - apply Qle_bool_iff in L. rewrite H in L. rewrite <- Zle_Qle in L.
    apply Z.ltb_ge. exact L.
  - apply Z.ltb_lt. apply Z.nle_gt. intros K.
    rewrite Zle_Qle, <- H in K. apply Qle_bool_iff in K. congruence.
Qed.

Lemma integer_not_NaN n z : is_integer n z -> JS.isNaN n = false.
Proof. destruct n; simpl; tauto. Qed.

Lemma empty_is_zero z : is_integer (JS.ToNumber "") z -> z = 0.
Proof.
  change (JS.ToNumber "") with (JS.of_Z 0). simpl. intros H.
  symmetry. apply inject_Z_injective. exact H.
Qed.

(** The rating of the form is the text [s], which denotes the integer
    [z]. *)
Variable s : string.
Variable z : Z.
Hypothesis denotes : is_integer (JS.ToNumber s) z.

(** The rating test of the handler. *)
Lemma rating_rejected_integer :
  rating_rejected (Some s) = negb ((1 <=? z) && (z <=? 5)).
Proof.
  unfold rating_rejected, JS.lt_lit, JS.gt_lit, JS.Number.
  fold (JS.gtb (JS.ToNumber s) (JS.of_Z 5)).
  rewrite (ltb_integer _ _ _ denotes), (gtb_integer _ _ _ denotes).
  destruct (s =? "")%string eqn:E; simpl; rewrite E; simpl.
  - apply String.eqb_eq in E. revert denotes. rewrite E. intros H.
    apply empty_is_zero in H. rewrite H. reflexivity.
  - rewrite !Z.leb_antisym.
    destruct (z <? 1), (5 <? z); reflexivity.
Qed.

(** The range test of the schema. *)
Lemma in_range_integer :
  1 <= z <= 5 -> in_range 1 5 (JS.Number (Some s)) = true.
Proof.
  intros [H1 H5]. change (JS.Number (Some s)) with (JS.ToNumber s).
  apply in_range_checked.
  - apply (integer_not_NaN _ z denotes).
  - rewrite (ltb_integer _ _ _ denotes). apply Z.ltb_ge. exact H1.
  - rewrite (gtb_integer _ _ _ denotes). apply Z.ltb_ge. exact H5.
Qed.

End Rating.

(** C4 as it is worded fails: the rating is tested by the handler, which
    runs only behind the upload middleware.  A submission with the rating
    7 and six images, or with the rating 7 and an image of a type that is
    not allowed, is refused by the middleware and answered with 500, not
    with 400. *)
Lemma C4_counterexample :
  (Multer.lookup "rating" (form Scenario.seven_six_images) = Some "7" /\
   is_integer (JS.ToNumber "7") 7 /\
   5 < 7 /\
   regular Scenario.seven_six_images = true /\
   exists r,
     fst (submit Scenario.today Scenario.seven_six_images Scenario.empty)
     = Some r
     /\ status r = 500 /\ status r <> 400) /\
  (Multer.lookup "rating" (form Scenario.seven_with_webp) = Some "7" /\
   regular Scenario.seven_with_webp = true /\
   exists r,
     fst (submit Scenario.today Scenario.seven_with_webp Scenario.empty)
     = Some r
     /\ status r = 500 /\ status r <> 400).
Proof.
  split.
  - split; [vm_compute; reflexivity|].
    split; [vm_compute; reflexivity|].
    split; [lia|].
    split; [vm_compute; reflexivity|].
    eexists. split; [vm_compute; reflexivity|].
    split; [reflexivity|discriminate].
  - split; [vm_compute; reflexivity|].
    split; [vm_compute; reflexivity|].
    eexists. split; [vm_compute; reflexivity|].
    split; [reflexivity|discriminate].
Qed.

(** C4, amended.  Let the upload middleware pass a regular submission
    on (its parts have a name and values short of 1 MiB, and the names
    that the code reads are sent plainly), whose rating is a text that
    [Number] reads as the integer [z] (its decimal digits, for one; see
    [ToNumber_decimal]).  If [z] is below 1 or above 5, the submission is
    answered with 400 and nothing is stored.  If [z] is between 1 and 5,
    the rating test lets it through, the schema accepts the number, and
    the submission is not answered with the 400 of the field test unless a
    required text is missing. *)
Theorem C4_rating_range :
  forall e parts w body files s z,
    Multer.array upload "bikeImages" 5 parts = inr (body, files) ->
    regular parts = true ->
    Multer.lookup "rating" body = Some s ->
    is_integer (JS.ToNumber s) z ->
    (z < 1 \/ 5 < z ->
     submit e parts w
     = (Some (bad_request "All required fields must be provided"), w)) /\
    (1 <= z <= 5 ->
     rating_rejected (Some s) = false /\
     in_range 1 5 (JS.Number (Some s)) = true /\
     (required_missing body = false ->
      fst (submit e parts w)
      <> Some (bad_request "All required fields must be provided"))).
Proof.
  intros e parts w body files s z A _ Hr Hz.
  pose proof (rating_rejected_integer s z Hz) as R.
  rewrite (submit_accepted _ _ _ _ _ A). unfold add_result. rewrite Hr, R.
  split.
  - intros Hout.
    replace ((1 <=? z) && (z <=? 5)) with false.
    + rewrite orb_true_r. reflexivity.
    + symmetry. apply andb_false_iff.
      destruct Hout; [left; apply Z.leb_gt|right; apply Z.leb_gt]; assumption.
  - intros [H1 H5].
    apply Z.leb_le in H1, H5. rewrite H1, H5. simpl.
    split; [reflexivity|]. split.
    + apply (in_range_integer s z Hz). apply Z.leb_le in H1, H5. lia.
    + intros ->. simpl.
      destruct (length files <? 3)%nat; [simpl; discriminate|].
      destruct (Multer.lookup "bikeName" body); [|simpl; discriminate].
      destruct (Multer.lookup "modelName" body); [|simpl; discriminate].
      destruct (forallb _ files); [|simpl; discriminate].
      destruct (validate _ _ _); [|simpl; discriminate].
      destruct (db_up e); [|simpl; discriminate].
      destruct (find_id _ _); simpl; discriminate.
Qed.

(** The scenario of the specification with the rating 7, and with the
    rating 3. *)
Lemma C4_witness :
  ((exists body files,
       Multer.array upload "bikeImages" 5 (Scenario.rated "7")
       = inr (body, files) /\
       regular (Scenario.rated "7") = true /\
       Multer.lookup "rating" body = Some "7") /\
   is_integer (JS.ToNumber "7") 7 /\
   (7 < 1 \/ 5 < 7) /\
   submit Scenario.today (Scenario.rated "7") Scenario.empty
   = (Some (bad_request "All required fields must be provided"),
      Scenario.empty)) /\
  ((exists body files,
       Multer.array upload "bikeImages" 5 (Scenario.rated "3")
       = inr (body, files) /\
       regular (Scenario.rated "3") = true /\
       Multer.lookup "rating" body = Some "3" /\
       required_missing body = false) /\
   is_integer (JS.ToNumber "3") 3 /\
   1 <= 3 <= 5 /\
   rating_rejected (Some "3") = false /\
   in_range 1 5 (JS.Number (Some "3")) = true /\
   fst (submit Scenario.today (Scenario.rated "3") Scenario.empty)
   <> Some (bad_request "All required fields must be provided")).
Proof.
  split.
  - destruct (Multer.array upload "bikeImages" 5 (Scenario.rated "7"))
      as [err|[body files]] eqn:A; [vm_compute in A; discriminate|].
    assert (Hr : Multer.lookup "rating" body = Some "7")
      by (vm_compute in A; injection A as <- <-; vm_compute; reflexivity).
    assert (Hp : regular (Scenario.rated "7") = true)
      by (vm_compute; reflexivity).
    assert (Hz : is_integer (JS.ToNumber "7") 7) by (vm_compute; reflexivity).
    assert (Ho : 7 < 1 \/ 5 < 7) by (right; lia).
    split; [exists body, files; auto|].
    split; [exact Hz|]. split; [exact Ho|].
    exact (proj1 (C4_rating_range Scenario.today _ Scenario.empty body files
                    "7" 7 A Hp Hr Hz) Ho).
  - destruct (Multer.array upload "bikeImages" 5 (Scenario.rated "3"))
      as [err|[body files]] eqn:A; [vm_compute in A; discriminate|].
    assert (Hr : Multer.lookup "rating" body = Some "3")
      by (vm_compute in A; injection A as <- <-; vm_compute; reflexivity).
    assert (Hp : regular (Scenario.rated "3") = true)
      by (vm_compute; reflexivity).
    assert (Hm : required_missing body = false)
      by (vm_compute in A; injection A as <- <-; vm_compute; reflexivity).
    assert (Hz : is_integer (JS.ToNumber "3") 3) by (vm_compute; reflexivity).
    assert (Hi : 1 <= 3 <= 5) by lia.
    split; [exists body, files; auto|].
    split; [exact Hz|]. split; [exact Hi|].
    destruct (proj2 (C4_rating_range Scenario.today _ Scenario.empty body
                       files "3" 3 A Hp Hr Hz) Hi) as (R1 & R2 & R3).
    split; [exact R1|]. split; [exact R2|]. exact (R3 Hm).
Defined.

(* ================================================================== *)
(** ** GET /api/bikes/:id                                              *)
(* ================================================================== *)

Section Identifiers.

Lemma hex_char_digit d :
  (d < 16)%N -> JS.digit_of 16 (hex_char d) = Some (Z.of_N d).
Proof.
  intros H. destruct d as [|p]; [reflexivity|].
  do 4 (destruct p as [p|p|]; try reflexivity); lia.
Qed.

Lemma unhex_app a : forall b acc,
  unhex acc (a ++ b)
  = match unhex acc a with
    | Some x => unhex x b
    | None => None
    end.
Proof.
  induction a as [|c a IH]; intros b acc; simpl; [reflexivity|].
  destruct (JS.digit_of 16 c); [apply IH|reflexivity].
Qed.

Lemma length_app_string (a b : string) :
  String.length (a ++ b) = (String.length a + String.length b)%nat.
Proof. induction a; simpl; auto. Qed.

Lemma length_hex k : forall n, String.length (hex k n) = k.
Proof.
  induction k as [|k IH]; intros n; simpl; [reflexivity|].
  rewrite length_app_string, IH. simpl. lia.
Qed.

Lemma unhex_hex k : forall n acc,
  unhex acc (hex k n) = Some (acc * 16 ^ N.of_nat k + n mod 16 ^ N.of_nat k)%N.
Proof.
  induction k as [|k IH]; intros n acc.
  - simpl. rewrite N.mod_1_r. f_equal. lia.
  - cbn [hex]. rewrite unhex_app, IH. cbn [unhex].
    rewrite hex_char_digit by (apply N.mod_lt; lia).
    rewrite N2Z.id. f_equal.
    rewrite Nat2N.inj_succ, N.pow_succ_r'.
    rewrite (N.Div0.mod_mul_r n 16 (16 ^ N.of_nat k)). lia.
Qed.

(** The text of an identifier casts back to the identifier. *)
Lemma cast_toHexString id :
  (id < 2 ^ 96)%N -> castObjectId (toHexString id) = Some id.
Proof.
  intros H. unfold castObjectId, toHexString.
  rewrite length_hex, Nat.eqb_refl, unhex_hex.
  change (N.of_nat 24) with 24%N. change (16 ^ 24)%N with (2 ^ 96)%N.
  rewrite N.mod_small by exact H. reflexivity.
Qed.

Lemma newObjectId_bound drawn : (newObjectId drawn < 2 ^ 96)%N.
Proof. unfold newObjectId. apply N.mod_lt. discriminate. Qed.

Lemma find_id_some id c b :
  find_id id c = Some b -> In b c /\ _id b = id.
Proof.
  induction c as [|x c IH]; simpl; [discriminate|].
  destruct (_id x =? id)%N eqn:E.
  - intros [= <-]. apply N.eqb_eq in E. auto.
  - intros H. apply IH in H. tauto.
Qed.

Lemma find_id_none id c :
  find_id id c = None <-> (forall b, In b c -> _id b <> id).
Proof.
  induction c as [|x c IH]; simpl.
  - split; [intros _ b []|reflexivity].
  - destruct (_id x =? id)%N eqn:E.
    + apply N.eqb_eq in E. split; [discriminate|].
      intros H. exfalso. apply (H x); auto.
    + apply N.eqb_neq in E. rewrite IH. split.
      * intros H b [<-|Hb]; auto.
      * intros H b Hb. apply H. auto.
Qed.

Lemma find_id_unique c b :
  NoDup (map _id c) -> In b c -> find_id (_id b) c = Some b.
Proof.
  induction c as [|x c IH]; simpl; [intros _ []|].
  intros ND [->|Hb].
  - rewrite N.eqb_refl. reflexivity.
  - inversion ND as [|? ? Hx ND']; subst.
    destruct (_id x =? _id b)%N eqn:E; [|auto].
    apply N.eqb_eq in E. exfalso. apply Hx. rewrite E.
    apply in_map. exact Hb.
Qed.

Lemma find_id_last id c b :
  find_id id c = None -> _id b = id ->
  find_id id (c ++ [b])%list = Some b.
Proof.
  induction c as [|x c IH]; simpl; intros H E.
  - rewrite E, N.eqb_refl. reflexivity.
  - destruct (_id x =? id)%N; [discriminate|auto].
Qed.

(** The handler of GET /api/bikes/:id, branch by branch. *)
Lemma getById_result e id w :
  getById e id w
  = match castObjectId id with
    | None => (Some server_error, w)
    | Some oid =>
        if db_up e then
          match find_id oid (bikes w) with
          | None =>
              (Some {| status := 404;
                       payload := Message "Bike review not found" |}, w)
          | Some b => (Some {| status := 200; payload := Document b |}, w)
          end
        else (Some server_error, w)
    end.
Proof.
  unfold getById, try_catch, bind, findById, send.
  destruct (castObjectId id); [|reflexivity].
  destruct (db_up e); [|reflexivity].
  destruct (find_id _ _); reflexivity.
Qed.

(** Every world that the server can reach is well formed. *)
Lemma empty_well_formed : well_formed {| bikes := []; log := [] |}.
Proof. split; constructor. Qed.

Lemma submit_well_formed e parts w r w' :
  well_formed w -> submit e parts w = (r, w') -> well_formed w'.
Proof.
  intros [ND B] H.
  apply submit_inv in H as [(-> & _)|H]; [split; assumption|].
  destruct H as (body & fs & bn & mn & doc & _ & _ & _ & _ & _ & _ & _ & V
                 & _ & F & _ & ->).
  apply validate_some in V as (Hid & _).
  unfold well_formed, announced. simpl. split.
  - rewrite map_app. simpl.
    apply NoDup_app; [exact ND|constructor; [intros []|constructor]|].
    intros x Hx. rewrite in_map_iff in Hx. destruct Hx as (b & <- & Hb).
    intros [Hd|[]]. rewrite find_id_none in F. apply (F b Hb). auto.
  - apply Forall_app. split; [exact B|]. constructor; [|constructor].
    rewrite Hid. apply newObjectId_bound.
Qed.

End Identifiers.

(** C8 as stated fails: an identifier that is not the text of an ObjectId
    matches no record, and the answer is 500, not 404 (the cast of the
    identifier throws and the handler catches it). *)
Lemma C8_counterexample :
  (forall b, In b (bikes Scenario.garage) -> toHexString (_id b) <> "abc") /\
  db_up Scenario.today = true /\
  exists r,
    fst (getById Scenario.today "abc" Scenario.garage) = Some r
    /\ status r = 500 /\ status r <> 404.
Proof.
  split.
  - intros b [<-|[<-|[<-|[]]]]; vm_compute; discriminate.
  - split; [reflexivity|]. eexists. split; [vm_compute; reflexivity|].
    split; [reflexivity|discriminate].
Qed.

(** C8, amended.  With the database reachable: an identifier that is the
    text of an ObjectId (24 hexadecimal digits) and matches no record is
    answered with 404; the identifier of a stored record is answered with
    200 and exactly that record; the world is left as it was. *)
Theorem C8_getById :
  forall e w,
    db_up e = true ->
    (forall id oid,
        castObjectId id = Some oid ->
        (forall b, In b (bikes w) -> _id b <> oid) ->
        getById e id w
        = (Some {| status := 404;
                   payload := Message "Bike review not found" |}, w)) /\
    (well_formed w ->
     forall b,
       In b (bikes w) ->
       getById e (toHexString (_id b)) w
       = (Some {| status := 200; payload := Document b |}, w)).
Proof.
  intros e w Hup. split.
  - intros id oid Hc Hno. rewrite getById_result, Hc, Hup.
    apply find_id_none in Hno. rewrite Hno. reflexivity.
  - intros [ND B] b Hb. rewrite getById_result.
    rewrite Forall_forall in B.
    rewrite (cast_toHexString _ (B b Hb)), Hup, (find_id_unique _ _ ND Hb).
    reflexivity.
Qed.

(** An identifier that is not in use, and the identifier of a stored
    review. *)
Lemma C8_witness :
  db_up Scenario.today = true /\
  castObjectId "0000000000000000000000ff" = Some 255%N /\
  (forall b, In b (bikes Scenario.garage) -> _id b <> 255%N) /\
  getById Scenario.today "0000000000000000000000ff" Scenario.garage
  = (Some {| status := 404; payload := Message "Bike review not found" |},
     Scenario.garage) /\
  well_formed Scenario.garage /\
  In (Scenario.review_of 2 "Bob" "X" 200) (bikes Scenario.garage) /\
  getById Scenario.today
    (toHexString (_id (Scenario.review_of 2 "Bob" "X" 200))) Scenario.garage
  = (Some {| status := 200;
             payload := Document (Scenario.review_of 2 "Bob" "X" 200) |},
     Scenario.garage).
Proof.
  assert (Hup : db_up Scenario.today = true) by reflexivity.
  assert (Hc : castObjectId "0000000000000000000000ff" = Some 255%N)
    by (vm_compute; reflexivity).
  assert (Hno : forall b, In b (bikes Scenario.garage) -> _id b <> 255%N).
  { intros b [<-|[<-|[<-|[]]]]; vm_compute; discriminate. }
  assert (Hwf : well_formed Scenario.garage).
  { split.
    - simpl. repeat constructor; simpl; intuition discriminate.
    - repeat constructor. }
  assert (Hin : In (Scenario.review_of 2 "Bob" "X" 200)
                  (bikes Scenario.garage)).
  { right. left. reflexivity. }
  repeat (split; [assumption|]).
  split.
  - exact (proj1 (C8_getById Scenario.today Scenario.garage Hup)
             "0000000000000000000000ff" 255%N Hc Hno).
  - repeat (split; [assumption|]).
    exact (proj2 (C8_getById Scenario.today Scenario.garage Hup) Hwf
             (Scenario.review_of 2 "Bob" "X" 200) Hin).
Defined.

(** C9.  The record that a successful submission returns is the record
    that a later request for its identifier returns: every field is the
    same. *)
Theorem C9_round_trip :
  forall e parts w doc w' e',
    submit e parts w = (Some (created doc), w') ->
    db_up e' = true ->
    getById e' (toHexString (_id doc)) w'
    = (Some {| status := 200; payload := Document doc |}, w').
Proof.
  intros e parts w doc w' e' H Hup.
  apply submit_inv in H as [(_ & resp & [= <-] & [Hst|Hst])|H];
    try discriminate.
  destruct H as (body & fs & bn & mn & doc' & _ & _ & _ & _ & _ & _ & _ & V
                 & _ & F & [= <-] & ->).
  apply validate_some in V as (Hid & _).
  rewrite getById_result, cast_toHexString, Hup.
  - unfold announced. simpl. rewrite (find_id_last _ _ doc F eq_refl).
    reflexivity.
  - rewrite Hid. apply newObjectId_bound.
Qed.

(** The scenario of the specification, fetched later. *)
Lemma C9_witness :
  exists doc w',
    submit Scenario.today Scenario.three_images Scenario.empty
    = (Some (created doc), w') /\
    db_up Scenario.later = true /\
    getById Scenario.later (toHexString (_id doc)) w'
    = (Some {| status := 200; payload := Document doc |}, w').
Proof.
  destruct (submit Scenario.today Scenario.three_images Scenario.empty)
    as [r w'] eqn:S.
  assert (R : exists doc, r = Some (created doc)).
  { vm_compute in S. injection S as <- _. eexists. reflexivity. }
  destruct R as (doc & ->).
  exists doc, w'. split; [reflexivity|]. split; [reflexivity|].
  exact (C9_round_trip Scenario.today Scenario.three_images Scenario.empty
           doc w' Scenario.later S eq_refl).
Defined.

(* ================================================================== *)
(** ** GET /api/bikes/search                                           *)
(* ================================================================== *)

Section Patterns.

Import Pcre.







Lemma matches_at_alt s : forall a b,
  matches_at (Alt a b) s = matches_at a s || matches_at b s.
Proof.
  induction s as [|c s IH]; intros a b; simpl.
  - rewrite !orb_false_r. reflexivity.
  - rewrite IH.
    destruct (nullable a), (nullable b), (matches_at (deriv c a) s);
      reflexivity.
Qed.

Lemma matches_at_void s : forall r, matches_at (Cat Void r) s = false.
Proof. induction s as [|c s IH]; intros r; simpl; auto. Qed.

Lemma matches_at_eps r s : matches_at (Cat Eps r) s = matches_at r s.
Proof.
  destruct s as [|c s]; simpl; [reflexivity|].
  rewrite matches_at_alt, matches_at_void. reflexivity.
Qed.

(** The atoms of a plain text, in the order of the text. *)
Lemma sequence_rev l :
  sequence (rev l) = fold_right Cat Eps l.
Proof.
  unfold sequence. rewrite <- (rev_involutive l) at 2.
  rewrite fold_left_rev_right. reflexivity.
Qed.

Lemma parse_plain_char c s cur stack prev :
  special c = false ->
  parse (String c s) cur stack prev = parse s (push cur (Chr c)) stack Atom.
Proof.
  unfold special. cbn [existsb]. intros H.
  repeat match goal with
         | [ H : (_ || _) = false |- _ ] => apply orb_false_elim in H as [? ?]
         end.
  cbn [parse]. unfold quantifier, unmodelled.
  repeat match goal with
         | [ H : (c =? _)%char = false |- _ ] => rewrite H; clear H
         | [ H : (_ =? _)%nat = false |- _ ] => rewrite H; clear H
         | [ H : (_ <=? _)%nat = false |- _ ] => rewrite H; clear H
         end.
  reflexivity.
Qed.

Lemma parse_plain q : forall front prev,
  plain q = true ->
  parse q {| alts := []; atoms := front |} [] prev
  = Pattern (sequence (rev (atoms_of q) ++ front)).
Proof.
  induction q as [|c q IH]; intros front prev H.
  - reflexivity.
  - simpl in H. apply andb_prop in H as [Hc Hq].
    apply negb_true_iff in Hc.
    rewrite (parse_plain_char _ _ _ _ _ Hc). unfold push. simpl.
    rewrite (IH _ _ Hq), <- app_assoc. reflexivity.
Qed.

(** A plain query compiles to the sequence of its characters. *)
Lemma compile_plain q :
  plain q = true -> compile q = Pattern (fold_right Cat Eps (atoms_of q)).
Proof.
  intros H. unfold compile, empty_frame. rewrite (parse_plain _ _ _ H).
  rewrite app_nil_r, sequence_rev. reflexivity.
Qed.

Lemma matches_at_plain q : forall s,
  matches_at (fold_right Cat Eps (atoms_of q)) s = starts_with q s.
Proof.
  induction q as [|c q IH]; intros s.
  - destruct s; reflexivity.
  - destruct s as [|d s]; [reflexivity|].
    cbn [atoms_of fold_right matches_at nullable deriv starts_with andb orb].
    destruct (same_letter c d); simpl.
    + rewrite matches_at_eps. apply IH.
    + apply matches_at_void.
Qed.

(** For a plain query, the search of the database is the search for a
    substring without case. *)
Lemma found_in_plain q s :
  found_in (fold_right Cat Eps (atoms_of q)) s = contains q s.
Proof.
  induction s as [|d s IH]; cbn [found_in contains];
    rewrite matches_at_plain; [reflexivity|].
  rewrite IH. reflexivity.
Qed.

End Patterns.

Section Sorting.

Lemma insert_desc_in b l x :
  In x (insert_desc b l) <-> x = b \/ In x l.
Proof.
  induction l as [|y l IH]; simpl.
  - intuition.
  - destruct (createdAt y <=? createdAt b); simpl; [intuition|].
    rewrite IH. intuition.
Qed.

Lemma sort_desc_in l x : In x (sort_desc l) <-> In x l.
Proof.
  induction l as [|y l IH]; simpl; [tauto|].
  rewrite insert_desc_in, IH. intuition.
Qed.

Lemma insert_desc_sorted b l :
  newest_first l -> newest_first (insert_desc b l).
Proof.
  unfold newest_first.
  induction l as [|y l IH]; intros S; simpl.
  - repeat constructor.
  - inversion S as [|? ? Sl Fy]; subst.
    destruct (createdAt y <=? createdAt b) eqn:E.
    + apply Z.leb_le in E. constructor; [exact S|].
      constructor; [exact E|].
      eapply Forall_impl; [|exact Fy]. simpl. intros; lia.
    + apply Z.leb_gt in E. constructor; [auto|].
      apply Forall_forall. intros x Hx. apply insert_desc_in in Hx.
      destruct Hx as [->|Hx]; [lia|].
      rewrite Forall_forall in Fy. auto.
Qed.

Lemma sort_desc_sorted l : newest_first (sort_desc l).
Proof.
  induction l as [|y l IH]; simpl; [constructor|].
  apply insert_desc_sorted. exact IH.
Qed.

Lemma sorted_app_inv (R : Bike -> Bike -> Prop) l1 l2 :
  StronglySorted R (l1 ++ l2) ->
  StronglySorted R l1 /\
  forall x y, In x l1 -> In y l2 -> R x y.
Proof.
  induction l1 as [|a l1 IH]; simpl; intros S.
  - split; [constructor|intros x y []].
  - inversion S as [|? ? S' F]; subst. apply IH in S' as [S1 H12].
    rewrite Forall_forall in F. split.
    + constructor; [exact S1|]. apply Forall_forall. intros x Hx.
      apply F. apply in_or_app. auto.
    + intros x y [<-|Hx] Hy; [|auto]. apply F. apply in_or_app. auto.
Qed.

(** The first [n] of a list that is sorted: still sorted, and what is
    left out comes after everything that is kept. *)
Lemma firstn_newest n l :
  newest_first l ->
  newest_first (firstn n l) /\
  (length (firstn n l) <= n)%nat /\
  (forall b, In b (firstn n l) -> In b l) /\
  (forall b, In b l ->
     In b (firstn n l) \/
     (length (firstn n l) = n /\
      forall x, In x (firstn n l) -> createdAt b <= createdAt x)).
Proof.
  intros S. unfold newest_first in *.
  rewrite <- (firstn_skipn n l) in S.
  apply sorted_app_inv in S as [S1 H12].
  split; [exact S1|]. split; [apply firstn_le_length|]. split.
  - intros b Hb. rewrite <- (firstn_skipn n l). apply in_or_app. auto.
  - intros b Hb. rewrite <- (firstn_skipn n l) in Hb.
    apply in_app_or in Hb as [Hb|Hb]; [auto|]. right. split.
    + apply firstn_length_le.
      destruct (Nat.le_gt_cases n (length l)) as [?|Hlt]; [assumption|].
      rewrite skipn_all2 in Hb by lia. destruct Hb.
    + intros x Hx. apply (H12 x b Hx Hb).
Qed.

(** The handler of GET /api/bikes/search, branch by branch. *)
Lemma search_result e query w :
  search e query w
  = if negb (JS.truthy query)
    then (Some (bad_request "Search query is required"), w)
    else
      match query with
      | None => (Some server_error, w)
      | Some q =>
          if db_up e then
            match Pcre.compile q with
            | Pcre.Pattern r =>
                (Some {| status := 200;
                         payload :=
                           Documents
                             (firstn 10
                                (sort_desc
                                   (filter (either_name r) (bikes w)))) |},
                 w)
            | Pcre.Invalid => (Some server_error, w)
            | Pcre.Beyond => (None, w)
            end
          else (Some server_error, w)
      end.
Proof.
  unfold search, try_catch, bind, when, send, find_regex.
  destruct (negb (JS.truthy query)); [reflexivity|].
  destruct query as [q|]; [|reflexivity]. simpl.
  destruct (db_up e); [|reflexivity].
  destruct (Pcre.compile q); reflexivity.
Qed.


Lemma filter_plain q c :
  filter (either_name (fold_right Pcre.Cat Pcre.Eps (atoms_of q))) c
  = filter (names_contain q) c.
Proof.
  apply filter_ext. intros b. unfold either_name, names_contain.
  rewrite !found_in_plain. reflexivity.
Qed.

End Sorting.





(* ================================================================== *)
(** ** GET /api/bikes                                                  *)
(* ================================================================== *)

Import Server Terms.

Section Listing.

(** The handler of GET /api/bikes, branch by branch. *)
Lemma list_bikes_result e w :
  list_bikes e w
  = if db_up e
    then (Some {| status := 200;
                  payload := Documents (sort_desc (bikes w)) |}, w)
    else (Some server_error, w).
Proof.
  unfold list_bikes, try_catch, bind, find_all, send.
  destruct (db_up e); reflexivity.
Qed.

Lemma insert_desc_perm b l : Permutation (insert_desc b l) (b :: l).
Proof.
  induction l as [|x l IH]; simpl; [reflexivity|].
  destruct (createdAt x <=? createdAt b); [reflexivity|].
  rewrite IH. apply perm_swap.
Qed.

Lemma sort_desc_perm l : Permutation (sort_desc l) l.
Proof.
  induction l as [|x l IH]; simpl; [reflexivity|].
  rewrite insert_desc_perm, IH. reflexivity.
Qed.

Lemma insert_desc_oldest b l :
  Forall (fun x => createdAt b < createdAt x) l ->
  insert_desc b l = (l ++ [b])%list.
Proof.
  induction 1 as [|x l Hx _ IH]; simpl; [reflexivity|].
  destruct (createdAt x <=? createdAt b) eqn:E; [apply Z.leb_le in E; lia|].
  rewrite IH. reflexivity.
Qed.

Lemma sort_desc_rev l : clock_grows l -> sort_desc l = rev l.
Proof.
  unfold clock_grows. induction 1 as [|x l _ IH Hx]; simpl; [reflexivity|].
  rewrite IH. apply insert_desc_oldest.
  apply Forall_forall. intros y Hy. apply in_rev in Hy.
  rewrite Forall_forall in Hx. auto.
Qed.

End Listing.

(** X1.  With the database reachable, the listing is answered with 200 and
    with every stored record, each as often as it is stored, sorted by
    creation time, newest first; with the database out of reach it is
    answered with 500.  The collection and the channel are left as they
    were. *)
Theorem listing_newest_first :
  forall e w,
    (db_up e = true ->
     exists found,
       list_bikes e w
       = (Some {| status := 200; payload := Documents found |}, w) /\
       Permutation found (bikes w) /\
       newest_first found) /\
    (db_up e = false -> list_bikes e w = (Some server_error, w)).
Proof.
  intros e w. rewrite list_bikes_result. split; intros ->; [|reflexivity].
  exists (sort_desc (bikes w)). split; [reflexivity|].
  split; [apply sort_desc_perm|apply sort_desc_sorted].
Qed.

(** The listing of the three stored reviews of the example. *)
Lemma listing_newest_first_witness :
  db_up Scenario.today = true /\
  exists found,
    list_bikes Scenario.today Scenario.garage
    = (Some {| status := 200; payload := Documents found |}, Scenario.garage)
    /\ Permutation found (bikes Scenario.garage)
    /\ newest_first found.
Proof.
  split; [reflexivity|].
  exact (proj1 (listing_newest_first Scenario.today Scenario.garage) eq_refl).
Defined.

(** X2.  When the records were created at instants that grow with the
    order of insertion, the listing is the collection in reverse: the
    record inserted last comes first. *)
Theorem listing_reverses_insertion :
  forall e w,
    db_up e = true ->
    clock_grows (bikes w) ->
    list_bikes e w
    = (Some {| status := 200; payload := Documents (rev (bikes w)) |}, w).
Proof.
  intros e w Hup Hgrow.
  rewrite list_bikes_result, Hup, (sort_desc_rev _ Hgrow). reflexivity.
Qed.

Lemma listing_reverses_insertion_witness :
  db_up Scenario.today = true /\
  clock_grows (bikes Scenario.garage) /\
  list_bikes Scenario.today Scenario.garage
  = (Some {| status := 200;
             payload := Documents (rev (bikes Scenario.garage)) |},
     Scenario.garage).
Proof.
  assert (G : clock_grows (bikes Scenario.garage)).
  { unfold clock_grows. simpl.
    repeat (constructor; [|repeat constructor; simpl; lia]). constructor. }
  split; [reflexivity|]. split; [exact G|].
  exact (listing_reverses_insertion Scenario.today Scenario.garage eq_refl G).
Defined.

(* ================================================================== *)
(** ** How a submission ends                                           *)
(* ================================================================== *)

Section Verdicts.

Lemma accepted_iff parts :
  accepted parts = true <->
  exists body files, Multer.array upload "bikeImages" 5 parts = inr (body, files).
Proof.
  unfold accepted. split.
  - intros H. apply andb_prop in H as [P L]. apply Nat.leb_le in L.
    destruct (array_accepts parts P L) as [fs A]. eauto.
  - intros (body & fs & A).
    apply array_inr in A as (_ & _ & L & P & _).
    rewrite P. apply Nat.leb_le in L. rewrite L. reflexivity.
Qed.

Lemma refused parts :
  accepted parts = false ->
  exists err, Multer.array upload "bikeImages" 5 parts = inl err.
Proof.
  intros H.
  destruct (Multer.array upload "bikeImages" 5 parts) as [err|[body fs]] eqn:A;
    [eauto|].
  assert (T : accepted parts = true) by (apply accepted_iff; eauto).
  congruence.
Qed.

(** The schema accepts the fields of the handler only when they are
    storable. *)
Lemma validate_storable id now_ body paths doc :
  validate id now_ (new_fields body paths) = Some doc -> storable body = true.
Proof.
  unfold validate, new_fields, storable, cast_number. simpl.
  destruct (required_string _); [|discriminate].
  destruct (required_string _); [|discriminate].
  destruct (required_string _); [|discriminate].
  destruct (required_string _); [|discriminate].
  destruct (JS.isNaN (JS.Number (Multer.lookup "purchaseYear" body)));
    [discriminate|].
  destruct (JS.isNaN (JS.Number (Multer.lookup "totalKM" body)));
    [discriminate|].
  destruct (JS.isNaN (JS.Number (Multer.lookup "bikeCost" body)));
    [discriminate|].
  destruct (JS.isNaN (JS.Number (Multer.lookup "costPerService" body)));
    [discriminate|].
  destruct (JS.isNaN (JS.Number (Multer.lookup "rating" body)));
    [discriminate|].
  destruct (cast_worth _); [|discriminate].
  reflexivity.
Qed.

(** The handler in terms of the request: what decides, and the answer. *)
Lemma submit_table e parts w :
  match verdict_of e parts w with
  | Refused =>
      exists err,
        Multer.array upload "bikeImages" 5 parts = inl err /\
        submit e parts w = (Some (default_error_handler err), w)
  | FieldsRejected =>
      submit e parts w
      = (Some (bad_request "All required fields must be provided"), w)
  | TooFewImages =>
      submit e parts w
      = (Some (bad_request "At least 3 images are required"), w)
  | Failed => submit e parts w = (Some server_error, w)
  | Created =>
      exists doc, submit e parts w = (Some (created doc), announced w doc)
  end.
Proof.
  unfold verdict_of.
  destruct (accepted parts) eqn:Acc; simpl.
  2:{ destruct (refused parts Acc) as [err A]. exists err.
      split; [exact A|]. apply submit_rejected. exact A. }
  apply accepted_iff in Acc as (body & fs & A).
  pose proof (array_inr _ _ _ A) as (-> & Hsrc & _ & _ & _).
  pose proof (length_files _ _ _ A) as L.
  rewrite (submit_accepted _ _ _ _ _ A). unfold add_result.
  destruct (required_missing (form parts)) eqn:M; [reflexivity|].
  destruct (rating_rejected _) eqn:R; simpl; [reflexivity|].
  rewrite L.
  destruct (length (uploads parts) <? 3)%nat; [reflexivity|].
  pose proof M as M'. unfold required_missing in M'.
  repeat match goal with
         | [ H : (_ || _) = false |- _ ] => apply orb_false_elim in H as [? ?]
         | [ H : negb _ = false |- _ ] => apply negb_false in H
         end.
  destruct (truthy_some (Multer.lookup "bikeName" (form parts)))
    as (bn & Eb & _); [assumption|].
  destruct (truthy_some (Multer.lookup "modelName" (form parts)))
    as (mn & Em & _); [assumption|].
  rewrite Eb, Em, decodes_through_source, Hsrc.
  fold (images_decode parts).
  destruct (images_decode parts); simpl; [|reflexivity].
  destruct (storable (form parts)) eqn:St; simpl.
  - assert (V : valid_fields (form parts) = true)
      by (unfold valid_fields; rewrite M, R, St; reflexivity).
    destruct (validate_accepts (newObjectId (drawn e)) (now e) (form parts)
                (map (reference (folderName bn mn)) fs) V) as [doc Hdoc].
    rewrite Hdoc. apply validate_some in Hdoc as (Hid & _).
    unfold can_insert. rewrite Hid.
    destruct (db_up e); simpl; [|reflexivity].
    destruct (find_id _ _); [reflexivity|]. exists doc. reflexivity.
  - destruct (validate _ _ _) as [doc|] eqn:V; [|reflexivity].
    apply validate_storable in V. congruence.
Qed.

End Verdicts.

Ltac settle_outcomes :=
  repeat match goal with |- _ /\ _ => split end;
  (split; intro);
  repeat match goal with
         | [ H : _ /\ _ |- _ ] => destruct H
         | [ H : exists _, _ |- _ ] => destruct H
         end;
  try discriminate; try congruence; repeat split; eauto.

(** X3.  Which regular requests end in which answer.  A regular
    submission (its parts have a name and values short of 1 MiB, and the
    names that the code reads are sent plainly) is answered
    with 201 exactly when the upload middleware passes it on, its fields
    are valid, it has at least three images, every image decodes and the
    database takes the record.  It is answered with the 400 of the field
    test exactly when it is passed on and a required text is missing or
    the rating is rejected, however many images it has; with the 400 of
    the image test exactly when it is passed on, passes the field test and
    has fewer than three images; with the 500 of the handler exactly when
    it passes both tests and an image, the schema or the database fails;
    and with the 500 of Express exactly when the middleware refuses it. *)
Theorem submit_outcomes :
  forall e parts w,
    regular parts = true ->
    let fields_rejected :=
      required_missing (form parts)
      || rating_rejected (Multer.lookup "rating" (form parts)) in
    let few := (length (uploads parts) <? 3)%nat in
    (status_of (submit e parts w) = Some 201 <->
     accepted parts = true /\ valid_fields (form parts) = true /\
     few = false /\ images_decode parts = true /\ can_insert e w = true) /\
    (fst (submit e parts w)
     = Some (bad_request "All required fields must be provided") <->
     accepted parts = true /\ fields_rejected = true) /\
    (fst (submit e parts w)
     = Some (bad_request "At least 3 images are required") <->
     accepted parts = true /\ fields_rejected = false /\ few = true) /\
    (fst (submit e parts w) = Some server_error <->
     accepted parts = true /\ fields_rejected = false /\ few = false /\
     images_decode parts && storable (form parts) && can_insert e w = false) /\
    ((exists err, fst (submit e parts w) = Some (default_error_handler err)) <->
     accepted parts = false).
Proof.
  intros e parts w _ fields_rejected few. subst fields_rejected few.
  pose proof (submit_table e parts w) as T.
  unfold verdict_of, valid_fields, status_of in *.
  destruct (accepted parts); simpl in T.
  2:{ destruct T as (err & _ & ->). simpl. settle_outcomes. }
  destruct (required_missing (form parts)
            || rating_rejected (Multer.lookup "rating" (form parts))) eqn:F;
    simpl in T.
  { rewrite T. simpl.
    apply orb_prop in F.
    assert (N : negb (required_missing (form parts))
                && negb (rating_rejected
                           (Multer.lookup "rating" (form parts))) = false).
    { destruct F as [-> | ->]; simpl; [reflexivity|apply andb_false_r]. }
    rewrite N. simpl. settle_outcomes. }
  apply orb_false_elim in F as [M R]. rewrite M, R. simpl.
  destruct (length (uploads parts) <? 3)%nat; simpl in T.
  { rewrite T. simpl. settle_outcomes. }
  destruct (images_decode parts && storable (form parts) && can_insert e w)
    eqn:G; simpl in T.
  - destruct T as (doc & ->). simpl.
    apply andb_prop in G as [G Hins]. apply andb_prop in G as [Hdec Hst].
    rewrite Hst, Hdec, Hins. settle_outcomes.
  - rewrite T. simpl. settle_outcomes.
    rewrite H0, H2, H3 in G. discriminate G.
Qed.

(** The scenario of the specification. *)
Lemma submit_outcomes_witness :
  regular Scenario.three_images = true /\
  (let e := Scenario.today in
   let parts := Scenario.three_images in
   let w := Scenario.empty in
   let fields_rejected :=
     required_missing (form parts)
     || rating_rejected (Multer.lookup "rating" (form parts)) in
   let few := (length (uploads parts) <? 3)%nat in
   (status_of (submit e parts w) = Some 201 <->
    accepted parts = true /\ valid_fields (form parts) = true /\
    few = false /\ images_decode parts = true /\ can_insert e w = true) /\
   (fst (submit e parts w)
    = Some (bad_request "All required fields must be provided") <->
    accepted parts = true /\ fields_rejected = true) /\
   (fst (submit e parts w)
    = Some (bad_request "At least 3 images are required") <->
    accepted parts = true /\ fields_rejected = false /\ few = true) /\
   (fst (submit e parts w) = Some server_error <->
    accepted parts = true /\ fields_rejected = false /\ few = false /\
    images_decode parts && storable (form parts) && can_insert e w = false) /\
   ((exists err,
        fst (submit e parts w) = Some (default_error_handler err)) <->
    accepted parts = false)).
Proof.
  assert (P : regular Scenario.three_images = true)
    by (vm_compute; reflexivity).
  split; [exact P|].
  exact (submit_outcomes Scenario.today Scenario.three_images Scenario.empty
           P).
Defined.

Section Edges.

(** What a validated document holds, path by path. *)
Lemma validate_inv id now_ f doc :
  validate id now_ f = Some doc ->
  _id doc = id /\ createdAt doc = now_ /\ images doc = f_images f /\
  required_string (f_riderName f) = Some (riderName doc) /\
  required_string (f_bikeName f) = Some (bikeName doc) /\
  required_string (f_modelName f) = Some (modelName doc) /\
  required_string (f_review f) = Some (review doc) /\
  cast_number (f_purchaseYear f) = Some (purchaseYear doc) /\
  cast_number (f_totalKM f) = Some (totalKM doc) /\
  cast_number (f_bikeCost f) = Some (bikeCost doc) /\
  cast_number (f_costPerService f) = Some (costPerService doc) /\
  cast_number (f_rating f) = Some (rating doc) /\
  cast_worth (f_worthTheCost f) = Some (worthTheCost doc) /\
  in_range 1 5 (rating doc) = true.
Proof.
  unfold validate.
  destruct (required_string (f_riderName f)); [|discriminate].
  destruct (required_string (f_bikeName f)); [|discriminate].
  destruct (required_string (f_modelName f)); [|discriminate].
  destruct (required_string (f_review f)); [|discriminate].
  destruct (cast_number (f_purchaseYear f)); [|discriminate].
  destruct (cast_number (f_totalKM f)); [|discriminate].
  destruct (cast_number (f_bikeCost f)); [|discriminate].
  destruct (cast_number (f_costPerService f)); [|discriminate].
  destruct (cast_number (f_rating f)); [|discriminate].
  destruct (cast_worth (f_worthTheCost f)); [|discriminate].
  destruct (in_range 1 5 n3) eqn:R; [|discriminate].
  intros [= <-]. simpl. repeat split; auto.
Qed.

Lemma required_string_some v s :
  required_string v = Some s -> v = Some s /\ s <> "".
Proof.
  destruct v as [t|]; simpl; [|discriminate].
  destruct (t =? "")%string eqn:E; [discriminate|].
  intros [= <-]. apply String.eqb_neq in E. auto.
Qed.

Lemma cast_number_some n m :
  cast_number n = Some m -> m = n /\ JS.isNaN m = false.
Proof.
  unfold cast_number. destruct (JS.isNaN n) eqn:E; [discriminate|].
  intros [= <-]. auto.
Qed.

Lemma cast_worth_of v stored : cast_worth v = Some stored -> worth_of v stored.
Proof.
  unfold cast_worth, worth_of. destruct v as [s|]; [|intros [= <-]; auto].
  destruct (s =? "Yes")%string eqn:Y.
  { apply String.eqb_eq in Y. intros [= <-]. auto. }
  destruct (s =? "Definitely Yes")%string eqn:D.
  { apply String.eqb_eq in D. intros [= <-]. auto. }
  destruct (s =? "No")%string eqn:N; [|discriminate].
  apply String.eqb_eq in N. intros [= <-]. auto.
Qed.

(** A successful submission, with the document that the schema made of
    the form. *)
Lemma submit_created_inv e parts w doc w' :
  submit e parts w = (Some (created doc), w') ->
  exists fs bn mn,
    Multer.array upload "bikeImages" 5 parts = inr (form parts, fs) /\
    (3 <= length fs)%nat /\
    validate (newObjectId (drawn e)) (now e)
      (new_fields (form parts) (map (reference (folderName bn mn)) fs))
    = Some doc /\
    find_id (_id doc) (bikes w) = None /\
    w' = announced w doc.
Proof.
  intros H.
  apply submit_inv in H as [(_ & resp & [= <-] & [Hst|Hst])|H];
    try discriminate.
  destruct H as (body & fs & bn & mn & doc' & A & _ & _ & L & _ & _ & _ & V
                 & _ & F & [= <-] & ->).
  pose proof (array_inr _ _ _ A) as (-> & _).
  exists fs, bn, mn. auto.
Qed.

Lemma placeable_names pre : forall b u rest,
  (Multer.originalname u =? "")%string = false ->
  placeable b (pre ++ Multer.File u :: rest)%list = true ->
  JS.truthy (Multer.lookup "bikeName" (b ++ form pre)%list) = true /\
  JS.truthy (Multer.lookup "modelName" (b ++ form pre)%list) = true.
Proof.
  induction pre as [|p pre IH]; intros b u rest Hu H.
  - simpl in H. rewrite Hu in H. rewrite app_nil_r.
    apply andb_prop in H as [H _]. apply andb_prop in H. exact H.
  - destruct p as [k v|f]; simpl in H.
    + apply IH in H; [|exact Hu]. rewrite <- app_assoc in H. exact H.
    + simpl. destruct (Multer.originalname f =? "")%string.
      * apply (IH _ _ _ Hu H).
      * apply andb_prop in H as [_ H]. apply (IH _ _ _ Hu H).
Qed.

End Edges.

(** X4.  A rating that is not a number passes the rating test of the
    handler, since no comparison with NaN holds; the schema then fails to
    cast it, and the submission is answered with 500 instead of 400.
    Nothing is stored. *)
Theorem rating_not_a_number :
  forall e parts w s,
    accepted parts = true ->
    required_missing (form parts) = false ->
    (3 <= length (uploads parts))%nat ->
    Multer.lookup "rating" (form parts) = Some s ->
    s <> "" ->
    JS.ToNumber s = JS.NaN ->
    submit e parts w = (Some server_error, w).
Proof.
  intros e parts w s Acc M L Hr Hs Hn.
  pose proof (submit_table e parts w) as T. unfold verdict_of in T.
  rewrite Acc, M, Hr in T. simpl in T.
  unfold rating_rejected, JS.lt_lit, JS.gt_lit, JS.gtb in T. simpl in T.
  rewrite Hn in T. simpl in T.
  apply String.eqb_neq in Hs. rewrite Hs in T. simpl in T.
  destruct (length (uploads parts) <? 3)%nat eqn:F;
    [apply Nat.ltb_lt in F; lia|].
  unfold storable in T. rewrite Hr in T. simpl in T. rewrite Hn in T.
  simpl in T. rewrite andb_false_r in T. exact T.
Qed.

(** The scenario of the specification with the rating [abc]. *)
Lemma rating_not_a_number_witness :
  accepted (Scenario.rated "abc") = true /\
  required_missing (form (Scenario.rated "abc")) = false /\
  (3 <= length (uploads (Scenario.rated "abc")))%nat /\
  Multer.lookup "rating" (form (Scenario.rated "abc")) = Some "abc" /\
  "abc" <> "" /\
  JS.ToNumber "abc" = JS.NaN /\
  submit Scenario.today (Scenario.rated "abc") Scenario.empty
  = (Some server_error, Scenario.empty).
Proof.
  assert (Acc : accepted (Scenario.rated "abc") = true)
    by (vm_compute; reflexivity).
  assert (M : required_missing (form (Scenario.rated "abc")) = false)
    by (vm_compute; reflexivity).
  assert (L : (3 <= length (uploads (Scenario.rated "abc")))%nat)
    by (vm_compute; lia).
  assert (Hr : Multer.lookup "rating" (form (Scenario.rated "abc"))
               = Some "abc") by (vm_compute; reflexivity).
  assert (Hs : "abc" <> "") by discriminate.
  assert (Hn : JS.ToNumber "abc" = JS.NaN) by (vm_compute; reflexivity).
  repeat (split; [assumption|]).
  exact (rating_not_a_number Scenario.today (Scenario.rated "abc")
           Scenario.empty "abc" Acc M L Hr Hs Hn).
Defined.

(** X5.  The storage places a file when it arrives, with the fields that
    were parsed before it.  A request in which an image comes before the
    bike name or before the model name is refused by the upload
    middleware and answered with 500 by Express, whatever follows the
    image and however valid the fields are; nothing is stored. *)
Theorem image_before_names :
  forall e w pre u rest,
    Multer.originalname u <> "" ->
    JS.truthy (Multer.lookup "bikeName" (form pre)) = false
    \/ JS.truthy (Multer.lookup "modelName" (form pre)) = false ->
    exists err,
      submit e (pre ++ Multer.File u :: rest)%list w
      = (Some (default_error_handler err), w) /\
      status (default_error_handler err) = 500.
Proof.
  intros e w pre u rest Hu Hmiss.
  apply String.eqb_neq in Hu.
  assert (R : accepted (pre ++ Multer.File u :: rest)%list = false).
  { unfold accepted, passes_filters.
    destruct (placeable [] (pre ++ Multer.File u :: rest)%list) eqn:P.
    - apply (placeable_names pre [] u rest Hu) in P. simpl in P.
      destruct P as [Pb Pm]. destruct Hmiss; congruence.
    - rewrite andb_false_r. reflexivity. }
  destruct (refused _ R) as [err A]. exists err.
  split; [apply submit_rejected; exact A|reflexivity].
Qed.

(** The scenario of the specification with its images in front of its
    fields. *)
Lemma image_before_names_witness :
  Multer.originalname (Scenario.picture 1 "image/jpeg" 204800) <> "" /\
  (JS.truthy (Multer.lookup "bikeName" (form [])) = false
   \/ JS.truthy (Multer.lookup "modelName" (form [])) = false) /\
  exists err,
    submit Scenario.today
      ([] ++ Multer.File (Scenario.picture 1 "image/jpeg" 204800)
          :: (Scenario.jpeg 2 :: Scenario.jpeg 3 :: Scenario.texts))%list
      Scenario.empty
    = (Some (default_error_handler err), Scenario.empty) /\
    status (default_error_handler err) = 500.
Proof.
  assert (Hu : Multer.originalname (Scenario.picture 1 "image/jpeg" 204800)
               <> "") by discriminate.
  assert (Hm : JS.truthy (Multer.lookup "bikeName" (form [])) = false
               \/ JS.truthy (Multer.lookup "modelName" (form [])) = false)
    by (left; reflexivity).
  split; [exact Hu|]. split; [exact Hm|].
  exact (image_before_names Scenario.today Scenario.empty []
           (Scenario.picture 1 "image/jpeg" 204800)
           (Scenario.jpeg 2 :: Scenario.jpeg 3 :: Scenario.texts) Hu Hm).
Defined.

(** X6.  The record of a successful submission holds the form as it was
    sent: the four texts unchanged, each numeric field as the number that
    [Number] reads from its text (the integer [z] for the decimal digits
    of [z] as long as [z] is at most [2^53] in size, beyond which [Number]
    rounds; and 0 for a field that is sent empty), and for [worthTheCost]
    the value of the form, which is then one of the three values of the
    enum, or [Yes] when the form has none. *)
Theorem record_holds_the_form :
  forall e parts w doc w',
    submit e parts w = (Some (created doc), w') ->
    (forall name get,
        In (name, get) text_fields ->
        Multer.lookup name (form parts) = Some (get doc)) /\
    (forall name get,
        In (name, get) numeric_fields ->
        get doc = JS.Number (Multer.lookup name (form parts)) /\
        (forall z,
            Z.abs z <= 2 ^ 53 ->
            Multer.lookup name (form parts) = Some (JS.string_of_integer z) ->
            is_integer (get doc) z) /\
        (Multer.lookup name (form parts) = Some "" -> get doc = JS.of_Z 0)) /\
    worth_of (Multer.lookup "worthTheCost" (form parts)) (worthTheCost doc).
Proof.
  intros e parts w doc w' H.
  apply submit_created_inv in H as (fs & bn & mn & _ & _ & V & _).
  apply validate_inv in V
    as (_ & _ & _ & R1 & R2 & R3 & R4 & N1 & N2 & N3 & N4 & N5 & Wo & _).
  simpl in *.
  split; [|split].
  - intros name get Hin.
    repeat (destruct Hin as [[= <- <-]|Hin];
            [match goal with
             | [ H : required_string _ = Some (?g doc) |- _ = Some (?g doc) ] =>
                 apply required_string_some in H; apply H
             end|]).
    destruct Hin.
  - intros name get Hin.
    assert (E : get doc = JS.Number (Multer.lookup name (form parts))).
    { repeat (destruct Hin as [[= <- <-]|Hin];
              [match goal with
               | [ H : cast_number _ = Some (?g doc) |- ?g doc = _ ] =>
                   apply cast_number_some in H; apply H
               end|]).
      destruct Hin. }
    split; [exact E|]. split.
    + intros z Hle Hz. rewrite E, Hz. apply ToNumber_decimal. exact Hle.
    + intros Hz. rewrite E, Hz. reflexivity.
  - apply cast_worth_of. exact Wo.
Qed.

(** The scenario of the specification: the stored total is 15000. *)
Lemma record_holds_the_form_witness :
  exists doc w',
    submit Scenario.today Scenario.three_images Scenario.empty
    = (Some (created doc), w') /\
    Multer.lookup "riderName" (form Scenario.three_images)
    = Some (riderName doc) /\
    is_integer (totalKM doc) 15000 /\
    worthTheCost doc = DefinitelyYes.
Proof.
  destruct (submit Scenario.today Scenario.three_images Scenario.empty)
    as [r w'] eqn:S.
  assert (R : exists doc, r = Some (created doc)).
  { vm_compute in S. injection S as <- _. eexists. reflexivity. }
  destruct R as (doc & ->).
  destruct (record_holds_the_form Scenario.today Scenario.three_images
              Scenario.empty doc w' S) as (Ht & Hn & Hw).
  exists doc, w'. split; [reflexivity|]. split; [|split].
  - apply (Ht "riderName" riderName). left. reflexivity.
  - apply (Hn "totalKM" totalKM); [right; left; reflexivity| |].
    + vm_compute. discriminate.
    + vm_compute. reflexivity.
  - change (Multer.lookup "worthTheCost" (form Scenario.three_images))
      with (Some "Definitely Yes") in Hw.
    destruct Hw as [[Y _]|[[_ D]|[N _]]]; [discriminate|exact D|discriminate].
Defined.

(* ================================================================== *)
(** ** What the server keeps true                                      *)
(* ================================================================== *)

Section Invariants.

(** A request leaves the world as it was, or adds one record that is well
    kept, has a new identifier, and is announced. *)
Lemma handle_step e r w :
  snd (handle e r w) = w \/
  exists doc,
    snd (handle e r w) = announced w doc /\
    well_kept doc /\
    find_id (_id doc) (bikes w) = None /\
    (_id doc < 2 ^ 96)%N.
Proof.
  destruct r as [|query|id|parts]; simpl.
  - left. rewrite list_bikes_result. destruct (db_up e); reflexivity.
  - left. rewrite search_result.
    destruct (negb (JS.truthy query)); [reflexivity|].
    destruct query as [q|]; [|reflexivity].
    destruct (db_up e); [|reflexivity].
    destruct (Pcre.compile q); reflexivity.
  - left. rewrite getById_result.
    destruct (castObjectId id); [|reflexivity].
    destruct (db_up e); [|reflexivity].
    destruct (find_id _ _); reflexivity.
  - destruct (submit e parts w) as [r w'] eqn:S. simpl.
    pose proof S as S'.
    apply submit_inv in S' as [(-> & _)|H]; [left; reflexivity|].
    destruct H as (body & fs & bn & mn & doc & A & _ & _ & L & _ & _ & _ & V
                   & _ & F & _ & ->).
    right. exists doc. split; [reflexivity|].
    pose proof (length_files _ _ _ A) as Lf.
    pose proof (array_inr _ _ _ A) as (_ & _ & L5 & _).
    apply validate_inv in V
      as (Hid & _ & Himg & R1 & R2 & R3 & R4 & N1 & N2 & N3 & N4 & _ & _ & Rg).
    simpl in Himg.
    apply required_string_some in R1, R2, R3, R4.
    apply cast_number_some in N1, N2, N3, N4.
    split; [|split; [exact F|rewrite Hid; apply newObjectId_bound]].
    unfold well_kept. rewrite Himg, length_map. intuition lia.
Qed.

Lemma announcements_app c doc :
  announcements (c ++ [doc])%list
  = ((announcements c ++ [Inserted doc]) ++ [Emitted "newReview" doc])%list.
Proof.
  unfold announcements. rewrite flat_map_app. simpl.
  rewrite <- app_assoc. reflexivity.
Qed.

Lemma announced_well_formed w doc :
  well_formed w ->
  find_id (_id doc) (bikes w) = None ->
  (_id doc < 2 ^ 96)%N ->
  well_formed (announced w doc).
Proof.
  intros [ND B] F Hid. unfold well_formed, announced. simpl. split.
  - rewrite map_app. simpl.
    apply NoDup_app; [exact ND|constructor; [intros []|constructor]|].
    intros x Hx. rewrite in_map_iff in Hx. destruct Hx as (b & <- & Hb).
    intros [Hd|[]]. rewrite find_id_none in F. apply (F b Hb). auto.
  - apply Forall_app. split; [exact B|]. constructor; [exact Hid|constructor].
Qed.

Lemma reachable_kept w :
  reachable w ->
  Forall well_kept (bikes w) /\ well_formed w /\
  log w = announcements (bikes w).
Proof.
  induction 1 as [|e r w _ (K & WF & Lg)].
  - repeat split; constructor.
  - destruct (handle_step e r w) as [->|(doc & -> & Kd & F & Hid)];
      [auto|].
    split; [|split].
    + simpl. apply Forall_app. split; [exact K|]. constructor; [exact Kd|].
      constructor.
    + apply announced_well_formed; assumption.
    + simpl. rewrite announcements_app, Lg. reflexivity.
Qed.

Lemma evolves_reachable w w' : reachable w -> evolves w w' -> reachable w'.
Proof. intros R. induction 1; [exact R|constructor; assumption]. Qed.

Lemma evolves_extends w w' :
  evolves w w' -> exists added, bikes w' = (bikes w ++ added)%list.
Proof.
  induction 1 as [|e r w' _ (added & IH)].
  - exists []. rewrite app_nil_r. reflexivity.
  - destruct (handle_step e r w') as [->|(doc & -> & _)].
    + exists added. exact IH.
    + exists (added ++ [doc])%list. simpl. rewrite IH, app_assoc.
      reflexivity.
Qed.

End Invariants.

(** X7.  Whatever is requested, and whatever the environment answers,
    every record of the collection has between three and five image
    references, a rating between 1 and 5, non-empty texts and numeric
    fields that are numbers; and no two records share an identifier. *)
Theorem stored_records_are_well_kept :
  forall w,
    reachable w ->
    Forall well_kept (bikes w) /\ NoDup (map _id (bikes w)).
Proof.
  intros w R. apply reachable_kept in R as (K & [ND _] & _). auto.
Qed.

(** The world after the scenario of the specification. *)
Lemma stored_records_are_well_kept_witness :
  reachable after_one /\
  Forall well_kept (bikes after_one) /\
  NoDup (map _id (bikes after_one)).
Proof.
  assert (R : reachable after_one) by (apply reach_step; apply reach_start).
  split; [exact R|].
  exact (stored_records_are_well_kept after_one R).
Defined.

(** X8.  Whatever is requested, the notification channel has carried
    exactly one [newReview] event for every record of the collection, in
    the order of insertion and each after its insertion, and nothing
    else: no record is stored without being announced, and nothing is
    announced that is not stored. *)
Theorem every_record_is_announced_once :
  forall w, reachable w -> log w = announcements (bikes w).
Proof.
  intros w R. apply reachable_kept in R as (_ & _ & Lg). exact Lg.
Qed.

(** The world after two submissions. *)
Lemma every_record_is_announced_once_witness :
  reachable after_two /\
  log after_two = announcements (bikes after_two).
Proof.
  assert (R : reachable after_two)
    by (do 2 apply reach_step; apply reach_start).
  split; [exact R|].
  exact (every_record_is_announced_once after_two R).
Defined.

(** X9.  No request removes or changes a record: after any sequence of
    requests the collection is the earlier collection followed by what
    was added, and, with the database reachable, a request for the
    identifier of an earlier record is still answered with 200 and that
    record. *)
Theorem records_are_never_lost :
  forall w w',
    reachable w ->
    evolves w w' ->
    (exists added, bikes w' = (bikes w ++ added)%list) /\
    (forall e b,
        db_up e = true ->
        In b (bikes w) ->
        getById e (toHexString (_id b)) w'
        = (Some {| status := 200; payload := Document b |}, w')).
Proof.
  intros w w' R E.
  pose proof (evolves_extends _ _ E) as (added & Hadd).
  split; [eauto|].
  intros e b Hup Hb.
  apply (evolves_reachable _ _ R) in E.
  apply reachable_kept in E as (_ & [ND B] & _).
  assert (Hb' : In b (bikes w')) by (rewrite Hadd; apply in_or_app; auto).
  rewrite getById_result. rewrite Forall_forall in B.
  rewrite (cast_toHexString _ (B b Hb')), Hup, (find_id_unique _ _ ND Hb').
  reflexivity.
Qed.

(** The record of the first submission, after the second. *)
Lemma records_are_never_lost_witness :
  reachable after_one /\
  evolves after_one after_two /\
  (exists added, bikes after_two = (bikes after_one ++ added)%list) /\
  (forall e b,
      db_up e = true ->
      In b (bikes after_one) ->
      getById e (toHexString (_id b)) after_two
      = (Some {| status := 200; payload := Document b |}, after_two)).
Proof.
  assert (R : reachable after_one) by (apply reach_step; apply reach_start).
  assert (E : evolves after_one after_two)
    by (apply evolves_step; apply evolves_refl).
  split; [exact R|]. split; [exact E|].
  exact (records_are_never_lost after_one after_two R E).
Defined.

(* ================================================================== *)
(** ** Reading what was submitted                                      *)
(* ================================================================== *)

Section Reading.

(** The search for a plain query, with the database reachable. *)
Lemma search_plain_result e w q :
  q <> "" -> plain q = true -> db_up e = true ->
  search e (Some q) w
  = (Some {| status := 200;
             payload :=
               Documents
                 (firstn 10
                    (sort_desc (filter (names_contain q) (bikes w)))) |}, w).
Proof.
  intros Hq Hp Hup. rewrite search_result. simpl.
  apply String.eqb_neq in Hq. rewrite Hq. simpl.
  rewrite Hup, (compile_plain _ Hp), filter_plain. reflexivity.
Qed.

Lemma same_letter_left c c' d :
  Pcre.same_letter c c' = true ->
  Pcre.same_letter c d = Pcre.same_letter c' d.
Proof.
  unfold Pcre.same_letter. intros H. apply Ascii.eqb_eq in H.
  rewrite H. reflexivity.
Qed.

Lemma starts_with_same q : forall q' s,
  same_text q q' = true -> starts_with q s = starts_with q' s.
Proof.
  induction q as [|c q IH]; intros [|c' q'] s H; try discriminate.
  - reflexivity.
  - simpl in H. apply andb_prop in H as [Hc Hq].
    destruct s as [|d s]; [reflexivity|]. simpl.
    rewrite (same_letter_left _ _ d Hc), (IH _ s Hq). reflexivity.
Qed.

Lemma contains_same q q' s :
  same_text q q' = true -> contains q s = contains q' s.
Proof.
  intros H. induction s as [|d s IH]; simpl;
    rewrite (starts_with_same _ _ _ H); [reflexivity|].
  rewrite IH. reflexivity.
Qed.

Lemma same_text_empty q q' :
  same_text q q' = true -> (q =? "")%string = (q' =? "")%string.
Proof. destruct q, q'; simpl; try discriminate; reflexivity. Qed.

Lemma same_letter_refl c : Pcre.same_letter c c = true.
Proof. unfold Pcre.same_letter. apply Ascii.eqb_refl. Qed.

Lemma starts_with_app q s : starts_with q (q ++ s) = true.
Proof.
  induction q as [|c q IH]; simpl; [reflexivity|].
  rewrite same_letter_refl, IH. reflexivity.
Qed.

Lemma contains_start q s : starts_with q s = true -> contains q s = true.
Proof. intros H. destruct s; simpl; rewrite H; reflexivity. Qed.

Lemma contains_part a q s : contains q (a ++ (q ++ s)) = true.
Proof.
  induction a as [|c a IH].
  - change ("" ++ (q ++ s)) with (q ++ s).
    apply contains_start. apply starts_with_app.
  - cbn [append contains]. rewrite IH. apply orb_true_r.
Qed.

End Reading.

(** X10.  The search does not tell the case of the letters of a query:
    two queries without special characters that differ only in the case
    of their letters are answered alike. *)
Theorem search_ignores_case :
  forall e w q q',
    plain q = true -> plain q' = true ->
    same_text q q' = true ->
    search e (Some q) w = search e (Some q') w.
Proof.
  intros e w q q' Hp Hp' Hs.
  rewrite !search_result. simpl.
  rewrite (same_text_empty _ _ Hs).
  destruct (q' =? "")%string; [reflexivity|]. simpl.
  destruct (db_up e); [|reflexivity].
  rewrite (compile_plain _ Hp), (compile_plain _ Hp'), !filter_plain.
  rewrite (filter_ext (names_contain q) (names_contain q')); [reflexivity|].
  intros b. unfold names_contain.
  rewrite !(contains_same _ _ _ Hs). reflexivity.
Qed.

(** The queries [royal] and [ROYAL]. *)
Lemma search_ignores_case_witness :
  plain "royal" = true /\ plain "ROYAL" = true /\
  same_text "royal" "ROYAL" = true /\
  search Scenario.today (Some "royal") Scenario.garage
  = search Scenario.today (Some "ROYAL") Scenario.garage.
Proof.
  assert (Hp : plain "royal" = true) by (vm_compute; reflexivity).
  assert (Hp' : plain "ROYAL" = true) by (vm_compute; reflexivity).
  assert (Hs : same_text "royal" "ROYAL" = true) by (vm_compute; reflexivity).
  repeat (split; [assumption|]).
  exact (search_ignores_case Scenario.today Scenario.garage "royal" "ROYAL"
           Hp Hp' Hs).
Defined.

(** X11.  A record that was submitted is found again: with the database
    reachable, a later search for a text without special characters that
    is a part of its bike name or of its model name (the whole name, for
    one) returns the record, unless ten matching records are returned
    that are at least as new. *)
Theorem submitted_record_is_found :
  forall e parts w doc w' e' a q s,
    submit e parts w = (Some (created doc), w') ->
    bikeName doc = a ++ (q ++ s) \/ modelName doc = a ++ (q ++ s) ->
    q <> "" -> plain q = true ->
    db_up e' = true ->
    exists found,
      search e' (Some q) w'
      = (Some {| status := 200; payload := Documents found |}, w') /\
      (In doc found \/
       (length found = 10%nat /\
        forall x, In x found -> createdAt doc <= createdAt x)).
Proof.
  intros e parts w doc w' e' a q s H Hpart Hq Hp Hup.
  apply submit_created_inv in H as (_ & _ & _ & _ & _ & _ & _ & ->).
  rewrite (search_plain_result _ _ _ Hq Hp Hup).
  eexists. split; [reflexivity|].
  pose proof (firstn_newest 10 _
                (sort_desc_sorted
                   (filter (names_contain q) (bikes (announced w doc)))))
    as (_ & _ & _ & Hall).
  apply Hall. rewrite sort_desc_in, filter_In. split.
  - simpl. apply in_or_app. right. left. reflexivity.
  - unfold names_contain.
    destruct Hpart as [-> | ->]; rewrite contains_part;
      [reflexivity|apply orb_true_r].
Qed.

(** The scenario of the specification, searched for [enfield]. *)
Lemma submitted_record_is_found_witness :
  exists doc w',
    submit Scenario.today Scenario.three_images Scenario.empty
    = (Some (created doc), w') /\
    (bikeName doc = "Royal " ++ ("Enfield" ++ "")
     \/ modelName doc = "Royal " ++ ("Enfield" ++ "")) /\
    "Enfield" <> "" /\ plain "Enfield" = true /\
    db_up Scenario.later = true /\
    exists found,
      search Scenario.later (Some "Enfield") w'
      = (Some {| status := 200; payload := Documents found |}, w') /\
      (In doc found \/
       (length found = 10%nat /\
        forall x, In x found -> createdAt doc <= createdAt x)).
Proof.
  destruct (submit Scenario.today Scenario.three_images Scenario.empty)
    as [r w'] eqn:S.
  assert (R : exists doc, r = Some (created doc)
                          /\ bikeName doc = "Royal " ++ ("Enfield" ++ "")).
  { vm_compute in S. injection S as <- _. eexists.
    split; reflexivity. }
  destruct R as (doc & -> & Hb).
  assert (Hq : "Enfield" <> "") by discriminate.
  assert (Hp : plain "Enfield" = true) by (vm_compute; reflexivity).
  exists doc, w'. split; [reflexivity|]. split; [left; exact Hb|].
  split; [exact Hq|]. split; [exact Hp|]. split; [reflexivity|].
  exact (submitted_record_is_found Scenario.today Scenario.three_images
           Scenario.empty doc w' Scenario.later "Royal " "Enfield" ""
           S (or_introl Hb) Hq Hp eq_refl).
Defined.

(** X12.  A record that was submitted is listed: with the database
    reachable, the listing after a successful submission holds the new
    record and every record that was stored before, and nothing else. *)
Theorem submitted_record_is_listed :
  forall e parts w doc w' e',
    submit e parts w = (Some (created doc), w') ->
    db_up e' = true ->
    exists found,
      list_bikes e' w'
      = (Some {| status := 200; payload := Documents found |}, w') /\
      In doc found /\
      Permutation found (doc :: bikes w) /\
      newest_first found.
Proof.
  intros e parts w doc w' e' H Hup.
  apply submit_created_inv in H as (_ & _ & _ & _ & _ & _ & _ & ->).
  rewrite list_bikes_result, Hup.
  eexists. split; [reflexivity|].
  assert (P : Permutation (sort_desc (bikes (announced w doc)))
                (doc :: bikes w)).
  { rewrite sort_desc_perm. simpl. rewrite Permutation_app_comm.
    reflexivity. }
  split; [|split; [exact P|apply sort_desc_sorted]].
  apply (Permutation_in _ (Permutation_sym P)). left. reflexivity.
Qed.

Lemma submitted_record_is_listed_witness :
  exists doc w',
    submit Scenario.today Scenario.three_images Scenario.empty
    = (Some (created doc), w') /\
    db_up Scenario.later = true /\
    exists found,
      list_bikes Scenario.later w'
      = (Some {| status := 200; payload := Documents found |}, w') /\
      In doc found /\
      Permutation found (doc :: bikes Scenario.empty) /\
      newest_first found.
Proof.
  destruct (submit Scenario.today Scenario.three_images Scenario.empty)
    as [r w'] eqn:S.
  assert (R : exists doc, r = Some (created doc)).
  { vm_compute in S. injection S as <- _. eexists. reflexivity. }
  destruct R as (doc & ->).
  exists doc, w'. split; [reflexivity|]. split; [reflexivity|].
  exact (submitted_record_is_listed Scenario.today Scenario.three_images
           Scenario.empty doc w' Scenario.later S eq_refl).
Defined.

(* ================================================================== *)
(** ** The names of the stored files                                   *)
(* ================================================================== *)

Section Extensions.

Lemma list_ascii_app a b :
  list_ascii_of_string (a ++ b)
  = (list_ascii_of_string a ++ list_ascii_of_string b)%list.
Proof. induction a as [|c a IH]; simpl; [reflexivity|]. rewrite IH. reflexivity. Qed.

Lemma split_dot_some l suffix front :
  Path.split_dot l = Some (suffix, front) ->
  l = (suffix ++ "."%char :: front)%list /\
  Forall (fun c => c <> "."%char) suffix.
Proof.
  revert suffix front. induction l as [|c l IH]; intros suffix front;
    simpl; [discriminate|].
  destruct (c =? ".")%char eqn:E.
  - apply Ascii.eqb_eq in E. intros [= <- <-]. subst c. split; [reflexivity|].
    constructor.
  - destruct (Path.split_dot l) as [[s f]|]; [|discriminate].
    intros [= <- <-]. destruct (IH s f eq_refl) as [-> Hs].
    apply Ascii.eqb_neq in E. split; [reflexivity|]. constructor; assumption.
Qed.

Lemma split_dot_app suffix front :
  Forall (fun c => c <> "."%char) suffix ->
  Path.split_dot (suffix ++ "."%char :: front) = Some (suffix, front).
Proof.
  induction 1 as [|c suffix Hc _ IH]; simpl; [reflexivity|].
  apply Ascii.eqb_neq in Hc. rewrite Hc, IH. reflexivity.
Qed.

Lemma split_dot_none l :
  Forall (fun c => c <> "."%char) l -> Path.split_dot l = None.
Proof.
  induction 1 as [|c l Hc _ IH]; simpl; [reflexivity|].
  apply Ascii.eqb_neq in Hc. rewrite Hc, IH. reflexivity.
Qed.

Lemma until_slash_free l : Forall (fun c => c <> "/"%char) (Path.until_slash l).
Proof.
  induction l as [|c l IH]; simpl; [constructor|].
  destruct (c =? "/")%char eqn:E; [constructor|].
  apply Ascii.eqb_neq in E. constructor; assumption.
Qed.

Lemma until_slash_app m r :
  Forall (fun c => c <> "/"%char) m ->
  Path.until_slash (m ++ "/"%char :: r) = m.
Proof.
  induction 1 as [|c m Hc _ IH]; simpl; [reflexivity|].
  apply Ascii.eqb_neq in Hc. rewrite Hc, IH. reflexivity.
Qed.

Lemma drop_slashes_head c l :
  c <> "/"%char -> Path.drop_slashes (c :: l) = c :: l.
Proof. intros H. simpl. apply Ascii.eqb_neq in H. rewrite H. reflexivity. Qed.

(** An extension is empty, or a dot followed by characters that are
    neither a dot nor a slash. *)
Lemma extname_shape o :
  Path.extname o = "" \/
  exists t, Forall clean t /\
            Path.extname o = string_of_list_ascii ("."%char :: t).
Proof.
  unfold Path.extname.
  set (portion := Path.until_slash _).
  pose proof (until_slash_free
                (Path.drop_slashes (rev (list_ascii_of_string o)))) as Free.
  fold portion in Free.
  destruct (Path.split_dot portion) as [[suffix front]|] eqn:S; [|auto].
  apply split_dot_some in S as [E Hs].
  assert (C : Forall clean (rev suffix)).
  { apply Forall_forall. intros c Hc. apply in_rev in Hc.
    rewrite Forall_forall in Hs, Free. split; [auto|].
    apply Free. rewrite E. apply in_or_app. auto. }
  clear E Hs Free. destruct front as [|c front]; [auto|].
  destruct c as [[] [] [] [] [] [] [] []], front, suffix;
    try (left; reflexivity);
    right; eexists; (split; [exact C|reflexivity]).
Qed.

(** The extension of a path whose last portion is a clean name followed
    by an extension. *)
Lemma extname_join pre a t :
  a <> [] -> Forall clean a -> Forall clean t ->
  Path.extname (string_of_list_ascii (pre ++ "/"%char :: a ++ "."%char :: t))
  = string_of_list_ascii ("."%char :: t).
Proof.
  intros Ha Ca Ct. unfold Path.extname.
  rewrite list_ascii_of_string_of_list_ascii.
  replace (rev (pre ++ "/"%char :: a ++ "."%char :: t))
    with ((rev t ++ "."%char :: rev a) ++ "/"%char :: rev pre)%list.
  2:{ rewrite rev_app_distr. simpl. rewrite rev_app_distr. simpl.
      rewrite <- !app_assoc. reflexivity. }
  assert (Crt : Forall clean (rev t)).
  { apply Forall_forall. intros c Hc. apply in_rev in Hc.
    rewrite Forall_forall in Ct. auto. }
  assert (Cra : Forall clean (rev a)).
  { apply Forall_forall. intros c Hc. apply in_rev in Hc.
    rewrite Forall_forall in Ca. auto. }
  assert (D : Path.drop_slashes
                ((rev t ++ "."%char :: rev a) ++ "/"%char :: rev pre)
              = ((rev t ++ "."%char :: rev a) ++ "/"%char :: rev pre)%list).
  { destruct (rev t) as [|c rt] eqn:E; simpl app.
    - apply drop_slashes_head. discriminate.
    - apply drop_slashes_head. inversion Crt as [|? ? [? ?] ?]. assumption. }
  rewrite D, until_slash_app.
  2:{ apply Forall_app. split.
      - eapply Forall_impl; [|exact Crt]. unfold clean. tauto.
      - constructor; [discriminate|].
        eapply Forall_impl; [|exact Cra]. unfold clean. tauto. }
  rewrite split_dot_app
    by (eapply Forall_impl; [|exact Crt]; unfold clean; tauto).
  rewrite rev_involutive.
  destruct (rev a) as [|c ra] eqn:E.
  - exfalso. apply Ha. rewrite <- (rev_involutive a), E. reflexivity.
  - assert (Hc : c <> "."%char)
      by (inversion Cra as [|? ? [? ?] ?]; assumption).
    clear - Hc.
    destruct c as [[] [] [] [] [] [] [] []], ra, (rev t); try reflexivity;
      exfalso; apply Hc; reflexivity.
Qed.

Lemma extname_join_none pre a :
  a <> [] -> Forall clean a ->
  Path.extname (string_of_list_ascii (pre ++ "/"%char :: a)) = "".
Proof.
  intros Ha Ca. unfold Path.extname.
  rewrite list_ascii_of_string_of_list_ascii.
  replace (rev (pre ++ "/"%char :: a))
    with (rev a ++ "/"%char :: rev pre)%list.
  2:{ rewrite rev_app_distr. simpl. rewrite <- app_assoc. reflexivity. }
  assert (Cra : Forall clean (rev a)).
  { apply Forall_forall. intros c Hc. apply in_rev in Hc.
    rewrite Forall_forall in Ca. auto. }
  destruct (rev a) as [|c ra] eqn:E.
  { exfalso. apply Ha. rewrite <- (rev_involutive a), E. reflexivity. }
  clear E. simpl app.
  rewrite drop_slashes_head
    by (inversion Cra as [|? ? [? ?] ?]; assumption).
  change (c :: ra ++ "/"%char :: rev pre)%list
    with ((c :: ra) ++ "/"%char :: rev pre)%list.
  rewrite until_slash_app
    by (eapply Forall_impl; [|exact Cra]; unfold clean; tauto).
  rewrite split_dot_none
    by (eapply Forall_impl; [|exact Cra]; unfold clean; tauto).
  reflexivity.
Qed.

Lemma uint_clean d :
  Forall clean (list_ascii_of_string (NilEmpty.string_of_uint d)).
Proof.
  induction d; simpl; constructor; try assumption; split; discriminate.
Qed.

Lemma integer_clean z :
  Forall clean (list_ascii_of_string (JS.string_of_integer z)).
Proof.
  unfold JS.string_of_integer.
  destruct (Z.to_int z) as [d|d]; simpl.
  - destruct d; try apply uint_clean.
    repeat constructor; discriminate.
  - constructor; [split; discriminate|].
    destruct d; try apply uint_clean.
    repeat constructor; discriminate.
Qed.

(** The reference of a stored file ends in the extension of the original
    name. *)
Lemma reference_extname folder f :
  Multer.filename f = unique_name (Multer.source f) ->
  Path.extname (reference folder f)
  = Path.extname (Multer.originalname (Multer.source f)).
Proof.
  intros Hname. unfold reference. rewrite Hname. unfold unique_name.
  set (u := Multer.source f).
  set (a := (list_ascii_of_string "compressed-"
             ++ list_ascii_of_string (JS.string_of_integer (Multer.clock u))
             ++ "-"%char
             :: list_ascii_of_string
                  (JS.string_of_integer (Multer.random u)))%list).
  set (pre := (list_ascii_of_string "/uploads/"
               ++ list_ascii_of_string folder)%list).
  assert (Ca : Forall clean a).
  { unfold a. apply Forall_app. split.
    - simpl. repeat constructor; discriminate.
    - apply Forall_app. split; [apply integer_clean|].
      constructor; [split; discriminate|apply integer_clean]. }
  assert (Ha : a <> []) by (unfold a; discriminate).
  assert (E : forall ext,
    "/uploads/" ++ folder ++ "/"
    ++ ("compressed-"
        ++ (JS.string_of_integer (Multer.clock u) ++ "-"
            ++ JS.string_of_integer (Multer.random u)) ++ ext)
    = string_of_list_ascii
        (pre ++ "/"%char :: a ++ list_ascii_of_string ext)).
  { intros ext. rewrite <- (string_of_list_ascii_of_string (_ ++ _)).
    f_equal. unfold pre, a.
    repeat (rewrite list_ascii_app; simpl).
    repeat (rewrite <- app_assoc; simpl). reflexivity. }
  rewrite E.
  destruct (extname_shape (Multer.originalname u)) as [-> | (t & Ct & ->)].
  - change (list_ascii_of_string "") with (@nil ascii). rewrite app_nil_r.
    apply extname_join_none; assumption.
  - rewrite list_ascii_of_string_of_list_ascii.
    apply extname_join; assumption.
Qed.

End Extensions.

(** X13.  The image references of a created record stand one for each
    image, in the order of the images in the request.  The reference of
    an image is [/uploads/<folder>/compressed-<clock>-<random><ext>],
    with the folder of the record's bike and model name and with [ext]
    the extension of the name that Multer reports for the upload
    ([file.originalname]); and the extension of the reference as a path
    is that same extension.  The image is encoded as JPEG again, but the
    reference of a [photo.png] stays a [.png], and a name without an
    extension gives a reference without one. *)
Theorem reference_keeps_extension :
  forall e parts w doc w',
    submit e parts w = (Some (created doc), w') ->
    Forall2
      (fun u ref =>
         ref = "/uploads/" ++ folderName (bikeName doc) (modelName doc)
               ++ "/compressed-"
               ++ (JS.string_of_integer (Multer.clock u) ++ "-"
                   ++ JS.string_of_integer (Multer.random u))
               ++ Path.extname (Multer.originalname u) /\
         Path.extname ref = Path.extname (Multer.originalname u))
      (uploads parts) (images doc).
Proof.
  intros e parts w doc w' H.
  apply submit_inv in H as [(_ & resp & [= <-] & [Hst|Hst])|H];
    try discriminate.
  destruct H as (body & fs & bn & mn & doc' & A & _ & _ & _ & Hb & Hm & _ & V
                 & _ & _ & [= <-] & _).
  apply array_inr in A as (-> & Hsrc & _ & _ & Hst).
  apply validate_inv in V as (_ & _ & Himg & _ & R2 & R3 & _).
  simpl in Himg, R2, R3.
  apply required_string_some in R2 as [R2 _].
  apply required_string_some in R3 as [R3 _].
  rewrite Hb in R2. rewrite Hm in R3.
  injection R2 as ->. injection R3 as ->.
  rewrite Himg, <- Hsrc. clear - Hst.
  induction Hst as [|f fs [Hname _] _ IH]; simpl; constructor; [|exact IH].
  split.
  - unfold reference. rewrite Hname. reflexivity.
  - apply reference_extname. exact Hname.
Qed.

(** Three images named [front.PNG], [side] and [rear.tar.gz]. *)
Lemma reference_keeps_extension_witness :
  exists doc w',
    submit Scenario.today mixed_names Scenario.empty
    = (Some (created doc), w') /\
    images doc
    = ["/uploads/RoyalEnfield-Himalayan/compressed-1730000000001-43.PNG";
       "/uploads/RoyalEnfield-Himalayan/compressed-1730000000002-44";
       "/uploads/RoyalEnfield-Himalayan/compressed-1730000000003-45.gz"] /\
    map Path.extname (images doc) = [".PNG"; ""; ".gz"] /\
    Forall2
      (fun u ref =>
         ref = "/uploads/" ++ folderName (bikeName doc) (modelName doc)
               ++ "/compressed-"
               ++ (JS.string_of_integer (Multer.clock u) ++ "-"
                   ++ JS.string_of_integer (Multer.random u))
               ++ Path.extname (Multer.originalname u) /\
         Path.extname ref = Path.extname (Multer.originalname u))
      (uploads mixed_names) (images doc).
Proof.
  destruct (submit Scenario.today mixed_names Scenario.empty)
    as [r w'] eqn:S.
  assert (R : exists doc,
             r = Some (created doc) /\
             images doc
             = ["/uploads/RoyalEnfield-Himalayan/compressed-1730000000001-43.PNG";
                "/uploads/RoyalEnfield-Himalayan/compressed-1730000000002-44";
                "/uploads/RoyalEnfield-Himalayan/compressed-1730000000003-45.gz"]
             /\ map Path.extname (images doc) = [".PNG"; ""; ".gz"]).
  { vm_compute in S. injection S as <- _. eexists.
    split; [reflexivity|]. split; vm_compute; reflexivity. }
  destruct R as (doc & -> & Hi & Hx).
  exists doc, w'. split; [reflexivity|]. split; [exact Hi|].
  split; [exact Hx|].
  exact (reference_keeps_extension Scenario.today mixed_names Scenario.empty
           doc w' S).
Defined.

(* ================================================================== *)
(** ** The variant with a remote image store                           *)
(* ================================================================== *)

Section Remote_variant.

Variable s : Remote.store.

(** The handler of the remote variant, branch by branch. *)
Lemma remote_handler_result e body files w :
  Remote.add_handler e body files w = remote_result e body files w.
Proof.
  unfold Remote.add_handler, remote_result, required_missing,
    rating_rejected, new_fields.
  rewrite !orb_assoc.
  unfold try_catch. unfold bind at 1. unfold when at 1.
  destruct (_ || _ || _ || _ || _ || _ || _); [reflexivity|].
  unfold ret at 1. unfold bind at 1. unfold when at 1.
  destruct (length files <? 3)%nat; [reflexivity|].
  unfold ret at 1. unfold bind at 1. unfold save.
  destruct (validate _ _ _) as [doc|]; [|reflexivity].
  destruct (db_up e); [|reflexivity].
  unfold insert. destruct (find_id (_id doc) (bikes w)); reflexivity.
Qed.

Lemma params_inr b f t :
  Remote.params b f = inr t ->
  exists bn mn,
    Multer.lookup "bikeName" b = Some bn /\
    Multer.lookup "modelName" b = Some mn /\
    t = {| Remote.folder := "bike-reviews/" ++ folderName bn mn;
           Remote.format := "jpeg";
           Remote.public_id :=
             JS.string_of_integer (Multer.clock f) ++ "-"
             ++ JS.string_of_integer (Multer.random f) |}.
Proof.
  unfold Remote.params.
  destruct (JS.truthy (Multer.lookup "bikeName" b)) eqn:Hb; [|discriminate].
  destruct (JS.truthy (Multer.lookup "modelName" b)) eqn:Hm; [|discriminate].
  apply truthy_some in Hb as (bn & Hb & _).
  apply truthy_some in Hm as (mn & Hm & _).
  rewrite Hb, Hm. simpl. intros [= <-]. exists bn, mn. auto.
Qed.

(** What the remote storage hands to the handler. *)
Lemma remote_accept_inr parts : forall left b files body fs,
  Remote.accept s "bikeImages" left parts b files = inr (body, fs) ->
  body = (b ++ form parts)%list /\
  exists new,
    fs = (rev files ++ new)%list /\
    map Remote.source new = uploads parts /\
    (length (uploads parts) <= left)%nat /\
    Forall (sent s body) new.
Proof.
  induction parts as [|p parts IH]; intros left b files body fs H.
  - simpl in H. injection H as <- <-. rewrite !app_nil_r.
    split; [reflexivity|]. exists []. rewrite app_nil_r.
    repeat split; simpl; auto with arith.
  - destruct p as [k v|f]; simpl in H.
    + apply IH in H as (-> & new & -> & Hsrc & Hlen & Hst).
      rewrite <- app_assoc. simpl. split; [reflexivity|].
      exists new. repeat split; auto.
      rewrite <- app_assoc in Hst. exact Hst.
    + simpl. destruct (Multer.originalname f =? "")%string eqn:Hname.
      { apply IH in H. exact H. }
      destruct (Multer.fieldname f =? "bikeImages")%string eqn:Hfield;
        simpl in H; [|discriminate].
      destruct left as [|left]; [discriminate|].
      unfold fileFilter in H.
      destruct (includes allowedTypes (Multer.mimetype f)) eqn:Htype;
        [|discriminate].
      destruct (Remote.params b f) as [?|t] eqn:Hp; [discriminate|].
      destruct (_ <=? Multer.size f) eqn:Hsize; [discriminate|].
      destruct (s t f) as [url|] eqn:Hs; [|discriminate].
      apply IH in H as (-> & new & -> & Hsrc & Hlen & Hst).
      split; [reflexivity|].
      eexists (_ :: new). simpl. rewrite <- app_assoc. simpl.
      split; [reflexivity|].
      split; [rewrite Hsrc; reflexivity|].
      split; [lia|].
      constructor; [|exact Hst].
      apply params_inr in Hp as (bn & mn & Hb & Hm & ->).
      exists bn, mn. simpl. repeat split; auto using lookup_app.
Qed.

Hypothesis stores : always_stores s.

(** With a store that never fails, the two storages accept the same
    requests, and hand the same files to the handler. *)
Lemma accept_agree parts : forall left b files rfiles,
  map Multer.source files = map Remote.source rfiles ->
  match Multer.accept upload "bikeImages" left parts b files,
        Remote.accept s "bikeImages" left parts b rfiles with
  | inl _, inl _ => True
  | inr (body, fs), inr (body', rfs) =>
      body = body' /\ map Multer.source fs = map Remote.source rfs
  | _, _ => False
  end.
Proof.
  induction parts as [|p parts IH]; intros left b files rfiles Hacc.
  - simpl. split; [reflexivity|]. rewrite !map_rev, Hacc. reflexivity.
  - destruct p as [k v|f]; simpl.
    + apply IH. exact Hacc.
    + destruct (Multer.originalname f =? "")%string; [apply IH; exact Hacc|].
      destruct (Multer.fieldname f =? "bikeImages")%string; simpl; [|exact I].
      destruct left as [|left]; [exact I|].
      destruct (fileFilter b f) as [?|[|]]; [exact I| |apply IH; exact Hacc].
      unfold destination, Remote.params.
      destruct (negb (JS.truthy (Multer.lookup "bikeName" b))
                || negb (JS.truthy (Multer.lookup "modelName" b)));
        [exact I|].
      destruct (Multer.lookup "bikeName" b) as [bn|]; [|exact I].
      destruct (Multer.lookup "modelName" b) as [mn|]; [|exact I].
      destruct (_ <=? Multer.size f); [exact I|].
      match goal with
      | |- context [s ?t f] =>
          destruct (s t f) as [url|] eqn:Hs; [|destruct (stores _ _ Hs)]
      end.
      apply IH. simpl. rewrite Hacc. reflexivity.
Qed.

Lemma validate_with_images id now_ body p q doc :
  validate id now_ (new_fields body p) = Some doc ->
  validate id now_ (new_fields body q) = Some (with_images doc q).
Proof.
  unfold validate, new_fields; simpl.
  destruct (required_string _); [|discriminate].
  destruct (required_string _); [|discriminate].
  destruct (required_string _); [|discriminate].
  destruct (required_string _); [|discriminate].
  destruct (cast_number _); [|discriminate].
  destruct (cast_number _); [|discriminate].
  destruct (cast_number _); [|discriminate].
  destruct (cast_number _); [|discriminate].
  destruct (cast_number _); [|discriminate].
  destruct (cast_worth _); [|discriminate].
  destruct (in_range 1 5 _); [|discriminate].
  intros [= <-]. reflexivity.
Qed.

(** The two handlers agree when every image decodes. *)
Lemma handlers_agree e body fs rfs w :
  length fs = length rfs ->
  forallb (fun f => Multer.decodes (Multer.source f)) fs = true ->
  status_of (remote_result e body rfs w)
  = status_of (add_result e body fs w) /\
  forall doc w',
    add_result e body fs w = (Some (created doc), w') ->
    remote_result e body rfs w
    = (Some (created (with_images doc (map Remote.path rfs))),
       announced w (with_images doc (map Remote.path rfs))).
Proof.
  intros L D. unfold remote_result, add_result. rewrite <- L, D.
  destruct (required_missing body) eqn:M; simpl.
  { split; [reflexivity|discriminate]. }
  destruct (rating_rejected _); simpl.
  { split; [reflexivity|discriminate]. }
  destruct (length fs <? 3)%nat.
  { split; [reflexivity|discriminate]. }
  unfold required_missing in M.
  repeat match goal with
         | [ H : (_ || _) = false |- _ ] => apply orb_false_elim in H as [? ?]
         | [ H : negb _ = false |- _ ] => apply negb_false in H
         end.
  destruct (truthy_some (Multer.lookup "bikeName" body))
    as (bn & Eb & _); [assumption|].
  destruct (truthy_some (Multer.lookup "modelName" body))
    as (mn & Em & _); [assumption|].
  rewrite Eb, Em.
  destruct (validate _ _ (new_fields body (map (reference _) fs)))
    as [doc|] eqn:V.
  - rewrite (validate_with_images _ _ _ _ (map Remote.path rfs) _ V).
    change (_id (with_images doc (map Remote.path rfs))) with (_id doc).
    destruct (db_up e); [|split; [reflexivity|discriminate]].
    destruct (find_id _ _); [split; [reflexivity|discriminate]|].
    split; [reflexivity|]. intros doc' w' [= <- <-]. reflexivity.
  - destruct (validate _ _ (new_fields body (map Remote.path rfs)))
      as [doc|] eqn:V'.
    + apply (validate_with_images _ _ _ _ (map (reference (folderName bn mn))
                                             fs)) in V'. congruence.
    + split; [reflexivity|discriminate].
Qed.

End Remote_variant.

(** X14.  In the variant with a remote image store, the image references
    of a created record are the locators that the store returned, one per
    image and in the order of the images in the request; each image was
    sent to the folder [bike-reviews/<key>] of the record's grouping key,
    with the format [jpeg] and a public identifier made of the clock and
    a random integer. *)
Theorem remote_references :
  forall s e parts w doc w',
    Remote.submit s e parts w = (Some (created doc), w') ->
    Forall2 (fun u url => s (target_of doc u) u = Some url)
      (uploads parts) (images doc).
Proof.
  intros s e parts w doc w' H. unfold Remote.submit in H.
  destruct (Remote.accept s "bikeImages" 5 parts [] []) as [err|[body fs]]
    eqn:A; [discriminate|].
  rewrite remote_handler_result in H. unfold remote_result in H.
  destruct (_ || _); [discriminate|].
  destruct (length fs <? 3)%nat; [discriminate|].
  destruct (validate _ _ _) as [doc'|] eqn:V; [|discriminate].
  destruct (db_up e); [|discriminate].
  destruct (find_id _ _); [discriminate|].
  injection H as <- _.
  apply remote_accept_inr in A as (-> & new & -> & Hsrc & _ & Hst).
  apply validate_inv in V as (_ & _ & Himg & _ & Rb & Rm & _).
  simpl in Himg, Rb, Rm, Hst.
  apply required_string_some in Rb as [Rb _].
  apply required_string_some in Rm as [Rm _].
  rewrite Himg, <- Hsrc. clear Himg Hsrc.
  induction Hst as [|f new (bn & mn & Hb & Hm & Ht & Hs) _ IH]; simpl;
    constructor; [|exact IH].
  rewrite Rb in Hb. rewrite Rm in Hm.
  injection Hb as <-. injection Hm as <-.
  unfold target_of. rewrite <- folderName_key, <- Ht. exact Hs.
Qed.

(** The scenario of the specification, sent to a store that answers with
    a locator made of the folder and the public identifier. *)
Lemma remote_references_witness :
  exists doc w',
    Remote.submit plain_store Scenario.today Scenario.three_images
      Scenario.empty
    = (Some (created doc), w') /\
    images doc
    = ["https://store.example/bike-reviews/RoyalEnfield-Himalayan/1730000000001-43.jpeg";
       "https://store.example/bike-reviews/RoyalEnfield-Himalayan/1730000000002-44.jpeg";
       "https://store.example/bike-reviews/RoyalEnfield-Himalayan/1730000000003-45.jpeg"]
    /\
    Forall2 (fun u url => plain_store (target_of doc u) u = Some url)
      (uploads Scenario.three_images) (images doc).
Proof.
  destruct (Remote.submit plain_store Scenario.today Scenario.three_images
              Scenario.empty) as [r w'] eqn:S.
  assert (R : exists doc, r = Some (created doc) /\
                          images doc
    = ["https://store.example/bike-reviews/RoyalEnfield-Himalayan/1730000000001-43.jpeg";
       "https://store.example/bike-reviews/RoyalEnfield-Himalayan/1730000000002-44.jpeg";
       "https://store.example/bike-reviews/RoyalEnfield-Himalayan/1730000000003-45.jpeg"]).
  { vm_compute in S. injection S as <- _. eexists. split; reflexivity. }
  destruct R as (doc & -> & Hi).
  exists doc, w'. split; [reflexivity|]. split; [exact Hi|].
  exact (remote_references plain_store Scenario.today Scenario.three_images
           Scenario.empty doc w' S).
Defined.

(** X15.  The two variants differ only in the image references.  When
    the object store never fails and every image decodes, a request is
    answered with the same status by both; and when the local variant
    creates a record, the remote variant creates the same record but for
    the references, and leaves the same collection and channel but for
    them. *)
Theorem variants_agree :
  forall s e parts w,
    always_stores s ->
    images_decode parts = true ->
    status_of (Remote.submit s e parts w) = status_of (submit e parts w) /\
    forall doc w',
      submit e parts w = (Some (created doc), w') ->
      exists refs,
        length refs = length (images doc) /\
        Remote.submit s e parts w
        = (Some (created (with_images doc refs)),
           announced w (with_images doc refs)).
Proof.
  intros s e parts w Hs Hdec.
  pose proof (accept_agree s Hs parts 5 [] [] [] eq_refl) as Agree.
  unfold submit, Remote.submit, Multer.array.
  destruct (Multer.accept upload "bikeImages" 5 parts [] [])
    as [err|[body fs]] eqn:A;
    destruct (Remote.accept s "bikeImages" 5 parts [] [])
      as [err'|[body' rfs]] eqn:A'; try contradiction.
  - split; [reflexivity|discriminate].
  - destruct Agree as [<- Hsrc].
    pose proof (array_inr parts body fs A) as (_ & Hup & _).
    assert (L : length fs = length rfs).
    { rewrite <- (length_map Multer.source fs), Hsrc, length_map.
      reflexivity. }
    assert (D : forallb (fun f => Multer.decodes (Multer.source f)) fs = true).
    { rewrite decodes_through_source, Hup. exact Hdec. }
    rewrite add_handler_result, remote_handler_result.
    destruct (handlers_agree e body fs rfs w L D) as [Hst Hdoc].
    split; [exact Hst|].
    intros doc w' Hc. exists (map Remote.path rfs). split.
    + pose proof Hc as Hc'. unfold add_result in Hc'.
      destruct (_ || _); [discriminate|].
      destruct (length fs <? 3)%nat; [discriminate|].
      destruct (Multer.lookup "bikeName" body); [|discriminate].
      destruct (Multer.lookup "modelName" body); [|discriminate].
      destruct (forallb _ fs); [|discriminate].
      destruct (validate _ _ _) as [doc'|] eqn:V; [|discriminate].
      destruct (db_up e); [|discriminate].
      destruct (find_id _ _); [discriminate|].
      injection Hc' as <- _.
      apply validate_inv in V as (_ & _ & -> & _). simpl.
      rewrite !length_map. symmetry. exact L.
    + apply (Hdoc doc w' Hc).
Qed.

Lemma variants_agree_witness :
  always_stores plain_store /\
  images_decode Scenario.three_images = true /\
  status_of (Remote.submit plain_store Scenario.today Scenario.three_images
               Scenario.empty)
  = status_of (submit Scenario.today Scenario.three_images Scenario.empty) /\
  forall doc w',
    submit Scenario.today Scenario.three_images Scenario.empty
    = (Some (created doc), w') ->
    exists refs,
      length refs = length (images doc) /\
      Remote.submit plain_store Scenario.today Scenario.three_images
        Scenario.empty
      = (Some (created (with_images doc refs)),
         announced Scenario.empty (with_images doc refs)).
Proof.
  assert (Hs : always_stores plain_store) by (intros t u; discriminate).
  assert (Hd : images_decode Scenario.three_images = true)
    by (vm_compute; reflexivity).
  split; [exact Hs|]. split; [exact Hd|].
  exact (variants_agree plain_store Scenario.today Scenario.three_images
           Scenario.empty Hs Hd).
Defined.

(** X16.  Neither the handler nor the schema asks the rating to be an
    integer.  A regular submission (its parts have a name and values
    short of 1 MiB, and the names that the code reads are sent plainly)
    that is valid otherwise and whose rating is a text that
    [Number] reads as a number between 1 and 5, with a fraction or
    without, is answered with 201, and the record holds that number: the
    binary64 nearest to what the text denotes. *)
Theorem fractional_rating_is_accepted :
  forall e parts w s q,
    regular parts = true ->
    accepted parts = true ->
    required_missing (form parts) = false ->
    (3 <= length (uploads parts))%nat ->
    Multer.lookup "rating" (form parts) = Some s ->
    s <> "" ->
    JS.ToNumber s = JS.Fin q ->
    (inject_Z 1 <= q)%Q -> (q <= inject_Z 5)%Q ->
    storable (form parts) = true ->
    images_decode parts = true ->
    can_insert e w = true ->
    exists doc,
      submit e parts w = (Some (created doc), announced w doc) /\
      rating doc = JS.Fin q.
Proof.
  intros e parts w s q _ Acc M L Hr Hs Hn H1 H5 St Dec Ins.
  pose proof (submit_table e parts w) as T. unfold verdict_of in T.
  rewrite Acc, M, Hr, St, Dec, Ins in T. simpl in T.
  unfold rating_rejected, JS.lt_lit, JS.gt_lit, JS.gtb in T. simpl in T.
  rewrite Hn in T. simpl in T.
  apply String.eqb_neq in Hs. rewrite Hs in T.
  apply Qle_bool_iff in H1, H5. rewrite H1, H5 in T. simpl in T.
  destruct (length (uploads parts) <? 3)%nat eqn:F;
    [apply Nat.ltb_lt in F; lia|].
  destruct T as (doc & T). exists doc. split; [exact T|].
  apply submit_created_inv in T as (fs & bn & mn & _ & _ & V & _).
  apply validate_inv in V as (_ & _ & _ & _ & _ & _ & _ & _ & _ & _ & _ & N5
                              & _).
  apply cast_number_some in N5 as [N5 _]. simpl in N5.
  rewrite N5, Hr. simpl. exact Hn.
Qed.

(** The scenario of the specification with the rating [4.1], which is
    stored as the binary64 nearest to it, [2308094809027379 / 2^49]. *)
Lemma fractional_rating_is_accepted_witness :
  regular (Scenario.rated "4.1") = true /\
  accepted (Scenario.rated "4.1") = true /\
  required_missing (form (Scenario.rated "4.1")) = false /\
  (3 <= length (uploads (Scenario.rated "4.1")))%nat /\
  Multer.lookup "rating" (form (Scenario.rated "4.1")) = Some "4.1" /\
  "4.1" <> "" /\
  JS.ToNumber "4.1" = JS.Fin (2308094809027379 # 562949953421312) /\
  (inject_Z 1 <= 2308094809027379 # 562949953421312)%Q /\ (2308094809027379 # 562949953421312 <= inject_Z 5)%Q /\
  storable (form (Scenario.rated "4.1")) = true /\
  images_decode (Scenario.rated "4.1") = true /\
  can_insert Scenario.today Scenario.empty = true /\
  exists doc,
    submit Scenario.today (Scenario.rated "4.1") Scenario.empty
    = (Some (created doc), announced Scenario.empty doc) /\
    rating doc = JS.Fin (2308094809027379 # 562949953421312).
Proof.
  assert (Pl : regular (Scenario.rated "4.1") = true)
    by (vm_compute; reflexivity).
  assert (Acc : accepted (Scenario.rated "4.1") = true)
    by (vm_compute; reflexivity).
  assert (M : required_missing (form (Scenario.rated "4.1")) = false)
    by (vm_compute; reflexivity).
  assert (L : (3 <= length (uploads (Scenario.rated "4.1")))%nat)
    by (vm_compute; lia).
  assert (Hr : Multer.lookup "rating" (form (Scenario.rated "4.1"))
               = Some "4.1") by (vm_compute; reflexivity).
  assert (Hs : "4.1" <> "") by discriminate.
  assert (Hn : JS.ToNumber "4.1" = JS.Fin (2308094809027379 # 562949953421312))
    by (vm_compute; reflexivity).
  assert (H1 : (inject_Z 1 <= 2308094809027379 # 562949953421312)%Q)
    by (unfold Qle; simpl; lia).
  assert (H5 : (2308094809027379 # 562949953421312 <= inject_Z 5)%Q)
    by (unfold Qle; simpl; lia).
  assert (St : storable (form (Scenario.rated "4.1")) = true)
    by (vm_compute; reflexivity).
  assert (Dec : images_decode (Scenario.rated "4.1") = true)
    by (vm_compute; reflexivity).
  assert (Ins : can_insert Scenario.today Scenario.empty = true)
    by (vm_compute; reflexivity).
  repeat (split; [assumption|]).
  exact (fractional_rating_is_accepted Scenario.today (Scenario.rated "4.1")
           Scenario.empty "4.1" (2308094809027379 # 562949953421312) Pl Acc M L Hr Hs Hn H1 H5 St Dec Ins).
Defined.
